(** * CineRecommend: the FastAPI service and the Streamlit front end

    A shallow embedding of the request handlers of [src/api/main.py] and of
    the query methods of [CineRecommendApp] in [src/streamlit_app/app.py],
    followed by the properties the specification states about them.

    Modelling conventions.
    - A pandas DataFrame is the list of its rows, in index order; a global
      that may still be [None] is an [option].
    - Python [int] is [Z].  Python [float] is [Q] with exact arithmetic:
      the handlers only add, multiply and compare floats, binary64 rounding
      is monotone, and the bounds compared against (0, 0.5, 1 and 5) are
      representable, so the order facts proved on [Q] survive rounding.
    - Strings are byte strings; case folding is the ASCII one.
    - A raised exception is the [Err] branch of [Result].
    - numpy's global generator is explicit state: a computation takes the
      state the generator is in and returns the state it leaves behind.
      The Mersenne Twister is library code; the handlers are written over
      the interface [RandomState], which records numpy's contract for the
      calls the repository makes. *)

From Stdlib Require Import ZArith QArith Lqa List String Ascii Bool Lia.
From Stdlib Require Import Sorted Permutation.
From Stdlib Require OrderedTypeEx.
Import ListNotations.

(** * Part I: the embedding *)

(** ** Exceptions and results *)

Inductive PyError : Type :=
| HTTPException (status_code : Z) (detail : string)
| RequestValidationError (loc : string)
| ValidationError (loc : string)
| ValueError (msg : string)
| IndexError (msg : string)
| AttributeError (msg : string)
| ReNotModelled (pattern : string).

Inductive Result (A : Type) : Type :=
| Ok (a : A)
| Err (e : PyError).

Arguments Ok {A} a.
Arguments Err {A} e.

(** ** Tables *)

(** A row of [movies_df].  [row_title] is [None] for a missing (NaN) cell. *)
Record MovieRow : Type := mkMovieRow {
  row_movieId : Z;
  row_title : option string;
  row_genres : string
}.

(** A row of [ratings_df]. *)
Record RatingRow : Type := mkRatingRow {
  r_userId : Z;
  r_movieId : Z;
  r_rating : Q;
  r_timestamp : Z
}.

(** The module globals [movies_df] and [ratings_df] of main.py, and the
    attributes of the same names of [CineRecommendApp]. *)
Record Data : Type := mkData {
  movies_df : option (list MovieRow);
  ratings_df : option (list RatingRow)
}.

(** [DataManager.load_data], which runs when main.py is imported: both
    globals are assigned, from the two CSV files when they can be read and
    from [create_sample_data] otherwise.  [csv] is the content of the two
    files when both exist and parse; [sample] stands for the tables
    [create_sample_data] builds. *)
Definition load_data (csv : option (list MovieRow * list RatingRow))
    (sample : list MovieRow * list RatingRow) : Data :=
  match csv with
  | Some (movies, ratings) => mkData (Some movies) (Some ratings)
  | None => mkData (Some (fst sample)) (Some (snd sample))
  end.

(** ** numpy's global generator *)

Definition seed_bound : Z := 2 ^ 32.

Record RandomState : Type := mkRandomState {
  rng : Type;
  (** [mt19937_seed], reached through [np.random.seed(k)] for
      [0 <= k < 2**32] *)
  mt19937_seed : Z -> rng;
  (** [np.random.random()]: a float of the half-open interval [0, 1) *)
  random_sample : rng -> Q * rng;
  random_sample_ge : forall s, 0 <= fst (random_sample s);
  random_sample_lt : forall s, fst (random_sample s) < 1;
  (** [np.random.choice(a)] on a sequence of [k] elements: the position
      of the element drawn *)
  choice_index : nat -> rng -> nat * rng;
  choice_index_lt :
    forall k s, (0 < k)%nat -> (fst (choice_index k s) < k)%nat;
  (** the positions [DataFrame.sample(k)] draws, without replacement, from
      a frame of [len] rows, in the order drawn *)
  sample_positions : nat -> nat -> rng -> list nat * rng;
  sample_positions_length :
    forall len k s, (k <= len)%nat ->
      List.length (fst (sample_positions len k s)) = k;
  sample_positions_lt :
    forall len k s, (k <= len)%nat ->
      Forall (fun p => (p < len)%nat) (fst (sample_positions len k s));
  sample_positions_NoDup :
    forall len k s, (k <= len)%nat ->
      NoDup (fst (sample_positions len k s))
}.

(** ** Computations that draw from the generator and may raise *)

Section NP.

Variable G : RandomState.

Definition NP (A : Type) : Type := rng G -> Result A * rng G.

Definition ret {A : Type} (a : A) : NP A := fun s => (Ok a, s).

Definition raise {A : Type} (e : PyError) : NP A := fun s => (Err e, s).

Definition bind {A B : Type} (c : NP A) (k : A -> NP B) : NP B :=
  fun s =>
    match c s with
    | (Ok a, s') => k a s'
    | (Err e, s') => (Err e, s')
    end.

Definition lift {A : Type} (r : Result A) : NP A := fun s => (r, s).

(** [np.random.seed(k)] *)
Definition np_random_seed (k : Z) : NP unit :=
  fun s =>
    if ((k <? 0) || (seed_bound <=? k))%Z
    then (Err (ValueError "Seed must be between 0 and 2**32 - 1"), s)
    else (Ok tt, mt19937_seed G k).

(** [np.random.random()] *)
Definition np_random_random : NP Q :=
  fun s => let (r, s') := random_sample G s in (Ok r, s').

(** [np.random.uniform(low, high)]: [low + (high - low) * random()].  The
    arithmetic is exact here; in binary64 the sum is rounded, so that the
    draws nearest to 1 can give [high] itself. *)
Definition np_random_uniform (low high : Q) : NP Q :=
  fun s =>
    let (r, s') := random_sample G s in (Ok (low + (high - low) * r), s').

(** [np.random.choice(a)] on a Python list of strings *)
Definition np_random_choice (a : list string) : NP string :=
  fun s =>
    match a with
    | [] =>
        (Err (ValueError "'a' cannot be empty unless no samples are taken"), s)
    | _ =>
        let (i, s') := choice_index G (List.length a) s in
        (Ok (nth i a EmptyString), s')
    end.

(** [DataFrame.take] on the positions drawn *)
Fixpoint take_rows {A : Type} (rows : list A) (positions : list nat)
  : Result (list A) :=
  match positions with
  | [] => Ok []
  | p :: ps =>
      match nth_error rows p with
      | None => Err (IndexError "indices are out-of-bounds")
      | Some r =>
          match take_rows rows ps with
          | Ok rs => Ok (r :: rs)
          | Err e => Err e
          end
      end
  end.

(** [df.sample(k)] with the default [random_state=None], which draws from
    the global generator *)
Definition df_sample {A : Type} (rows : list A) (k : Z) : NP (list A) :=
  fun s =>
    if (k <? 0)%Z
    then (Err (ValueError "A negative number of rows requested. Please provide `n` >= 0."), s)
    else if (Z.of_nat (List.length rows) <? k)%Z
    then (Err (ValueError "Cannot take a larger sample than population when 'replace=False'"), s)
    else let (ps, s') := sample_positions G (List.length rows) (Z.to_nat k) s in
         (take_rows rows ps, s').

End NP.

Arguments ret {G A} a.
Arguments raise {G A} e.
Arguments bind {G A B} c k.
Arguments lift {G A} r.
Arguments take_rows {A} rows positions.
Arguments df_sample G {A} rows k.

Declare Scope np_scope.
Delimit Scope np_scope with np.
Notation "x <- c ;; k" := (bind c (fun x => k))
  (at level 61, c at next level, right associativity) : np_scope.
Notation "c ;;; k" := (bind c (fun _ => k))
  (at level 61, right associativity) : np_scope.

(** ** Sorting as [list.sort(key=..., reverse=True)] and [sorted] do

    Python's sort is stable, also under [reverse=True]: elements whose keys
    compare equal stay in their original relative order. *)

Section SortDesc.

Context {A : Type}.
Variable key : A -> Q.

Fixpoint insert_desc (x : A) (l : list A) : list A :=
  match l with
  | [] => [x]
  | y :: l' =>
      if Qle_bool (key y) (key x) then x :: l
      else y :: insert_desc x l'
  end.

Fixpoint sort_desc (l : list A) : list A :=
  match l with
  | [] => []
  | x :: l' => insert_desc x (sort_desc l')
  end.

(** [a] may stand directly before [b] in a list sorted by descending key *)
Definition key_ge (a b : A) : Prop := key b <= key a.

(** the elements whose key equals [q], in list order *)
Definition with_key (q : Q) (l : list A) : list A :=
  filter (fun a => Qeq_bool (key a) q) l.

End SortDesc.

(** ** [Series.str.contains(pat, case=False, na=False)]

    pandas compiles [pat] as a regular expression ([regex=True] is the
    default) with [re.IGNORECASE] and keeps the rows where [re.search]
    finds a match.  The fragment of Python's pattern syntax modelled here
    is: ordinary characters, which match themselves, and the dot, which
    matches any character but a newline.  A pattern that uses another
    special character is outside the fragment and is reported as
    [ReNotModelled]. *)

Definition is_one_of (specials : string) (c : ascii) : bool :=
  existsb (Ascii.eqb c) (list_ascii_of_string specials).

(** The special characters of Python's [re] syntax. *)
Definition re_special (c : ascii) : bool :=
  is_one_of ".^$*+?{}[]\|()" c.

Inductive atom : Type :=
| Lit (c : ascii)
| Dot.

Fixpoint re_compile (pat : string) : option (list atom) :=
  match pat with
  | EmptyString => Some []
  | String c rest =>
      if Ascii.eqb c "."%char then option_map (cons Dot) (re_compile rest)
      else if re_special c then None
      else option_map (cons (Lit c)) (re_compile rest)
  end.

Definition is_upper (c : ascii) : bool :=
  let n := nat_of_ascii c in (65 <=? n)%nat && (n <=? 90)%nat.

(** ASCII case folding, as [re.IGNORECASE] does on ASCII letters.  Python
    folds the other letters of Unicode too, which a string of bytes does
    not show: the search is followed exactly on ASCII text only. *)
Definition lower (c : ascii) : ascii :=
  if is_upper c then ascii_of_nat (nat_of_ascii c + 32) else c.

Definition newline : ascii := ascii_of_nat 10.

Definition atom_matches (a : atom) (c : ascii) : bool :=
  match a with
  | Lit x => Ascii.eqb (lower x) (lower c)
  | Dot => negb (Ascii.eqb c newline)
  end.

(** a match that starts at the first character of [s] *)
Fixpoint match_here (p : list atom) (s : string) : bool :=
  match p, s with
  | [], _ => true
  | _ :: _, EmptyString => false
  | a :: p', String c s' => atom_matches a c && match_here p' s'
  end.

(** [re.search]: a match that starts anywhere in [s] *)
Fixpoint re_search (p : list atom) (s : string) : bool :=
  match_here p s ||
  match s with
  | EmptyString => false
  | String _ s' => re_search p s'
  end.

Definition is_missing {A : Type} (cell : option A) : bool :=
  match cell with None => true | Some _ => false end.

(** the column holds strings: pandas reads a column of a CSV file whose
    cells are all missing as float64, and a column without rows or with a
    string in it as object *)
Definition holds_strings (column : list (option string)) : bool :=
  match column with
  | [] => true
  | _ => negb (forallb is_missing column)
  end.

(** the boolean mask over a column of titles; a missing title gives
    [na], here [False].  The accessor [.str] refuses a column that does not
    hold strings before the pattern is looked at. *)
Definition str_contains (column : list (option string)) (pat : string)
  : Result (list bool) :=
  if holds_strings column then
    match re_compile pat with
    | None => Err (ReNotModelled pat)
    | Some p =>
        Ok (map (fun cell => match cell with
                             | None => false
                             | Some s => re_search p s
                             end) column)
    end
  else Err (AttributeError "Can only use .str accessor with string values!").

(** [df[mask]]: the rows where the mask is [True], in index order *)
Fixpoint boolean_index {A : Type} (rows : list A) (mask : list bool)
  : list A :=
  match rows, mask with
  | r :: rows', b :: mask' =>
      if b then r :: boolean_index rows' mask' else boolean_index rows' mask'
  | _, _ => []
  end.

(** [Series.mean()] of a non-empty column of ratings *)
Definition mean (xs : list Q) : Q :=
  fold_right Qplus 0 xs / inject_Z (Z.of_nat (List.length xs)).

Definition is_empty {A : Type} (l : list A) : bool :=
  match l with [] => true | _ => false end.

(** ** More of pandas and of Python *)

(** the bound Python substitutes for the index [i] of a slice over [len]
    items: a negative index counts from the end, and both ends are
    clipped *)
Definition slice_bound (len i : Z) : Z :=
  if (i <? 0)%Z then Z.max 0 (i + len) else Z.min i len.

(** [df.iloc[start:stop]] *)
Definition iloc_slice {A : Type} (rows : list A) (start stop : Z) : list A :=
  let len := Z.of_nat (List.length rows) in
  let a := slice_bound len start in
  let b := slice_bound len stop in
  firstn (Z.to_nat (b - a)) (skipn (Z.to_nat a) rows).

(** [Series.nunique()] on an integer column *)
Definition nunique (xs : list Z) : nat := List.length (nodup Z.eq_dec xs).

(** [Series.max()] on an integer column; [None] stands for the NaN of an
    empty column *)
Definition series_max (xs : list Z) : option Z :=
  match xs with
  | [] => None
  | x :: rest => Some (fold_left Z.max rest x)
  end.

(** [Series.mean()]; [None] stands for the NaN of an empty column *)
Definition series_mean (xs : list Q) : option Q :=
  if is_empty xs then None else Some (mean xs).

(** [s.split(sep)] for a separator of one character *)
Fixpoint split_on (sep : ascii) (s : string) : list string :=
  match s with
  | EmptyString => [EmptyString]
  | String c rest =>
      if Ascii.eqb c sep then EmptyString :: split_on sep rest
      else
        match split_on sep rest with
        | [] => [String c EmptyString]
        | word :: words => String c word :: words
        end
  end.

(** *** [Series.value_counts()]

    pandas counts the occurrences of every distinct value and sorts the
    counts in descending order; the order among values with the same count
    is not part of its contract.  The functions that call it are written
    over the interface [Pandas], which records the contract.  [eqb] is the
    equality of the values of the column: equality of integers and of
    strings, equality by value of floats. *)

Definition is_equivalence {K : Type} (eqb : K -> K -> bool) : Prop :=
  (forall x, eqb x x = true) /\
  (forall x y, eqb x y = true -> eqb y x = true) /\
  (forall x y z, eqb x y = true -> eqb y z = true -> eqb x z = true).

(** the number of entries of [l] equal to [k] *)
Definition count_of {K : Type} (eqb : K -> K -> bool) (k : K) (l : list K)
  : nat :=
  List.length (filter (eqb k) l).

Record Pandas : Type := mkPandas {
  value_counts : forall K : Type, (K -> K -> bool) -> list K -> list (K * nat);
  (** every key is a value of the column, with its number of occurrences *)
  value_counts_key :
    forall (K : Type) (eqb : K -> K -> bool) (l : list K) (k : K) (n : nat),
      is_equivalence eqb ->
      In (k, n) (value_counts K eqb l) ->
      In k l /\ n = count_of eqb k l;
  (** every value of the column is counted under some key *)
  value_counts_all :
    forall (K : Type) (eqb : K -> K -> bool) (l : list K) (x : K),
      is_equivalence eqb ->
      In x l ->
      exists k n, In (k, n) (value_counts K eqb l) /\ eqb k x = true;
  (** no value is counted under two keys *)
  value_counts_NoDup :
    forall (K : Type) (eqb : K -> K -> bool) (l : list K),
      is_equivalence eqb -> NoDup (value_counts K eqb l);
  value_counts_distinct :
    forall (K : Type) (eqb : K -> K -> bool) (l : list K) (a b : K * nat),
      is_equivalence eqb ->
      In a (value_counts K eqb l) -> In b (value_counts K eqb l) ->
      eqb (fst a) (fst b) = true -> a = b;
  (** the counts come in descending order *)
  value_counts_sorted :
    forall (K : Type) (eqb : K -> K -> bool) (l : list K),
      is_equivalence eqb ->
      Sorted (fun a b => (snd b <= snd a)%nat) (value_counts K eqb l)
}.

(** [Series.index[0]] of a result of [value_counts]; [None] stands for
    the IndexError of an empty result *)
Definition first_key {K : Type} (counts : list (K * nat)) : option K :=
  match counts with
  | [] => None
  | (k, _) :: _ => Some k
  end.

(** [Series.sort_index()] on a result of [value_counts] keyed by floats:
    ascending keys *)
Fixpoint insert_by_key (x : Q * nat) (l : list (Q * nat)) : list (Q * nat) :=
  match l with
  | [] => [x]
  | y :: l' =>
      if Qle_bool (fst x) (fst y) then x :: l
      else y :: insert_by_key x l'
  end.

Fixpoint sort_index (l : list (Q * nat)) : list (Q * nat) :=
  match l with
  | [] => []
  | x :: l' => insert_by_key x (sort_index l')
  end.

(** *** [groupby(key)[value].mean()] and [idxmax()]

    The groups come sorted by key ([sort=True] is the default); rows whose
    key is missing are dropped.  The means are exact here.  pandas sums in
    binary64 and divides by the count: the two agree on which mean is the
    greater and which are equal when the sums are exact and the means far
    enough apart, as with ratings in half stars in a table of fewer than
    2**24 rows, and need not agree otherwise. *)

Fixpoint insert_key (k : string) (l : list string) : list string :=
  match l with
  | [] => [k]
  | y :: l' =>
      if String.eqb k y then l
      else if String.leb k y then k :: l
      else y :: insert_key k l'
  end.

(** the distinct keys in ascending order *)
Fixpoint sorted_keys (l : list string) : list string :=
  match l with
  | [] => []
  | k :: l' => insert_key k (sorted_keys l')
  end.

(** the rows of a (key, value) frame whose key is present *)
Definition dropna_keys {V : Type} (rows : list (option string * V))
  : list (string * V) :=
  flat_map (fun row => match fst row with
                       | Some k => [(k, snd row)]
                       | None => []
                       end) rows.

Definition group_values (rows : list (string * Q)) (k : string) : list Q :=
  map snd (filter (fun row => String.eqb (fst row) k) rows).

Definition groupby_mean (rows : list (option string * Q))
  : list (string * Q) :=
  let present := dropna_keys rows in
  map (fun k => (k, mean (group_values present k)))
    (sorted_keys (map fst present)).

(** the label of the first maximum after [best], which is the maximum so
    far *)
Fixpoint idxmax_from (best : string * Q) (l : list (string * Q)) : string :=
  match l with
  | [] => fst best
  | x :: l' =>
      if Qle_bool (snd x) (snd best) then idxmax_from best l'
      else idxmax_from x l'
  end.

(** [Series.idxmax()]: the label of the first maximum *)
Definition idxmax (l : list (string * Q)) : Result string :=
  match l with
  | [] => Err (ValueError "attempt to get argmax of an empty sequence")
  | x :: l' => Ok (idxmax_from x l')
  end.

(** ** src/api/main.py *)

Module Api.

(** *** The pydantic models *)

Record Movie : Type := mkMovie {
  m_movieId : Z;
  m_title : string;
  m_genres : string;
  m_year : option Z;
  m_rating : option Q
}.

Record Rating : Type := mkRating {
  userId : Z;
  movieId : Z;
  rating : Q;
  timestamp : option Z
}.

Record Recommendation : Type := mkRecommendation {
  rec_movieId : Z;
  rec_title : string;
  rec_genres : string;
  score : Q;
  reason : string
}.

(** [Movie(movieId=..., title=..., genres=..., rating=...)]: [title] is
    declared [str], and pydantic 2 refuses the float NaN of a missing
    cell. *)
Definition Movie_new (id : Z) (title : option string) (genres : string)
    (avg : option Q) : Result Movie :=
  match title with
  | None => Err (ValidationError "title")
  | Some t => Ok (mkMovie id t genres None avg)
  end.

(** [rating: float = Field(..., ge=0.5, le=5.0)]; [userId] and [movieId]
    are declared [int] with no further constraint. *)
Definition Rating_valid (body : Rating) : bool :=
  Qle_bool 0.5 (rating body) && Qle_bool (rating body) 5.

(** [score: float = Field(..., ge=0.0, le=1.0)] *)
Definition Recommendation_new (id : Z) (title : option string)
    (genres : string) (sc : Q) (why : string) : Result Recommendation :=
  match title with
  | None => Err (ValidationError "title")
  | Some t =>
      if Qle_bool 0 sc && Qle_bool sc 1
      then Ok (mkRecommendation id t genres sc why)
      else Err (ValidationError "score")
  end.

(** [logger.info]: the log is not part of the modelled state. *)
Definition logger_info {G : RandomState} (msg : string) : NP G unit := ret tt.

Definition reasons : list string :=
  [ "Basé sur vos films préférés";
    "Populaire parmi les utilisateurs similaires";
    "Nouveau film tendance";
    "Correspond à vos genres favoris";
    "Recommandé par notre IA" ]%string.

(** *** GET /recommend/user/{user_id} *)

Section Handlers.

Variable G : RandomState.

Local Open Scope np_scope.

(** the body of the loop [for _, movie in sample_movies.iterrows()] *)
Definition recommend_row (movie : MovieRow) : NP G Recommendation :=
  r <- np_random_random G ;;
  let sc := (0.5 + 0.4 * r)%Q in
  why <- np_random_choice G reasons ;;
  lift (Recommendation_new (row_movieId movie) (row_title movie)
          (row_genres movie) sc why).

Fixpoint recommend_rows (sample_movies : list MovieRow)
  : NP G (list Recommendation) :=
  match sample_movies with
  | [] => ret []
  | movie :: rest =>
      rec <- recommend_row movie ;;
      recs <- recommend_rows rest ;;
      ret (rec :: recs)
  end.

(** [get_user_recommendations(user_id, n_recommendations)], with the
    constraint [ge=1, le=50] FastAPI enforces on [n_recommendations] *)
Definition get_user_recommendations (d : Data) (user_id n_recommendations : Z)
  : NP G (list Recommendation) :=
  if ((n_recommendations <? 1) || (50 <? n_recommendations))%Z
  then raise (RequestValidationError "n_recommendations")
  else
    match movies_df d with
    | None => raise (HTTPException 500 "Données non disponibles")
    | Some movies =>
        match ratings_df d with
        | Some ratings =>
            let user_ratings :=
              filter (fun r => (r_userId r =? user_id)%Z) ratings in
            if is_empty user_ratings
            then logger_info "Nouvel utilisateur - recommandations populaires"
            else ret tt
        | None => ret tt
        end ;;;
        np_random_seed G user_id ;;;
        sample_movies <-
          df_sample G movies
            (Z.min n_recommendations (Z.of_nat (List.length movies))) ;;
        recommendations <- recommend_rows sample_movies ;;
        ret (sort_desc score recommendations)
    end.

End Handlers.

(** *** POST /ratings *)

(** the timestamp [rating.timestamp or int(time.time())] stores; [now] is
    [int(time.time())] *)
Definition stored_timestamp (body : Rating) (now : Z) : Z :=
  match timestamp body with
  | Some t => if (t =? 0)%Z then now else t
  | None => now
  end.

(** the handler body.  [pd.concat] appends the new row as it is when the
    integer columns stay int64, that is when the ids and timestamps of the
    table and of the new row lie from -2**63 to 2**63 - 1; a larger value
    turns the whole column into float64 and is stored rounded, which the
    append below does not follow. *)
Definition add_rating (body : Rating) (now : Z) (d : Data)
  : Result RatingRow * Data :=
  match ratings_df d with
  | None => (Err (HTTPException 500 "Données non disponibles"), d)
  | Some ratings =>
      let movie_exists :=
        match movies_df d with
        | Some movies =>
            existsb (fun m => (row_movieId m =? movieId body)%Z) movies
        | None => true
        end in
      if negb movie_exists
      then (Err (HTTPException 404 "Film non trouvé"), d)
      else
        let new_rating :=
          mkRatingRow (userId body) (movieId body) (rating body)
            (stored_timestamp body now) in
        (Ok new_rating, mkData (movies_df d) (Some (ratings ++ [new_rating])))
  end.

(** the endpoint as the client sees it: FastAPI validates the body
    against [Rating] before it calls the handler *)
Definition post_ratings (body : Rating) (now : Z) (d : Data)
  : Result RatingRow * Data :=
  if Rating_valid body then add_rating body now d
  else (Err (RequestValidationError "rating"), d).

(** *** GET /movies/search *)

(** the average rating shown next to a movie *)
Definition avg_rating (d : Data) (id : Z) : option Q :=
  match ratings_df d with
  | None => None
  | Some ratings =>
      let movie_ratings := filter (fun r => (r_movieId r =? id)%Z) ratings in
      if is_empty movie_ratings then None
      else Some (mean (map r_rating movie_ratings))
  end.

Fixpoint to_movies (d : Data) (results : list MovieRow) : Result (list Movie) :=
  match results with
  | [] => Ok []
  | movie :: rest =>
      match Movie_new (row_movieId movie) (row_title movie) (row_genres movie)
              (avg_rating d (row_movieId movie)) with
      | Err e => Err e
      | Ok m =>
          match to_movies d rest with
          | Ok ms => Ok (m :: ms)
          | Err e => Err e
          end
      end
  end.

(** [search_movies(query, limit)], with the constraints FastAPI enforces
    on its parameters: [min_length=1] and [ge=1, le=50] *)
Definition search_movies (d : Data) (query : string) (limit : Z)
  : Result (list Movie) :=
  if (String.length query <? 1)%nat
  then Err (RequestValidationError "query")
  else if ((limit <? 1) || (50 <? limit))%Z
  then Err (RequestValidationError "limit")
  else
    match movies_df d with
    | None => Err (HTTPException 500 "Données non disponibles")
    | Some movies =>
        match str_contains (map row_title movies) query with
        | Err e => Err e
        | Ok mask =>
            let results := firstn (Z.to_nat limit) (boolean_index movies mask) in
            to_movies d results
        end
    end.

(** *** GET /movies *)

(** the loop of [get_movies]: a [Movie] without rating for every row *)
Fixpoint page_movies (movies_subset : list MovieRow) : Result (list Movie) :=
  match movies_subset with
  | [] => Ok []
  | movie :: rest =>
      match Movie_new (row_movieId movie) (row_title movie) (row_genres movie)
              None with
      | Err e => Err e
      | Ok m =>
          match page_movies rest with
          | Ok ms => Ok (m :: ms)
          | Err e => Err e
          end
      end
  end.

(** [get_movies(limit, offset)], with the constraints FastAPI enforces on
    its parameters: [ge=1, le=100] and [ge=0] *)
Definition get_movies (d : Data) (limit offset : Z) : Result (list Movie) :=
  if ((limit <? 1) || (100 <? limit))%Z
  then Err (RequestValidationError "limit")
  else if (offset <? 0)%Z
  then Err (RequestValidationError "offset")
  else
    match movies_df d with
    | None => Err (HTTPException 500 "Données non disponibles")
    | Some movies =>
        let start_idx := offset in
        let end_idx := (offset + limit)%Z in
        page_movies (iloc_slice movies start_idx end_idx)
    end.

(** *** GET /movies/{movie_id} *)

Definition get_movie (d : Data) (movie_id : Z) : Result Movie :=
  match movies_df d with
  | None => Err (HTTPException 500 "Données non disponibles")
  | Some movies =>
      let movie_row :=
        filter (fun m => (row_movieId m =? movie_id)%Z) movies in
      match movie_row with
      | [] => Err (HTTPException 404 "Film non trouvé")
      | movie :: _ =>
          Movie_new (row_movieId movie) (row_title movie) (row_genres movie)
            (avg_rating d movie_id)
      end
  end.

(** *** GET /users/{user_id}/profile and GET /stats *)

Record UserProfile (datetime : Type) : Type := mkUserProfile {
  p_userId : Z;
  totalRatings : nat;
  averageRating : Q;
  favoriteGenres : list string;
  lastActivity : datetime
}.

Arguments mkUserProfile {datetime} _ _ _ _ _.
Arguments p_userId {datetime} _.
Arguments totalRatings {datetime} _.
Arguments averageRating {datetime} _.
Arguments favoriteGenres {datetime} _.
Arguments lastActivity {datetime} _.

(** the dictionary [get_statistics] returns.  [most_popular_movie] is
    [None] for Python's [None] and [Some None] for a missing title. *)
Record Statistics : Type := mkStatistics {
  total_movies : nat;
  total_ratings : nat;
  total_users : nat;
  average_rating : option Q;
  most_popular_movie : option (option string);
  top_genres : list (string * nat);
  last_updated : string
}.

Section Reports.

Variable P : Pandas.

(** the type of [datetime] objects and [datetime.fromtimestamp], which
    raises for a timestamp outside the range of the platform *)
Variable datetime : Type.
Variable fromtimestamp : Z -> Result datetime.

Definition get_user_profile (d : Data) (user_id : Z)
  : Result (UserProfile datetime) :=
  match ratings_df d with
  | None => Err (HTTPException 500 "Données non disponibles")
  | Some ratings =>
      let user_ratings :=
        filter (fun r => (r_userId r =? user_id)%Z) ratings in
      if is_empty user_ratings
      then Err (HTTPException 404 "Utilisateur non trouvé")
      else
        let total_ratings := List.length user_ratings in
        let avg_rating := mean (map r_rating user_ratings) in
        let favorite_genres := ["Action"; "Comedy"; "Drama"]%string in
        match series_max (map r_timestamp user_ratings) with
        | None => Err (ValueError "cannot convert float NaN to integer")
        | Some last_timestamp =>
            match fromtimestamp last_timestamp with
            | Err e => Err e
            | Ok last_activity =>
                Ok (mkUserProfile user_id total_ratings avg_rating
                      favorite_genres last_activity)
            end
        end
  end.

(** [get_statistics()]; [now] is [datetime.now().isoformat()].  The test
    [if most_popular_movie_id:] is false for [None] and for the id 0. *)
Definition get_statistics (now : string) (d : Data) : Result Statistics :=
  match movies_df d, ratings_df d with
  | Some movies, Some ratings =>
      let movie_counts := value_counts P Z Z.eqb (map r_movieId ratings) in
      let most_popular_movie_id := first_key movie_counts in
      let most_popular_movie :=
        match most_popular_movie_id with
        | None => None
        | Some id =>
            if (id =? 0)%Z then None
            else
              match filter (fun m => (row_movieId m =? id)%Z) movies with
              | [] => None
              | movie :: _ => Some (row_title movie)
              end
        end in
      let all_genres :=
        flat_map (fun m => split_on "|" (row_genres m)) movies in
      let genre_counts :=
        firstn 5 (value_counts P string String.eqb all_genres) in
      Ok (mkStatistics (List.length movies) (List.length ratings)
            (nunique (map r_userId ratings))
            (series_mean (map r_rating ratings))
            most_popular_movie genre_counts now)
  | _, _ => Err (HTTPException 500 "Données non disponibles")
  end.

End Reports.

End Api.

(** ** src/streamlit_app/app.py, class CineRecommendApp *)

Module App.

(** the dictionaries [get_recommendations] builds *)
Record RecDict : Type := mkRecDict {
  title : option string;
  genres : string;
  score : Q;
  reason : string
}.

Section Methods.

Variable G : RandomState.

Local Open Scope np_scope.

(** the loop [for _, movie in sample_movies.iterrows()] *)
Fixpoint score_rows (sample_movies : list MovieRow) : NP G (list RecDict) :=
  match sample_movies with
  | [] => ret []
  | movie :: rest =>
      sc <- np_random_uniform G 0.7 0.95 ;;
      recs <- score_rows rest ;;
      ret (mkRecDict (row_title movie) (row_genres movie) sc
             "Basé sur vos préférences" :: recs)
  end.

(** [get_recommendations(user_id, movie_title, n_recommendations)]; the
    method does not use its first two arguments *)
Definition get_recommendations (d : Data) (user_id : option Z)
    (movie_title : option string) (n_recommendations : Z)
  : NP G (list RecDict) :=
  match movies_df d with
  | None => ret []
  | Some movies =>
      sample_movies <-
        df_sample G movies
          (Z.min n_recommendations (Z.of_nat (List.length movies))) ;;
      recommendations <- score_rows sample_movies ;;
      ret (sort_desc score recommendations)
  end.

End Methods.

(** [search_movies(query)] *)
Definition search_movies (d : Data) (query : string) : Result (list MovieRow) :=
  match movies_df d with
  | None => Ok []
  | Some movies =>
      if (String.length query =? 0)%nat then Ok []
      else
        match str_contains (map row_title movies) query with
        | Err e => Err e
        | Ok mask => Ok (boolean_index movies mask)
        end
  end.

(** the dictionary [get_movie_stats] builds *)
Record MovieStats : Type := mkMovieStats {
  total_movies : nat;
  total_ratings : nat;
  total_users : nat;
  avg_rating : option Q;
  top_rated_movie : string;
  most_rated_movie : string
}.

(** [ratings_df.merge(movies_df, on='movieId')]: the inner join, a row
    for every pair of a rating and a movie with the same id *)
Definition merge_on_movieId (ratings : list RatingRow) (movies : list MovieRow)
  : list (RatingRow * MovieRow) :=
  flat_map (fun r =>
              map (pair r)
                (filter (fun m => (row_movieId m =? r_movieId r)%Z) movies))
    ratings.

Section Analytics.

Variable P : Pandas.

(** [get_movie_stats()]; [Ok None] stands for the empty dictionary *)
Definition get_movie_stats (d : Data) : Result (option MovieStats) :=
  match movies_df d, ratings_df d with
  | Some movies, Some ratings =>
      let merged_df := merge_on_movieId ratings movies in
      let titled :=
        map (fun row => (row_title (snd row), r_rating (fst row))) merged_df in
      match idxmax (groupby_mean titled) with
      | Err e => Err e
      | Ok top_rated =>
          match first_key
                  (value_counts P string String.eqb
                     (map fst (dropna_keys titled))) with
          | None =>
              Err (IndexError "index 0 is out of bounds for axis 0 with size 0")
          | Some most_rated =>
              Ok (Some (mkMovieStats (List.length movies)
                          (List.length ratings)
                          (nunique (map r_userId ratings))
                          (series_mean (map r_rating ratings))
                          top_rated most_rated))
          end
      end
  | _, _ => Ok None
  end.

(** [get_genre_distribution()]; every row of [movies_df] has its genres
    here, so that [dropna()] keeps them all *)
Definition get_genre_distribution (d : Data) : list (string * nat) :=
  match movies_df d with
  | None => []
  | Some movies =>
      let all_genres :=
        flat_map (fun m => split_on "|" (row_genres m)) movies in
      value_counts P string String.eqb all_genres
  end.

(** [get_rating_distribution()] *)
Definition get_rating_distribution (d : Data) : list (Q * nat) :=
  match ratings_df d with
  | None => []
  | Some ratings =>
      sort_index (value_counts P Q Qeq_bool (map r_rating ratings))
  end.

End Analytics.

End App.

(** ** The content-based recommender *)

Module ContentBased.

(** Modelled from the spec: the fitted state of the content-based model
    (src/models/content_based_filtering.py is not among the sources; only
    its caller quick_start.py is).  Section 4.3: [fit] builds an item index
    and an item-by-item similarity matrix.  [items] lists the movie ids of
    the index in index order, [similarity] is the matrix read by movie
    id. *)
Record Fitted : Type := mkFitted {
  items : list Z;
  similarity : Z -> Z -> Q
}.

(** Modelled from the spec: the two outcomes of [recommendSimilar], an
    ordered list of (movieId, score) or the recoverable error raised for a
    movie id that was not present at fit time. *)
Inductive Outcome : Type :=
| Similar (ranking : list (Z * Q))
| UnknownItemError (movieId : Z).

(** Modelled from the spec: the order of the result, most similar first,
    ties broken by ascending movie id. *)
Definition precedes (a b : Z * Q) : bool :=
  negb (Qle_bool (snd a) (snd b)) ||
  (Qeq_bool (snd a) (snd b) && (fst a <=? fst b)%Z).

(** Modelled from the spec: ranking the candidates in that order, by
    insertion. *)
Fixpoint insert_ranked (x : Z * Q) (l : list (Z * Q)) : list (Z * Q) :=
  match l with
  | [] => [x]
  | y :: l' => if precedes x y then x :: l else y :: insert_ranked x l'
  end.

Fixpoint rank (l : list (Z * Q)) : list (Z * Q) :=
  match l with
  | [] => []
  | x :: l' => insert_ranked x (rank l')
  end.

(** Modelled from the spec: the candidates, which are the fitted items
    other than [movieId] ("excluding itself"). *)
Definition others (st : Fitted) (movieId : Z) : list Z :=
  filter (fun j => negb (j =? movieId)%Z) (items st).

(** Modelled from the spec: [recommendSimilar(movieId, n)] returns the [n]
    items most similar to the given item, excluding itself, ties broken by
    ascending movie id, and fails with [UnknownItemError] if [movieId] was
    not present at fit time. *)
Definition recommendSimilar (st : Fitted) (movieId : Z) (n : nat) : Outcome :=
  if existsb (Z.eqb movieId) (items st)
  then Similar
         (firstn n
            (rank (map (fun j => (j, similarity st movieId j))
                     (others st movieId))))
  else UnknownItemError movieId.

End ContentBased.

(** ** The properties the specification words

    These definitions follow the text of the specification; Part II
    compares the handlers with them. *)

(** *** The blend of section 4.4

    Steps 3 and 4 of [recommend] in the words of the specification: each
    source's scores are normalized to [0, 1], min-max over the candidate
    set, and merged with the weights 0.6 and 0.4, a missing source
    contributing 0 and the weights being renormalized over the sources
    that produced a score.  The programs have no counterpart of it; the
    scores they return are compared with it. *)
Module Hybrid.

(** an item of either candidate set, with the score of each source that
    has one for it *)
Record Candidate : Type := mkCandidate {
  c_movieId : Z;
  cfScore : option Q;
  cbScore : option Q
}.

(** the scores one source produced over the candidate set *)
Definition scores_of (source : Candidate -> option Q)
    (cands : list Candidate) : list Q :=
  flat_map (fun c => match source c with
                     | Some x => [x]
                     | None => []
                     end) cands.

Definition lowest (x : Q) (xs : list Q) : Q :=
  fold_right (fun y m => if Qle_bool y m then y else m) x xs.

Definition highest (x : Q) (xs : list Q) : Q :=
  fold_right (fun y m => if Qle_bool m y then y else m) x xs.

(** step 3; a source that has no score for the item contributes 0, and so
    does, the quotient by 0 being 0, a source whose scores are all equal *)
Definition normalized (source : Candidate -> option Q)
    (cands : list Candidate) (c : Candidate) : Q :=
  match source c, scores_of source cands with
  | Some x, y :: ys =>
      (x - lowest y ys) / (highest y ys - lowest y ys)
  | _, _ => 0
  end.

(** step 4: the weights, renormalized to sum to 1 over the sources that
    produced a score *)
Definition weights (weightCF weightCB : Q) (cands : list Candidate) : Q * Q :=
  match scores_of cfScore cands, scores_of cbScore cands with
  | [], [] => (0, 0)
  | _ :: _, [] => (weightCF / weightCF, 0)
  | [], _ :: _ => (0, weightCB / weightCB)
  | _ :: _, _ :: _ =>
      (weightCF / (weightCF + weightCB), weightCB / (weightCF + weightCB))
  end.

Definition finalScore (weightCF weightCB : Q) (cands : list Candidate)
    (c : Candidate) : Q :=
  fst (weights weightCF weightCB cands) * normalized cfScore cands c +
  snd (weights weightCF weightCB cands) * normalized cbScore cands c.

(** the scores are the final scores, under the default weights, of the
    items of a candidate set, each item in at least one of the two sets *)
Definition blended (scores : list Q) : Prop :=
  exists cands,
    Forall (fun c => cfScore c <> None \/ cbScore c <> None) cands /\
    Forall2 (fun q c => q == finalScore 0.6 0.4 cands c) scores cands.

End Hybrid.

(** the number of ratings a movie received *)
Definition rating_count (ratings : list RatingRow) (id : Z) : nat :=
  List.length (filter (fun r => (r_movieId r =? id)%Z) ratings).

(** the popularity fallback: the ids of the [n] most-rated movies of the
    catalogue, most-rated first *)
Definition most_rated (movies : list MovieRow) (ratings : list RatingRow)
    (n : nat) : list Z :=
  firstn n
    (map row_movieId
       (sort_desc
          (fun m => inject_Z (Z.of_nat (rating_count ratings (row_movieId m))))
          movies)).

(** a title matches when it contains the query as a substring, letter
    case ignored *)
Fixpoint starts_with_ci (q t : string) : bool :=
  match q, t with
  | EmptyString, _ => true
  | String _ _, EmptyString => false
  | String a q', String b t' =>
      Ascii.eqb (lower a) (lower b) && starts_with_ci q' t'
  end.

Fixpoint contains_ci (q t : string) : bool :=
  starts_with_ci q t ||
  match t with
  | EmptyString => false
  | String _ t' => contains_ci q t'
  end.

Definition title_matches (query : string) (m : MovieRow) : bool :=
  match row_title m with
  | None => false
  | Some t => contains_ci query t
  end.

(** the search by substring: the matching movies in catalogue order,
    truncated to [limit] *)
Definition substring_search (movies : list MovieRow) (query : string)
    (limit : nat) : list MovieRow :=
  firstn limit (filter (title_matches query) movies).

(** ** Auxiliary notions of Part II *)

Definition loaded (d : Data) : Prop :=
  movies_df d <> None /\ ratings_df d <> None.

Definition titles_present (movies : list MovieRow) : Prop :=
  Forall (fun m => row_title m <> None) movies.

Definition in_unit_interval (x : Q) : Prop := 0 <= x <= 1.

(** two lists of Streamlit recommendations that show the same titles,
    genres, scores and reasons in the same order *)
Definition same_recommendations (l1 l2 : list App.RecDict) : Prop :=
  Forall2 (fun a b =>
             App.title a = App.title b /\ App.genres a = App.genres b /\
             App.score a == App.score b /\ App.reason a = App.reason b)
    l1 l2.

Definition recommended_ids (out : Result (list Api.Recommendation))
  : option (list Z) :=
  match out with
  | Ok recs => Some (map Api.rec_movieId recs)
  | Err _ => None
  end.

(** the ids of a ranking, or nothing for the error *)
Definition ranked_ids (out : ContentBased.Outcome) : option (list Z) :=
  match out with
  | ContentBased.Similar ranking => Some (map fst ranking)
  | ContentBased.UnknownItemError _ => None
  end.

(** the query holds no character that is special in a pattern *)
Definition literal (query : string) : bool :=
  forallb (fun c => negb (re_special c)) (list_ascii_of_string query).

Definition folded (s : string) : list ascii :=
  map lower (list_ascii_of_string s).

(** what [sort(key=score, reverse=True)] makes of the list [built] from
    [len] available rows when [n] were asked for *)
Definition python_sorted {A : Type} (key : A -> Q) (built recs : list A)
    (n : Z) (len : nat) : Prop :=
  Permutation built recs /\
  Sorted (key_ge key) recs /\
  (forall q, with_key key q recs = with_key key q built) /\
  Z.of_nat (List.length recs) = Z.min n (Z.of_nat len) /\
  (Z.of_nat (List.length recs) <= n)%Z.

(** the ranking [recommendSimilar] owes for a fitted movie *)
Definition similar_ranking (st : ContentBased.Fitted) (m : Z) (n : nat)
    (ranking : list (Z * Q)) : Prop :=
  ~ In m (map fst ranking) /\
  (forall j, In j (map fst ranking) -> In j (ContentBased.items st)) /\
  List.length ranking = Nat.min n (List.length (ContentBased.others st m)) /\
  (List.length ranking <= n)%nat /\
  ((List.length (ContentBased.others st m) <= n)%nat ->
     Permutation (ContentBased.others st m) (map fst ranking)) /\
  Sorted (fun a b => ContentBased.precedes a b = true) ranking.

(** the steps of the API handler once the generator is seeded *)
Definition recommend_from_seed (G : RandomState) (movies : list MovieRow)
    (n : Z) : NP G (list Api.Recommendation) :=
  (sample_movies <-
     df_sample G movies (Z.min n (Z.of_nat (List.length movies))) ;;
   recommendations <- Api.recommend_rows G sample_movies ;;
   ret (sort_desc Api.score recommendations))%np.

(** a list returned by the API handler, seen against the rows sampled *)
Definition api_ranked (G : RandomState) (d : Data) (user_id n : Z)
    (recs : list Api.Recommendation) (s' : rng G) : Prop :=
  exists movies sample s1 built,
    movies_df d = Some movies /\
    df_sample G movies (Z.min n (Z.of_nat (List.length movies)))
      (mt19937_seed G user_id) = (Ok sample, s1) /\
    Api.recommend_rows G sample s1 = (Ok built, s') /\
    map Api.rec_movieId built = map row_movieId sample /\
    python_sorted Api.score built recs n (List.length movies).

(** a list returned by the Streamlit method, seen against the rows
    sampled *)
Definition app_ranked (G : RandomState) (movies : list MovieRow) (n : Z)
    (s : rng G) (recs : list App.RecDict) (s' : rng G) : Prop :=
  exists sample s1 built,
    df_sample G movies (Z.min n (Z.of_nat (List.length movies))) s
      = (Ok sample, s1) /\
    App.score_rows G sample s1 = (Ok built, s') /\
    map App.title built = map row_title sample /\
    python_sorted App.score built recs n (List.length movies).

(** ** Concrete inputs *)

(** A 16-bit linear congruential generator whose uniform draws keep only
    the two leading bits.  It meets the contract of [RandomState] and is
    used to run the handlers on concrete inputs; the general theorems
    quantify over every generator. *)
Module Lcg.

Definition modulus : Z := 65536.

Definition step (s : Z) : Z := ((s * 25173 + 13849) mod modulus)%Z.

Definition seed (k : Z) : Z := (k mod modulus)%Z.

Definition draw_unit (s : Z) : Q * Z :=
  let s' := step s in ((s' / 16384)%Z # 4, s').

Definition draw_below (k : nat) (s : Z) : nat * Z :=
  let s' := step s in (Z.to_nat ((s' / 256) mod Z.of_nat k), s').

Definition rotate {A : Type} (a : nat) (l : list A) : list A :=
  skipn a l ++ firstn a l.

Definition draw_positions (len k : nat) (s : Z) : list nat * Z :=
  let (start, s') := draw_below len s in
  (firstn k (rotate start (seq 0 len)), s').

End Lcg.

(** ** numpy's generator

    [np.random] is a [RandomState] over MT19937.  The module follows
    numpy's C sources (randomkit's [mt19937_seed], [mt19937_gen] and
    [mt19937_next_double], [random_interval] of the legacy distributions)
    and the legacy methods [permutation] and [choice] of mtrand, through
    which [DataFrame.sample] draws its rows. *)
Module Mt19937.

Local Open Scope Z_scope.

Definition word32 (z : Z) : Z := Z.land z (Z.ones 32).

(** the 624 key words and the position of the next one *)
Record state : Type := mkState {
  key : list Z;
  pos : nat
}.

(** [mt19937_seed] *)
Fixpoint seed_words (n : nat) (i : Z) (s : Z) : list Z :=
  match n with
  | O => []
  | S n' =>
      s :: seed_words n' (i + 1)
             (word32 (1812433253 * Z.lxor s (Z.shiftr s 30) + i + 1))
  end.

Definition seed (k : Z) : state :=
  mkState (seed_words 624 0 (word32 k)) 624%nat.

Fixpoint update (l : list Z) (i : nat) (v : Z) : list Z :=
  match l, i with
  | [], _ => []
  | _ :: l', O => v :: l'
  | x :: l', S i' => x :: update l' i' v
  end.

(** one step of [mt19937_gen] *)
Definition twist_at (k : list Z) (i : nat) : list Z :=
  let y := Z.lor (Z.land (nth i k 0) 0x80000000)
                 (Z.land (nth ((i + 1) mod 624)%nat k 0) 0x7fffffff) in
  update k i
    (Z.lxor (Z.lxor (nth ((i + 397) mod 624)%nat k 0) (Z.shiftr y 1))
            (if Z.odd y then 0x9908b0df else 0)).

Definition gen (k : list Z) : list Z := fold_left twist_at (seq 0 624) k.

Definition temper (y : Z) : Z :=
  let y := Z.lxor y (Z.shiftr y 11) in
  let y := Z.lxor y (Z.land (Z.shiftl y 7) 0x9d2c5680) in
  let y := Z.lxor y (Z.land (Z.shiftl y 15) 0xefc60000) in
  Z.lxor y (Z.shiftr y 18).

(** [mt19937_next]: the key is regenerated when its 624 words are used up *)
Definition next_uint32 (st : state) : Z * state :=
  let st' := if (pos st =? 624)%nat then mkState (gen (key st)) 0%nat else st in
  (word32 (temper (nth (pos st') (key st') 0)),
   mkState (key st') (S (pos st'))).

(** [mt19937_next_double]: 53 bits out of two words *)
Definition next_double (st : state) : Q * state :=
  let (w1, st1) := next_uint32 st in
  let (w2, st2) := next_uint32 st1 in
  (Qmake (Z.shiftr w1 5 * 67108864 + Z.shiftr w2 6) 9007199254740992, st2).

(** the smallest mask of ones that covers [max] *)
Definition mask_of (max : Z) : Z := Z.ones (Z.succ (Z.log2 max)).

(** [random_interval]: words are drawn and masked until one does not
    exceed [max]; the loop is followed for [fuel] more draws *)
Fixpoint interval_loop (fuel : nat) (max mask : Z) (st : state) : Z * state :=
  let (w, st') := next_uint32 st in
  let value := Z.land w mask in
  if value <=? max then (value, st')
  else
    match fuel with
    | O => (0, st')
    | S fuel' => interval_loop fuel' max mask st'
    end.

Definition random_interval (max : Z) (st : state) : Z * state :=
  if max =? 0 then (0, st) else interval_loop 1000 max (mask_of max) st.

(** the array with the entries at [i] and [j] exchanged *)
Definition swap (arr : list nat) (i j : nat) : list nat :=
  map (fun k => nth (if (k =? i)%nat then j
                     else if (k =? j)%nat then i else k) arr 0%nat)
    (seq 0 (List.length arr)).

(** [shuffle]: from the last entry down to the second, each is exchanged
    with one drawn at or before it *)
Fixpoint shuffle_from (i : nat) (arr : list nat) (st : state)
  : list nat * state :=
  match i with
  | O => (arr, st)
  | S i' =>
      let (j, st') := random_interval (Z.of_nat i) st in
      shuffle_from i' (swap arr i (Z.to_nat j)) st'
  end.

(** [permutation(n)] *)
Definition permutation (n : nat) (st : state) : list nat * state :=
  shuffle_from (n - 1)%nat (seq 0 n) st.

(** [choice(len, size=k, replace=False)]: the first [k] entries of a
    permutation *)
Definition sample_positions (len k : nat) (st : state) : list nat * state :=
  let (arr, st') := permutation len st in (firstn k arr, st').

(** [choice(a)] on a sequence of [k] elements: [randint(0, k)] *)
Definition choice_index (k : nat) (st : state) : nat * state :=
  let (j, st') := random_interval (Z.of_nat k - 1) st in (Z.to_nat j, st').

(** the state [np.random.set_state] sets from 624 equal key words and
    position 0 *)
Definition equal_key_state (word : Z) : state :=
  mkState (repeat word 624) 0%nat.

End Mt19937.

(** A [value_counts] that meets the contract of [Pandas]: the distinct
    values in the order in which they first occur, sorted by descending
    count with a stable sort. *)
Module FirstSeen.

Fixpoint keys {K : Type} (eqb : K -> K -> bool) (l : list K) : list K :=
  match l with
  | [] => []
  | x :: l' => x :: filter (fun y => negb (eqb x y)) (keys eqb l')
  end.

Definition counts (K : Type) (eqb : K -> K -> bool) (l : list K)
  : list (K * nat) :=
  sort_desc (fun entry => inject_Z (Z.of_nat (snd entry)))
    (map (fun k => (k, count_of eqb k l)) (keys eqb l)).

End FirstSeen.

(** The first rows of the catalogue [create_sample_data] of app.py builds,
    and a handful of ratings. *)
Definition demo_movies : list MovieRow :=
  [ mkMovieRow 1 (Some "Toy Story (1995)")
      "Adventure|Animation|Children|Comedy|Fantasy";
    mkMovieRow 2 (Some "Jumanji (1995)") "Adventure|Children|Fantasy";
    mkMovieRow 3 (Some "Grumpier Old Men (1995)") "Comedy|Romance";
    mkMovieRow 6 (Some "Heat (1995)") "Action|Crime|Thriller" ]%string.

Definition demo_ratings : list RatingRow :=
  [ mkRatingRow 1 1 4 964982703;
    mkRatingRow 1 2 3.5 964982703;
    mkRatingRow 2 1 4.5 964982703;
    mkRatingRow 3 2 4 964982703;
    mkRatingRow 4 1 5 964982703 ].

Definition demo : Data := mkData (Some demo_movies) (Some demo_ratings).

(** ratings in which Jumanji, not Toy Story, is the most-rated movie *)
Definition demo_ratings_alt : list RatingRow :=
  [ mkRatingRow 1 2 4 964982703;
    mkRatingRow 2 2 3.5 964982703;
    mkRatingRow 3 2 4.5 964982703;
    mkRatingRow 4 1 5 964982703 ].

Definition demo_alt : Data := mkData (Some demo_movies) (Some demo_ratings_alt).

Definition demo_fitted : ContentBased.Fitted :=
  ContentBased.mkFitted [1; 2; 3; 6]%Z
    (fun a b => if (a =? b)%Z then 1 else 1 / inject_Z (1 + Z.abs (a - b))).

(** ** Auxiliary notions of Part III *)

(** a catalogue row as [get_movies] shows it *)
Definition shown_plain (row : MovieRow) (m : Api.Movie) : Prop :=
  row_title row = Some (Api.m_title m) /\
  Api.m_movieId m = row_movieId row /\
  Api.m_genres m = row_genres row /\
  Api.m_year m = None /\ Api.m_rating m = None.

(** the movies of a page, or nothing when the request fails *)
Definition page (d : Data) (limit offset : Z) : list Api.Movie :=
  match Api.get_movies d limit offset with
  | Ok ms => ms
  | Err _ => []
  end.

(** the first [k] pages of [limit] movies, one after the other *)
Definition pages (d : Data) (limit : Z) (k : nat) : list Api.Movie :=
  List.concat (map (fun i => page d limit (Z.of_nat i * limit)) (seq 0 k)).

(** [movie] is the first row of [movies] with the id [id] *)
Definition first_with_id (movies : list MovieRow) (id : Z) (movie : MovieRow)
  : Prop :=
  exists pre post,
    movies = pre ++ movie :: post /\
    row_movieId movie = id /\
    ~ In id (map row_movieId pre).

(** the ratings a movie has received, in table order *)
Definition ratings_of (d : Data) (id : Z) : list Q :=
  match ratings_df d with
  | Some ratings =>
      map r_rating (filter (fun r => (r_movieId r =? id)%Z) ratings)
  | None => []
  end.

(** every stored rating lies between 0.5 and 5 *)
Definition ratings_in_range (d : Data) : Prop :=
  match ratings_df d with
  | Some ratings => Forall (fun r => 0.5 <= r_rating r <= 5) ratings
  | None => True
  end.

(** the tables after a sequence of POST /ratings requests, each with the
    time at which it is served *)
Fixpoint post_all (requests : list (Api.Rating * Z)) (d : Data) : Data :=
  match requests with
  | [] => d
  | (body, now) :: rest => post_all rest (snd (Api.post_ratings body now d))
  end.

(** the rating rows of a user, in table order *)
Definition rows_of_user (d : Data) (user_id : Z) : list RatingRow :=
  match ratings_df d with
  | Some ratings => filter (fun r => (r_userId r =? user_id)%Z) ratings
  | None => []
  end.

(** a stand-in for [datetime.fromtimestamp] that accepts the timestamps
    from 0 to 2**40 and keeps them as they are *)
Definition posix_fromtimestamp (t : Z) : Result Z :=
  if ((t <? 0) || (2 ^ 40 <? t))%Z
  then Err (ValueError "year is out of range")
  else Ok t.

(** the genre tags of the catalogue, one entry per occurrence *)
Definition genre_tags (movies : list MovieRow) : list string :=
  flat_map (fun m => split_on "|" (row_genres m)) movies.

(** the number of ratings of the value [q] *)
Definition ratings_equal_to (ratings : list RatingRow) (q : Q) : nat :=
  List.length (filter (fun r => Qeq_bool q (r_rating r)) ratings).

(** the movie row carries the title [t] *)
Definition title_is (t : string) (m : MovieRow) : bool :=
  match row_title m with
  | Some t' => String.eqb t' t
  | None => false
  end.

(** the ratings of the movies titled [t]: one entry for every pair of a
    rating and a movie row of that title with the same id *)
Definition ratings_of_title (ratings : list RatingRow)
    (movies : list MovieRow) (t : string) : list Q :=
  flat_map (fun r =>
              map (fun _ => r_rating r)
                (filter (fun m => (row_movieId m =? r_movieId r)%Z
                                  && title_is t m) movies))
    ratings.

(** the recommendation of the API carries the id, the title and the genres
    of the catalogue row *)
Definition recommends (row : MovieRow) (r : Api.Recommendation) : Prop :=
  Api.rec_movieId r = row_movieId row /\
  row_title row = Some (Api.rec_title r) /\
  Api.rec_genres r = row_genres row.

(** the dictionary of the Streamlit method carries the title and the genres
    of the catalogue row *)
Definition suggests (row : MovieRow) (r : App.RecDict) : Prop :=
  App.title r = row_title row /\ App.genres r = row_genres row.

(** the value fits a cell of an int64 column *)
Definition int64 (z : Z) : bool := ((- 2 ^ 63 <=? z) && (z <? 2 ^ 63))%Z.

(** the ids and the timestamps of the ratings fit int64, as in a table
    that pandas has read into int64 columns *)
Definition int64_ratings (ratings : list RatingRow) : Prop :=
  Forall (fun r => int64 (r_userId r) = true /\
                   int64 (r_movieId r) = true /\
                   int64 (r_timestamp r) = true) ratings.

Definition int64_movies (movies : list MovieRow) : Prop :=
  Forall (fun m => int64 (row_movieId m) = true) movies.

(** the ids of a submitted rating and the timestamp stored with it fit
    int64 *)
Definition int64_rating (body : Api.Rating) (now : Z) : Prop :=
  int64 (Api.userId body) = true /\
  int64 (Api.movieId body) = true /\
  int64 (Api.stored_timestamp body now) = true.

(** the text is ASCII *)
Definition ascii_text (s : string) : bool :=
  forallb (fun c => (nat_of_ascii c <? 128)%nat) (list_ascii_of_string s).

(** the titles of the catalogue are ASCII *)
Definition ascii_titles (movies : list MovieRow) : Prop :=
  Forall (fun m => match row_title m with
                   | Some t => ascii_text t = true
                   | None => True
                   end) movies.

(** a rating in half stars, from 0.5 to 5 *)
Definition half_star (q : Q) : bool :=
  ((2 * Qnum q) mod Z.pos (Qden q) =? 0)%Z && Qle_bool 0.5 q && Qle_bool q 5.

(** the ratings table, when loaded, holds int64 ids and timestamps *)
Definition int64_table (d : Data) : Prop :=
  match ratings_df d with
  | Some ratings => int64_ratings ratings
  | None => True
  end.

(** the id of the first row of the catalogue with the title [t] *)
Definition id_of_title (movies : list MovieRow) (t : option string)
  : option Z :=
  option_map row_movieId
    (find (fun m => match row_title m, t with
                    | Some a, Some b => String.eqb a b
                    | _, _ => false
                    end) movies).

(** * Part II: facts and claims *)

(** ** Lists *)

Lemma firstn_incl {A : Type} (k : nat) (l : list A) (x : A) :
  In x (firstn k l) -> In x l.
Proof.
  rewrite <- (firstn_skipn k l) at 2. intros H.
  apply in_or_app; left; exact H.
Qed.

Lemma firstn_NoDup {A : Type} (k : nat) (l : list A) :
  NoDup l -> NoDup (firstn k l).
Proof.
  rewrite <- (firstn_skipn k l) at 1.
  apply NoDup_app_remove_r.
Qed.

Lemma firstn_Sorted {A : Type} (R : A -> A -> Prop) (l : list A) :
  Sorted R l -> forall k, Sorted R (firstn k l).
Proof.
  induction 1 as [|a l Hs IH Hhd]; intros [|k]; simpl; try constructor.
  - apply IH.
  - destruct Hhd; destruct k; simpl; constructor; assumption.
Qed.

Lemma boolean_index_map {A : Type} (f : A -> bool) (rows : list A) :
  boolean_index rows (map f rows) = filter f rows.
Proof.
  induction rows as [|r rows IH]; simpl.
  - reflexivity.
  - rewrite IH. reflexivity.
Qed.

(** ** The stable descending sort *)

Section SortDescFacts.

Context {A : Type}.
Variable key : A -> Q.

Lemma insert_desc_perm (x : A) (l : list A) :
  Permutation (x :: l) (insert_desc key x l).
Proof.
  induction l as [|y l IH]; simpl.
  - apply Permutation_refl.
  - destruct (Qle_bool (key y) (key x)).
    + apply Permutation_refl.
    + eapply perm_trans; [apply perm_swap|].
      apply perm_skip, IH.
Qed.

Lemma sort_desc_perm (l : list A) : Permutation l (sort_desc key l).
Proof.
  induction l as [|x l IH]; simpl.
  - constructor.
  - eapply perm_trans; [apply perm_skip, IH|].
    apply insert_desc_perm.
Qed.

Lemma sort_desc_length (l : list A) :
  List.length (sort_desc key l) = List.length l.
Proof.
  symmetry. apply Permutation_length, sort_desc_perm.
Qed.

Lemma insert_desc_hd (x y : A) (l : list A) :
  key x <= key y ->
  HdRel (key_ge key) y l -> HdRel (key_ge key) y (insert_desc key x l).
Proof.
  intros Hxy Hl.
  destruct l as [|z l]; simpl.
  - constructor. exact Hxy.
  - destruct (Qle_bool (key z) (key x)).
    + constructor. exact Hxy.
    + constructor. inversion Hl; assumption.
Qed.

Lemma insert_desc_sorted (x : A) (l : list A) :
  Sorted (key_ge key) l -> Sorted (key_ge key) (insert_desc key x l).
Proof.
  induction l as [|y l IH]; simpl; intros Hs.
  - repeat constructor.
  - destruct (Qle_bool (key y) (key x)) eqn:E.
    + constructor; [exact Hs|].
      constructor. apply Qle_bool_iff; exact E.
    + inversion Hs as [|? ? Hs' Hhd]; subst.
      constructor; [apply IH; exact Hs'|].
      apply insert_desc_hd; [|exact Hhd].
      destruct (Qlt_le_dec (key x) (key y)) as [Hlt|Hle].
      * apply Qlt_le_weak; exact Hlt.
      * apply Qle_bool_iff in Hle. congruence.
Qed.

Lemma sort_desc_sorted (l : list A) : Sorted (key_ge key) (sort_desc key l).
Proof.
  induction l as [|x l IH]; simpl.
  - constructor.
  - apply insert_desc_sorted, IH.
Qed.

(** an element is inserted behind the elements with a strictly greater
    key only, so it stays ahead of every element with its own key *)
Lemma insert_desc_stable (q : Q) (x : A) (l : list A) :
  with_key key q (insert_desc key x l) = with_key key q (x :: l).
Proof.
  unfold with_key.
  induction l as [|y l IH]; simpl.
  - reflexivity.
  - destruct (Qle_bool (key y) (key x)) eqn:E; simpl.
    + reflexivity.
    + rewrite IH. simpl.
      destruct (Qeq_bool (key y) q) eqn:Ey;
        destruct (Qeq_bool (key x) q) eqn:Ex; try reflexivity.
      exfalso.
      apply Qeq_bool_iff in Ey. apply Qeq_bool_iff in Ex.
      assert (Hle : key y <= key x) by (rewrite Ey, Ex; apply Qle_refl).
      apply Qle_bool_iff in Hle. congruence.
Qed.

Lemma sort_desc_stable (q : Q) (l : list A) :
  with_key key q (sort_desc key l) = with_key key q l.
Proof.
  induction l as [|x l IH]; simpl.
  - reflexivity.
  - rewrite insert_desc_stable. unfold with_key in *. simpl.
    rewrite IH. reflexivity.
Qed.

(** the sort of a list of [k] elements, [k] being min(n, len) *)
Lemma sort_desc_python_sorted (built : list A) (n : Z) (len : nat) :
  Z.of_nat (List.length built) = Z.min n (Z.of_nat len) ->
  python_sorted key built (sort_desc key built) n len.
Proof.
  intros Hlen. unfold python_sorted.
  rewrite sort_desc_length.
  repeat split.
  - apply sort_desc_perm.
  - apply sort_desc_sorted.
  - intros q. apply sort_desc_stable.
  - exact Hlen.
  - lia.
Qed.

End SortDescFacts.

(** ** Sampling rows *)

Lemma take_rows_ok {A : Type} (rows : list A) (ps : list nat) :
  Forall (fun p => (p < List.length rows)%nat) ps ->
  exists rs, take_rows rows ps = Ok rs.
Proof.
  induction 1 as [|p ps Hp _ IH]; simpl.
  - eexists; reflexivity.
  - destruct (nth_error rows p) as [r|] eqn:E.
    + destruct IH as [rs ->]. eexists; reflexivity.
    + apply nth_error_None in E. lia.
Qed.

Lemma take_rows_spec {A : Type} (rows : list A) (ps : list nat) (rs : list A) :
  take_rows rows ps = Ok rs ->
  List.length rs = List.length ps /\ Forall (fun r => In r rows) rs.
Proof.
  revert rs.
  induction ps as [|p ps IH]; simpl; intros rs H.
  - inversion H; subst. split; [reflexivity | constructor].
  - destruct (nth_error rows p) as [r|] eqn:E; [|discriminate].
    destruct (take_rows rows ps) as [rs'|]; [|discriminate].
    inversion H; subst.
    destruct (IH rs' eq_refl) as [Hlen Hin].
    split; [simpl; congruence|].
    constructor; [eapply nth_error_In; exact E | exact Hin].
Qed.

(** [df.sample(k)] with [0 <= k <= len(df)] returns [k] rows of the frame *)
Lemma df_sample_ok (G : RandomState) {A : Type} (rows : list A) (k : Z)
    (s : rng G) :
  (0 <= k <= Z.of_nat (List.length rows))%Z ->
  exists rs s', df_sample G rows k s = (Ok rs, s') /\
                List.length rs = Z.to_nat k /\
                Forall (fun r => In r rows) rs.
Proof.
  intros Hk. unfold df_sample.
  destruct (Z.ltb_spec k 0); [lia|].
  destruct (Z.ltb_spec (Z.of_nat (List.length rows)) k); [lia|].
  assert (Hle : (Z.to_nat k <= List.length rows)%nat) by lia.
  pose proof (sample_positions_length G _ _ s Hle) as Hlen.
  pose proof (sample_positions_lt G _ _ s Hle) as Hlt.
  destruct (sample_positions G (List.length rows) (Z.to_nat k) s) as [ps s'].
  simpl in Hlen, Hlt.
  destruct (take_rows_ok rows ps Hlt) as [rs Hrs].
  exists rs, s'. rewrite Hrs.
  destruct (take_rows_spec rows ps rs Hrs) as [H1 H2].
  repeat split; [congruence | exact H2].
Qed.

Lemma df_sample_spec (G : RandomState) {A : Type} (rows rs : list A) (k : Z)
    (s s' : rng G) :
  df_sample G rows k s = (Ok rs, s') ->
  (0 <= k <= Z.of_nat (List.length rows))%Z /\ List.length rs = Z.to_nat k.
Proof.
  unfold df_sample. intros H.
  destruct (Z.ltb_spec k 0); [discriminate|].
  destruct (Z.ltb_spec (Z.of_nat (List.length rows)) k); [discriminate|].
  split; [lia|].
  assert (Hle : (Z.to_nat k <= List.length rows)%nat) by lia.
  pose proof (sample_positions_length G _ _ s Hle) as Hlen.
  destruct (sample_positions G (List.length rows) (Z.to_nat k) s) as [ps s1].
  simpl in Hlen. injection H as Hrs _.
  destruct (take_rows_spec rows ps rs Hrs) as [Hrows _]. congruence.
Qed.

(** ** The generator [Lcg] meets the contract *)

Lemma lcg_step_range (s : Z) : (0 <= Lcg.step s < 65536)%Z.
Proof. unfold Lcg.step, Lcg.modulus. apply Z.mod_pos_bound. lia. Qed.

Lemma lcg_draw_unit_ge (s : Z) : 0 <= fst (Lcg.draw_unit s).
Proof.
  unfold Lcg.draw_unit; simpl. unfold Qle; simpl.
  pose proof (lcg_step_range s).
  assert (0 <= Lcg.step s / 16384)%Z by (apply Z.div_pos; lia). lia.
Qed.

Lemma lcg_draw_unit_lt (s : Z) : fst (Lcg.draw_unit s) < 1.
Proof.
  unfold Lcg.draw_unit; simpl. unfold Qlt; simpl.
  pose proof (lcg_step_range s).
  assert (Lcg.step s / 16384 < 4)%Z by (apply Z.div_lt_upper_bound; lia). lia.
Qed.

Lemma lcg_draw_below_lt (k : nat) (s : Z) :
  (0 < k)%nat -> (fst (Lcg.draw_below k s) < k)%nat.
Proof.
  intros Hk. unfold Lcg.draw_below; simpl.
  pose proof (Z.mod_pos_bound (Lcg.step s / 256) (Z.of_nat k)). lia.
Qed.

Lemma lcg_rotate_perm {A : Type} (a : nat) (l : list A) :
  Permutation (Lcg.rotate a l) l.
Proof.
  unfold Lcg.rotate.
  eapply perm_trans; [apply Permutation_app_comm|].
  rewrite firstn_skipn. apply Permutation_refl.
Qed.

Lemma lcg_draw_positions_length (len k : nat) (s : Z) :
  (k <= len)%nat -> List.length (fst (Lcg.draw_positions len k s)) = k.
Proof.
  intros Hk. unfold Lcg.draw_positions.
  destruct (Lcg.draw_below len s) as [start s']. simpl.
  apply firstn_length_le.
  rewrite (Permutation_length (lcg_rotate_perm start (seq 0 len))).
  rewrite length_seq. exact Hk.
Qed.

Lemma lcg_draw_positions_lt (len k : nat) (s : Z) :
  (k <= len)%nat ->
  Forall (fun p => (p < len)%nat) (fst (Lcg.draw_positions len k s)).
Proof.
  intros _. unfold Lcg.draw_positions.
  destruct (Lcg.draw_below len s) as [start s']. simpl.
  apply Forall_forall. intros p Hp.
  apply firstn_incl in Hp.
  apply (Permutation_in _ (lcg_rotate_perm start (seq 0 len))) in Hp.
  apply in_seq in Hp. lia.
Qed.

Lemma lcg_draw_positions_NoDup (len k : nat) (s : Z) :
  (k <= len)%nat -> NoDup (fst (Lcg.draw_positions len k s)).
Proof.
  intros _. unfold Lcg.draw_positions.
  destruct (Lcg.draw_below len s) as [start s']. simpl.
  apply firstn_NoDup.
  apply (Permutation_NoDup
           (Permutation_sym (lcg_rotate_perm start (seq 0 len)))).
  apply seq_NoDup.
Qed.

Definition lcg : RandomState :=
  {| rng := Z;
     mt19937_seed := Lcg.seed;
     random_sample := Lcg.draw_unit;
     random_sample_ge := lcg_draw_unit_ge;
     random_sample_lt := lcg_draw_unit_lt;
     choice_index := Lcg.draw_below;
     choice_index_lt := lcg_draw_below_lt;
     sample_positions := Lcg.draw_positions;
     sample_positions_length := lcg_draw_positions_length;
     sample_positions_lt := lcg_draw_positions_lt;
     sample_positions_NoDup := lcg_draw_positions_NoDup |}.

(** ** The generator of numpy meets the contract *)

Lemma word32_range (z : Z) : (0 <= Mt19937.word32 z < 2 ^ 32)%Z.
Proof.
  unfold Mt19937.word32. rewrite Z.land_ones by lia.
  apply Z.mod_pos_bound. lia.
Qed.

Lemma next_uint32_range (st : Mt19937.state) :
  (0 <= fst (Mt19937.next_uint32 st) < 2 ^ 32)%Z.
Proof. unfold Mt19937.next_uint32. simpl. apply word32_range. Qed.

Lemma next_double_range (st : Mt19937.state) :
  0 <= fst (Mt19937.next_double st) /\ fst (Mt19937.next_double st) < 1.
Proof.
  unfold Mt19937.next_double.
  pose proof (next_uint32_range st) as H1.
  destruct (Mt19937.next_uint32 st) as [w1 st1]. simpl in H1.
  pose proof (next_uint32_range st1) as H2.
  destruct (Mt19937.next_uint32 st1) as [w2 st2]. simpl in H2.
  simpl. rewrite !Z.shiftr_div_pow2 by lia.
  assert (Ha : (0 <= w1 / 2 ^ 5 < 2 ^ 27)%Z).
  { split; [apply Z.div_pos; lia | apply Z.div_lt_upper_bound; lia]. }
  assert (Hb : (0 <= w2 / 2 ^ 6 < 2 ^ 26)%Z).
  { split; [apply Z.div_pos; lia | apply Z.div_lt_upper_bound; lia]. }
  unfold Qle, Qlt. simpl. split; lia.
Qed.

Lemma interval_loop_range (fuel : nat) (max mask : Z) (st : Mt19937.state) :
  (0 <= max)%Z ->
  (0 <= fst (Mt19937.interval_loop fuel max mask st) <= max)%Z.
Proof.
  intros Hmax. revert st.
  induction fuel as [|fuel IH]; intros st;
    unfold Mt19937.interval_loop; fold Mt19937.interval_loop;
    pose proof (next_uint32_range st) as Hw;
    destruct (Mt19937.next_uint32 st) as [w st']; cbv zeta;
    unfold fst in Hw;
    destruct (Z.leb_spec (Z.land w mask) max) as [Hle|Hgt].
  - unfold fst. split; [apply Z.land_nonneg; lia | exact Hle].
  - unfold fst. lia.
  - unfold fst. split; [apply Z.land_nonneg; lia | exact Hle].
  - apply IH.
Qed.

Lemma random_interval_range (max : Z) (st : Mt19937.state) :
  (0 <= max)%Z -> (0 <= fst (Mt19937.random_interval max st) <= max)%Z.
Proof.
  intros Hmax. unfold Mt19937.random_interval.
  destruct (Z.eqb_spec max 0); [simpl; lia|].
  apply interval_loop_range, Hmax.
Qed.

Lemma mt_choice_index_lt (k : nat) (st : Mt19937.state) :
  (0 < k)%nat -> (fst (Mt19937.choice_index k st) < k)%nat.
Proof.
  intros Hk. unfold Mt19937.choice_index.
  pose proof (random_interval_range (Z.of_nat k - 1) st ltac:(lia)) as H.
  destruct (Mt19937.random_interval (Z.of_nat k - 1) st) as [j st'].
  unfold fst in *. lia.
Qed.

(** an array that holds the positions below [n], each once *)
Definition positions_below (n : nat) (arr : list nat) : Prop :=
  List.length arr = n /\ NoDup arr /\ Forall (fun p => (p < n)%nat) arr.

Lemma NoDup_map_on {A B : Type} (f : A -> B) (l : list A) :
  (forall x y, In x l -> In y l -> f x = f y -> x = y) ->
  NoDup l -> NoDup (map f l).
Proof.
  intros Hinj Hnd. induction Hnd as [|a l Hnot Hnd IH]; simpl; constructor.
  - intros Hin. apply in_map_iff in Hin. destruct Hin as (b & Hb & Hbl).
    assert (b = a) by (apply Hinj; simpl; auto). subst b. contradiction.
  - apply IH. intros x y Hx Hy. apply Hinj; right; assumption.
Qed.

Lemma swap_positions (n : nat) (arr : list nat) (i j : nat) :
  positions_below n arr -> (i < n)%nat -> (j < n)%nat ->
  positions_below n (Mt19937.swap arr i j).
Proof.
  intros (Hlen & Hnd & Hall) Hi Hj. unfold Mt19937.swap. rewrite Hlen.
  set (other := fun k : nat =>
                  if (k =? i)%nat then j else if (k =? j)%nat then i else k).
  assert (Hother : forall k, (k < n)%nat -> (other k < n)%nat).
  { intros k Hk. unfold other.
    destruct (Nat.eqb_spec k i); [assumption|].
    destruct (Nat.eqb_spec k j); assumption. }
  assert (Hinv : forall k, other (other k) = k).
  { intros k. unfold other.
    destruct (Nat.eqb_spec k i) as [->|Hki].
    - destruct (Nat.eqb_spec j i) as [->|Hji]; [reflexivity|].
      rewrite Nat.eqb_refl. reflexivity.
    - destruct (Nat.eqb_spec k j) as [->|Hkj].
      + rewrite Nat.eqb_refl. reflexivity.
      + destruct (Nat.eqb_spec k i); [congruence|].
        destruct (Nat.eqb_spec k j); congruence. }
  split; [|split].
  - rewrite length_map, length_seq. reflexivity.
  - apply NoDup_map_on; [|apply seq_NoDup].
    intros x y Hx Hy E. apply in_seq in Hx. apply in_seq in Hy.
    rewrite NoDup_nth in Hnd.
    assert (other x = other y)
      by (apply Hnd; [rewrite Hlen; apply Hother; lia
                     | rewrite Hlen; apply Hother; lia | exact E]).
    rewrite <- (Hinv x), <- (Hinv y). congruence.
  - apply Forall_forall. intros p Hp. apply in_map_iff in Hp.
    destruct Hp as (k & <- & Hk). apply in_seq in Hk.
    rewrite Forall_forall in Hall. apply Hall, nth_In.
    rewrite Hlen. apply Hother. lia.
Qed.

Lemma shuffle_from_positions (n i : nat) :
  (i <= n - 1)%nat ->
  forall (arr : list nat) (st : Mt19937.state),
    positions_below n arr ->
    positions_below n (fst (Mt19937.shuffle_from i arr st)).
Proof.
  induction i as [|i IH]; intros Hi arr st Harr; [exact Harr|].
  unfold Mt19937.shuffle_from; fold Mt19937.shuffle_from.
  pose proof (random_interval_range (Z.of_nat (S i)) st ltac:(lia)) as Hj.
  destruct (Mt19937.random_interval (Z.of_nat (S i)) st) as [j st'].
  unfold fst in Hj. apply IH; [lia|].
  apply swap_positions; [exact Harr | lia | lia].
Qed.

Lemma permutation_positions (n : nat) (st : Mt19937.state) :
  positions_below n (fst (Mt19937.permutation n st)).
Proof.
  unfold Mt19937.permutation. apply shuffle_from_positions; [lia|].
  split; [apply length_seq|]. split; [apply seq_NoDup|].
  apply Forall_forall. intros p Hp. apply in_seq in Hp. lia.
Qed.

Lemma mt_sample_positions_length (len k : nat) (st : Mt19937.state) :
  (k <= len)%nat ->
  List.length (fst (Mt19937.sample_positions len k st)) = k.
Proof.
  intros Hk. unfold Mt19937.sample_positions.
  destruct (permutation_positions len st) as (Hlen & _).
  destruct (Mt19937.permutation len st) as [arr st']. simpl in *.
  rewrite length_firstn. lia.
Qed.

Lemma mt_sample_positions_lt (len k : nat) (st : Mt19937.state) :
  (k <= len)%nat ->
  Forall (fun p => (p < len)%nat) (fst (Mt19937.sample_positions len k st)).
Proof.
  intros _. unfold Mt19937.sample_positions.
  destruct (permutation_positions len st) as (_ & _ & Hall).
  destruct (Mt19937.permutation len st) as [arr st']. simpl in *.
  rewrite Forall_forall in *. intros p Hp. apply Hall.
  eapply firstn_incl, Hp.
Qed.

Lemma mt_sample_positions_NoDup (len k : nat) (st : Mt19937.state) :
  (k <= len)%nat ->
  NoDup (fst (Mt19937.sample_positions len k st)).
Proof.
  intros _. unfold Mt19937.sample_positions.
  destruct (permutation_positions len st) as (_ & Hnd & _).
  destruct (Mt19937.permutation len st) as [arr st']. simpl in *.
  apply firstn_NoDup, Hnd.
Qed.

(** [np.random]: the generator the two programs draw from *)
Definition numpy : RandomState :=
  {| rng := Mt19937.state;
     mt19937_seed := Mt19937.seed;
     random_sample := Mt19937.next_double;
     random_sample_ge := fun s => proj1 (next_double_range s);
     random_sample_lt := fun s => proj2 (next_double_range s);
     choice_index := Mt19937.choice_index;
     choice_index_lt := mt_choice_index_lt;
     sample_positions := Mt19937.sample_positions;
     sample_positions_length := mt_sample_positions_length;
     sample_positions_lt := mt_sample_positions_lt;
     sample_positions_NoDup := mt_sample_positions_NoDup |}.

(** After [np.random.seed(0)] the first draw of [random()] is
    0.5488135039273248 and [permutation(10)] is 2 8 4 9 1 6 7 3 0 5. *)
Example numpy_seed_0 :
  fst (Mt19937.next_double (Mt19937.seed 0))
    = (4943272583565992 # 9007199254740992) /\
  fst (Mt19937.permutation 10 (Mt19937.seed 0))
    = [2; 8; 4; 9; 1; 6; 7; 3; 0; 5]%nat.
Proof. split; vm_compute; reflexivity. Qed.

(** The tempering of the key word 0x80110220 is the word 0x10000. *)
Example tempered_key_word : Mt19937.temper 2148598304 = 65536%Z.
Proof. reflexivity. Qed.

(** ** The recommendation handlers *)

Ltac np_unfold :=
  unfold bind, ret, raise, lift, Api.logger_info, np_random_random,
    np_random_uniform, np_random_choice in *.

Section RecommendFacts.

Variable G : RandomState.

Lemma Recommendation_new_inv id t g sc why r :
  Api.Recommendation_new id t g sc why = Ok r ->
  t = Some (Api.rec_title r) /\ Api.rec_movieId r = id /\
  Api.score r = sc /\ in_unit_interval sc.
Proof.
  unfold Api.Recommendation_new.
  destruct t as [t|]; [|discriminate].
  destruct (Qle_bool 0 sc) eqn:E0; [|discriminate].
  destruct (Qle_bool sc 1) eqn:E1; [|discriminate].
  simpl. intros H. inversion H; subst; simpl.
  apply Qle_bool_iff in E0. apply Qle_bool_iff in E1.
  unfold in_unit_interval. auto.
Qed.

(** a draw of [random()] scaled into a score passes the range check *)
Lemma scaled_draw_in_range (r : Q) :
  0 <= r -> r < 1 -> 0.5 <= 0.5 + 0.4 * r /\ 0.5 + 0.4 * r < 0.9.
Proof. intros H0 H1. split; lra. Qed.

Lemma recommend_row_spec (movie : MovieRow) (s s' : rng G) r :
  Api.recommend_row G movie s = (Ok r, s') ->
  Api.rec_movieId r = row_movieId movie /\ in_unit_interval (Api.score r).
Proof.
  unfold Api.recommend_row. np_unfold.
  destruct (random_sample G s) as [x s1].
  simpl.
  destruct (choice_index G 5 s1) as [i s2].
  intros H. injection H as H _.
  apply Recommendation_new_inv in H.
  destruct H as (_ & Hid & -> & Hr). auto.
Qed.

Lemma recommend_row_ok (movie : MovieRow) (s : rng G) :
  row_title movie <> None ->
  exists r s', Api.recommend_row G movie s = (Ok r, s').
Proof.
  intros Ht. unfold Api.recommend_row. np_unfold.
  pose proof (random_sample_ge G s) as Hge.
  pose proof (random_sample_lt G s) as Hlt.
  destruct (random_sample G s) as [x s1]. simpl in *.
  destruct (choice_index G 5 s1) as [i s2].
  unfold Api.Recommendation_new.
  destruct (row_title movie) as [t|]; [|congruence].
  destruct (scaled_draw_in_range x Hge Hlt) as [Ha Hb].
  assert (E0 : Qle_bool 0 (0.5 + 0.4 * x) = true)
    by (apply Qle_bool_iff; lra).
  assert (E1 : Qle_bool (0.5 + 0.4 * x) 1 = true)
    by (apply Qle_bool_iff; lra).
  rewrite E0, E1. simpl. eexists; eexists; reflexivity.
Qed.

Lemma recommend_rows_spec (rows : list MovieRow) :
  forall (s s' : rng G) recs,
    Api.recommend_rows G rows s = (Ok recs, s') ->
    map Api.rec_movieId recs = map row_movieId rows /\
    Forall (fun r => in_unit_interval (Api.score r)) recs.
Proof.
  induction rows as [|movie rows IH]; simpl; intros s s' recs H.
  - np_unfold. inversion H; subst. split; [reflexivity | constructor].
  - unfold bind at 1 in H.
    destruct (Api.recommend_row G movie s) as [[r|e] s1] eqn:Er;
      [|discriminate].
    unfold bind at 1 in H.
    destruct (Api.recommend_rows G rows s1) as [[rs|e] s2] eqn:Ers;
      [|discriminate].
    unfold ret in H. inversion H; subst.
    destruct (recommend_row_spec movie s s1 r Er) as [Hid Hin].
    destruct (IH s1 s' rs Ers) as [Hids Hall].
    split; [simpl; congruence | constructor; assumption].
Qed.

Lemma recommend_rows_ok (rows : list MovieRow) :
  titles_present rows ->
  forall s : rng G, exists recs s', Api.recommend_rows G rows s = (Ok recs, s').
Proof.
  induction 1 as [|movie rows Ht _ IH]; intros s; simpl.
  - np_unfold. eexists; eexists; reflexivity.
  - destruct (recommend_row_ok movie s Ht) as (r & s1 & Er).
    destruct (IH s1) as (rs & s2 & Ers).
    unfold bind at 1. rewrite Er.
    unfold bind at 1. rewrite Ers.
    unfold ret. eexists; eexists; reflexivity.
Qed.

(** The handler reads [ratings_df] only to decide whether to log; then it
    reseeds the generator and works from the seeded state. *)
Lemma get_user_recommendations_unfold (d : Data) (movies : list MovieRow)
    (user_id n : Z) (s : rng G) :
  movies_df d = Some movies ->
  (1 <= n <= 50)%Z ->
  Api.get_user_recommendations G d user_id n s =
    if ((user_id <? 0) || (seed_bound <=? user_id))%Z
    then (Err (ValueError "Seed must be between 0 and 2**32 - 1"), s)
    else recommend_from_seed G movies n (mt19937_seed G user_id).
Proof.
  intros Hm Hn. unfold Api.get_user_recommendations.
  destruct (Z.ltb_spec n 1); [lia|].
  destruct (Z.ltb_spec 50 n); [lia|].
  simpl. rewrite Hm.
  assert (Hlog :
    forall k : unit -> NP G (list Api.Recommendation),
      bind (match ratings_df d with
            | Some ratings =>
                if is_empty (filter (fun r => (r_userId r =? user_id)%Z) ratings)
                then Api.logger_info
                       "Nouvel utilisateur - recommandations populaires"
                else ret tt
            | None => ret tt
            end) k s = k tt s).
  { intros k. unfold bind.
    destruct (ratings_df d) as [ratings|]; [|reflexivity].
    destruct (is_empty _); reflexivity. }
  rewrite Hlog.
  unfold bind at 1. unfold np_random_seed.
  destruct ((user_id <? 0) || (seed_bound <=? user_id))%Z; reflexivity.
Qed.

Lemma get_user_recommendations_invalid_n (d : Data) (user_id n : Z)
    (s : rng G) :
  ~ (1 <= n <= 50)%Z ->
  Api.get_user_recommendations G d user_id n s =
    (Err (RequestValidationError "n_recommendations"), s).
Proof.
  intros Hn. unfold Api.get_user_recommendations.
  destruct (Z.ltb_spec n 1); [reflexivity|].
  destruct (Z.ltb_spec 50 n); [reflexivity | lia].
Qed.

Lemma get_user_recommendations_inv (d : Data) (user_id n : Z)
    (s s' : rng G) recs :
  Api.get_user_recommendations G d user_id n s = (Ok recs, s') ->
  exists movies,
    movies_df d = Some movies /\ (1 <= n <= 50)%Z /\
    (0 <= user_id < seed_bound)%Z /\
    recommend_from_seed G movies n (mt19937_seed G user_id) = (Ok recs, s').
Proof.
  intros H.
  assert (Hn : (1 <= n <= 50)%Z).
  { destruct (Z.le_gt_cases 1 n); [destruct (Z.le_gt_cases n 50); [lia|]|];
      rewrite get_user_recommendations_invalid_n in H by lia; discriminate. }
  destruct (movies_df d) as [movies|] eqn:Hm.
  - exists movies. rewrite (get_user_recommendations_unfold d movies user_id n s Hm Hn) in H.
    destruct (Z.ltb_spec user_id 0); [discriminate|].
    destruct (Z.leb_spec seed_bound user_id); [discriminate|].
    simpl in H. repeat split; try lia; exact H.
  - unfold Api.get_user_recommendations in H. rewrite Hm in H.
    destruct ((n <? 1) || (50 <? n))%Z; discriminate.
Qed.

Lemma recommend_from_seed_inv (movies : list MovieRow) (n : Z)
    (s s' : rng G) recs :
  recommend_from_seed G movies n s = (Ok recs, s') ->
  exists sample s1 built,
    df_sample G movies (Z.min n (Z.of_nat (List.length movies))) s
      = (Ok sample, s1) /\
    Api.recommend_rows G sample s1 = (Ok built, s') /\
    recs = sort_desc Api.score built.
Proof.
  unfold recommend_from_seed. intros H.
  unfold bind at 1 in H.
  destruct (df_sample G movies _ s) as [[sample|e] s1] eqn:Es; [|discriminate].
  unfold bind at 1 in H.
  destruct (Api.recommend_rows G sample s1) as [[built|e] s2] eqn:Eb;
    [|discriminate].
  unfold ret in H. inversion H; subst.
  exists sample, s1, built. auto.
Qed.

Lemma recommend_from_seed_ok (movies : list MovieRow) (n : Z) (s : rng G) :
  (1 <= n)%Z ->
  titles_present movies ->
  exists recs s', recommend_from_seed G movies n s = (Ok recs, s').
Proof.
  intros Hn Ht. unfold recommend_from_seed.
  destruct (df_sample_ok G movies
              (Z.min n (Z.of_nat (List.length movies))) s)
    as (sample & s1 & Es & _ & Hin); [lia|].
  assert (Hts : titles_present sample).
  { unfold titles_present in *. rewrite Forall_forall in *.
    intros m Hm. apply Ht, Hin, Hm. }
  destruct (recommend_rows_ok sample Hts s1) as (built & s2 & Eb).
  unfold bind at 1. rewrite Es.
  unfold bind at 1. rewrite Eb.
  unfold ret. eexists; eexists; reflexivity.
Qed.

Lemma get_user_recommendations_returns (d : Data) (movies : list MovieRow)
    (user_id n : Z) (s : rng G) :
  movies_df d = Some movies ->
  titles_present movies ->
  (1 <= n <= 50)%Z ->
  (0 <= user_id < seed_bound)%Z ->
  exists recs s', Api.get_user_recommendations G d user_id n s = (Ok recs, s').
Proof.
  intros Hm Ht Hn Hu.
  rewrite (get_user_recommendations_unfold d movies user_id n s Hm Hn).
  destruct (Z.ltb_spec user_id 0); [lia|].
  destruct (Z.leb_spec seed_bound user_id); [lia|].
  simpl. apply recommend_from_seed_ok; [lia | exact Ht].
Qed.

Lemma get_user_recommendations_ranked (d : Data) (user_id n : Z)
    (s s' : rng G) recs :
  Api.get_user_recommendations G d user_id n s = (Ok recs, s') ->
  api_ranked G d user_id n recs s'.
Proof.
  intros H.
  apply get_user_recommendations_inv in H.
  destruct H as (movies & Hm & Hn & _ & H).
  apply recommend_from_seed_inv in H.
  destruct H as (sample & s1 & built & Hs & Hb & ->).
  exists movies, sample, s1, built.
  destruct (recommend_rows_spec sample s1 s' built Hb) as [Hids _].
  destruct (df_sample_spec G movies sample _ _ _ Hs) as [Hk Hlen].
  split; [exact Hm|]. split; [exact Hs|]. split; [exact Hb|].
  split; [exact Hids|].
  apply sort_desc_python_sorted.
  rewrite <- (length_map Api.rec_movieId), Hids, length_map, Hlen. lia.
Qed.

Lemma get_user_recommendations_scores (d : Data) (user_id n : Z)
    (s s' : rng G) recs :
  Api.get_user_recommendations G d user_id n s = (Ok recs, s') ->
  Forall (fun r => in_unit_interval (Api.score r)) recs.
Proof.
  intros H.
  apply get_user_recommendations_ranked in H.
  destruct H as (movies & sample & s1 & built & _ & _ & Hb & _ & Hperm & _).
  apply recommend_rows_spec in Hb. destruct Hb as [_ Hall].
  rewrite Forall_forall in *. intros r Hr. apply Hall.
  eapply Permutation_in; [apply Permutation_sym, Hperm | exact Hr].
Qed.

(** The Streamlit method never fails once the rows are sampled. *)
Lemma score_rows_spec (rows : list MovieRow) :
  forall s : rng G,
    exists built s',
      App.score_rows G rows s = (Ok built, s') /\
      map App.title built = map row_title rows /\
      Forall (fun r => 0.7 <= App.score r /\ App.score r < 0.95) built.
Proof.
  induction rows as [|movie rows IH]; intros s; simpl.
  - np_unfold. exists [], s. repeat split; constructor.
  - np_unfold.
    pose proof (random_sample_ge G s) as Hge.
    pose proof (random_sample_lt G s) as Hlt.
    destruct (random_sample G s) as [x s1]. simpl in Hge, Hlt.
    destruct (IH s1) as (built & s2 & -> & Ht & Hall).
    eexists; eexists. split; [reflexivity|].
    split; [simpl; rewrite Ht; reflexivity|].
    constructor; [simpl; split; lra | exact Hall].
Qed.

Lemma get_recommendations_ranked (d : Data) (movies : list MovieRow)
    (user_id : option Z) (movie_title : option string) (n : Z)
    (s s' : rng G) recs :
  movies_df d = Some movies ->
  App.get_recommendations G d user_id movie_title n s = (Ok recs, s') ->
  app_ranked G movies n s recs s'.
Proof.
  intros Hm H. unfold App.get_recommendations in H. rewrite Hm in H.
  unfold bind at 1 in H.
  destruct (df_sample G movies _ s) as [[sample|e] s1] eqn:Es; [|discriminate].
  destruct (score_rows_spec sample s1) as (built & s2 & Eb & Ht & _).
  unfold bind at 1 in H. rewrite Eb in H.
  unfold ret in H. inversion H; subst.
  exists sample, s1, built.
  destruct (df_sample_spec G movies sample _ _ _ Es) as [Hk Hlen].
  split; [exact Es|]. split; [exact Eb|]. split; [exact Ht|].
  apply sort_desc_python_sorted.
  rewrite <- (length_map App.title), Ht, length_map, Hlen. lia.
Qed.

Lemma get_recommendations_scores (d : Data) (user_id : option Z)
    (movie_title : option string) (n : Z) (s s' : rng G) recs :
  App.get_recommendations G d user_id movie_title n s = (Ok recs, s') ->
  Forall (fun r => 0.7 <= App.score r /\ App.score r < 0.95) recs.
Proof.
  intros H. unfold App.get_recommendations in H.
  destruct (movies_df d) as [movies|].
  - unfold bind at 1 in H.
    destruct (df_sample G movies _ s) as [[sample|e] s1]; [|discriminate].
    destruct (score_rows_spec sample s1) as (built & s2 & Eb & _ & Hall).
    unfold bind at 1 in H. rewrite Eb in H.
    unfold ret in H. inversion H; subst.
    rewrite Forall_forall in *. intros r Hr. apply Hall.
    eapply Permutation_in; [apply Permutation_sym, sort_desc_perm | exact Hr].
  - unfold ret in H. inversion H; subst. constructor.
Qed.

End RecommendFacts.

Lemma demo_titles_present : titles_present demo_movies.
Proof. repeat constructor; discriminate. Qed.

(** ** Scores *)

(** C3, as amended.  Every score in a list that [get_user_recommendations]
    returns lies in the closed interval from 0 to 1; on a loaded catalogue
    whose titles are present, with [n] in the range the endpoint accepts
    and a user id the generator accepts as a seed, such a list is
    returned; and every score in a list that
    [CineRecommendApp.get_recommendations] returns lies in that interval
    too. *)
Theorem C3_scores_in_unit_interval :
  forall (G : RandomState) (d : Data) (n : Z) (s : rng G),
    (forall user_id recs s',
        Api.get_user_recommendations G d user_id n s = (Ok recs, s') ->
        Forall (fun r => 0 <= Api.score r <= 1) recs) /\
    (forall user_id movies,
        movies_df d = Some movies ->
        titles_present movies ->
        (1 <= n <= 50)%Z ->
        (0 <= user_id < seed_bound)%Z ->
        exists recs s',
          Api.get_user_recommendations G d user_id n s = (Ok recs, s') /\
          Forall (fun r => 0 <= Api.score r <= 1) recs) /\
    (forall user_id movie_title recs s',
        App.get_recommendations G d user_id movie_title n s = (Ok recs, s') ->
        Forall (fun r => 0 <= App.score r <= 1) recs).
Proof.
  intros G d n s. split; [|split].
  - intros user_id recs s' H.
    exact (get_user_recommendations_scores G d user_id n s s' recs H).
  - intros user_id movies Hm Ht Hn Hu.
    destruct (get_user_recommendations_returns G d movies user_id n s
                Hm Ht Hn Hu) as (recs & s' & H).
    exists recs, s'. split; [exact H|].
    exact (get_user_recommendations_scores G d user_id n s s' recs H).
  - intros user_id movie_title recs s' H.
    pose proof (get_recommendations_scores G d user_id movie_title n
                  s s' recs H) as Hall.
    rewrite Forall_forall in *. intros r Hr.
    destruct (Hall r Hr) as [Hlo Hhi]. split; lra.
Qed.

Lemma C3_witness :
  exists recs s',
    Api.get_user_recommendations lcg demo 7 2 0%Z = (Ok recs, s') /\
    Forall (fun r => 0 <= Api.score r <= 1) recs.
Proof.
  apply (proj1 (proj2 (C3_scores_in_unit_interval lcg demo 2 0%Z))
           7%Z demo_movies eq_refl demo_titles_present).
  - lia.
  - unfold seed_bound. lia.
Defined.

(** ** Order and length *)

Example recommendations_of_user_7 :
  recommended_ids (fst (Api.get_user_recommendations lcg demo 7 2 0%Z))
    = Some [3; 6]%Z /\
  recommended_ids (fst (Api.get_user_recommendations lcg demo 7 2 12345%Z))
    = Some [3; 6]%Z.
Proof. split; reflexivity. Qed.

(** C4, as amended.  The list [get_user_recommendations] returns is sorted
    by score in descending order; recommendations with equal scores keep
    the order in which their rows were sampled; and the list has exactly
    min(n, number of movies) entries, so at most n.  The same holds of the
    list [CineRecommendApp.get_recommendations] returns. *)
Theorem C4_sorted_descending_stable_truncated :
  forall (G : RandomState) (d : Data) (n : Z) (s s' : rng G),
    (forall user_id recs,
        Api.get_user_recommendations G d user_id n s = (Ok recs, s') ->
        api_ranked G d user_id n recs s') /\
    (forall movies user_id movie_title recs,
        movies_df d = Some movies ->
        App.get_recommendations G d user_id movie_title n s = (Ok recs, s') ->
        app_ranked G movies n s recs s').
Proof.
  intros G d n s s'. split.
  - intros user_id recs H.
    exact (get_user_recommendations_ranked G d user_id n s s' recs H).
  - intros movies user_id movie_title recs Hm H.
    exact (get_recommendations_ranked G d movies user_id movie_title n
             s s' recs Hm H).
Qed.

Lemma C4_witness :
  exists recs s',
    Api.get_user_recommendations numpy demo 11 2 (Mt19937.seed 0)
      = (Ok recs, s') /\
    api_ranked numpy demo 11 2 recs s'.
Proof.
  eexists; eexists.
  assert (H : Api.get_user_recommendations numpy demo 11 2 (Mt19937.seed 0)
              = (Ok ?[recs], ?[s'])) by (vm_compute; reflexivity).
  split; [exact H|].
  exact (proj1 (C4_sorted_descending_stable_truncated numpy demo 2
                  (Mt19937.seed 0) _) 11%Z _ H).
Defined.

(** With numpy's generator the API recommends movies 3 and 6, in this
    order, to user 11 who asks for two, and movie 3 to user 99 who asks
    for one. *)
Example recommendations_of_users_11_and_99 :
  recommended_ids
    (fst (Api.get_user_recommendations numpy demo 11 2 (Mt19937.seed 0)))
    = Some [3; 6]%Z /\
  recommended_ids
    (fst (Api.get_user_recommendations numpy demo 99 1 (Mt19937.seed 0)))
    = Some [3]%Z.
Proof. split; vm_compute; reflexivity. Qed.

(** C4, as stated, fails.  [np.random.set_state] accepts a key of 624
    equal words with position 0, and from that state numpy's generator
    returns the same word 624 times.  With the key word 0x80110220 the
    Streamlit method, asked for four recommendations over [demo], samples
    Jumanji, Grumpier Old Men, Heat and Toy Story in this order and draws
    the same score for each of them, from 11 words of the key; the stable
    sort leaves them in this order, so that Toy Story, movie 1, comes
    behind movies 2, 3 and 6: the ties are not broken by ascending movie
    id. *)
Lemma C4_counterexample :
  exists recs s' q,
    App.get_recommendations numpy demo None None 4
      (Mt19937.equal_key_state 2148598304) = (Ok recs, s') /\
    Mt19937.pos s' = 11%nat /\
    map App.score recs = [q; q; q; q] /\
    map App.title recs =
      [Some "Jumanji (1995)"; Some "Grumpier Old Men (1995)";
       Some "Heat (1995)"; Some "Toy Story (1995)"]%string /\
    map (id_of_title demo_movies) (map App.title recs)
      = [Some 2; Some 3; Some 6; Some 1]%Z.
Proof.
  eexists; eexists; eexists.
  assert (H : App.get_recommendations numpy demo None None 4
                (Mt19937.equal_key_state 2148598304) = (Ok ?[recs], ?[s']))
    by (vm_compute; reflexivity).
  split; [exact H|].
  split; [reflexivity|]. split; [reflexivity|].
  split; reflexivity.
Qed.

(** ** Determinism *)

(** The API handler reseeds the generator from the user id, so what it
    returns does not depend on the state the generator was left in. *)
Lemma api_recommendations_deterministic (G : RandomState) (d : Data)
    (user_id n : Z) (s1 s2 : rng G) :
  fst (Api.get_user_recommendations G d user_id n s1) =
  fst (Api.get_user_recommendations G d user_id n s2).
Proof.
  destruct (Z.le_gt_cases 1 n) as [Hlo|Hlo];
    [destruct (Z.le_gt_cases n 50) as [Hhi|Hhi]|].
  - destruct (movies_df d) as [movies|] eqn:Hm.
    + rewrite !(get_user_recommendations_unfold G d movies user_id n)
        by (assumption || lia).
      destruct ((user_id <? 0) || (seed_bound <=? user_id))%Z; reflexivity.
    + unfold Api.get_user_recommendations. rewrite Hm.
      destruct ((n <? 1) || (50 <? n))%Z; reflexivity.
  - rewrite !get_user_recommendations_invalid_n by lia. reflexivity.
  - rewrite !get_user_recommendations_invalid_n by lia. reflexivity.
Qed.

(** On a catalogue of one movie the Streamlit method returns that movie
    with the score drawn in the state the generator happens to be in:
    for every generator, the answer is a function of the ambient state. *)
Lemma get_recommendations_single_movie (G : RandomState) (movie : MovieRow)
    (ratings : option (list RatingRow)) (user_id : option Z)
    (movie_title : option string) (n : Z) (s : rng G) :
  (1 <= n)%Z ->
  App.get_recommendations G (mkData (Some [movie]) ratings)
    user_id movie_title n s =
    (Ok [App.mkRecDict (row_title movie) (row_genres movie)
           (0.7 + (0.95 - 0.7) *
              fst (random_sample G (snd (sample_positions G 1 1 s))))
           "Basé sur vos préférences"],
     snd (random_sample G (snd (sample_positions G 1 1 s)))).
Proof.
  intros Hn. unfold App.get_recommendations; simpl.
  replace (Z.min n 1) with 1%Z by lia.
  unfold bind at 1. unfold df_sample; simpl.
  change (Pos.to_nat 1) with 1%nat.
  pose proof (sample_positions_length G 1 1 s (le_n 1)) as Hlen.
  pose proof (sample_positions_lt G 1 1 s (le_n 1)) as Hlt.
  destruct (sample_positions G 1 1 s) as [ps s1]. simpl in *.
  destruct ps as [|p [|p' ps]]; try discriminate.
  inversion Hlt as [|? ? Hp _]; subst.
  assert (p = 0%nat) by lia. subst p. simpl.
  np_unfold.
  destruct (random_sample G s1) as [r s2]. reflexivity.
Qed.

(** so two requests get different scores whenever the generator is in
    states whose draws differ *)
Lemma get_recommendations_follow_the_state (G : RandomState)
    (movie : MovieRow) (n : Z) (s s' : rng G) :
  (1 <= n)%Z ->
  ~ fst (random_sample G (snd (sample_positions G 1 1 s))) ==
    fst (random_sample G (snd (sample_positions G 1 1 s'))) ->
  forall recs recs' t t',
    App.get_recommendations G (mkData (Some [movie]) None) None None n s
      = (Ok recs, t) ->
    App.get_recommendations G (mkData (Some [movie]) None) None None n s'
      = (Ok recs', t') ->
    ~ same_recommendations recs recs'.
Proof.
  intros Hn Hdiff recs recs' t t' H H'.
  rewrite get_recommendations_single_movie in H by exact Hn.
  rewrite get_recommendations_single_movie in H' by exact Hn.
  inversion H; inversion H'; subst.
  intros Hsame. inversion Hsame as [|a b l1 l2 Hab _]; subst.
  destruct Hab as (_ & _ & Hscore & _). simpl in Hscore.
  apply Hdiff. lra.
Qed.

(** C1.  [CineRecommendApp.get_recommendations] never seeds the generator:
    called twice in a row with the same arguments on the same tables, it
    returns two different lists. *)
Theorem C1_streamlit_recommendations_not_reproducible :
  exists first s1 second s2,
    App.get_recommendations lcg demo (Some 1%Z) None 2 0%Z = (Ok first, s1) /\
    App.get_recommendations lcg demo (Some 1%Z) None 2 s1 = (Ok second, s2) /\
    ~ same_recommendations first second.
Proof.
  eexists; eexists; eexists; eexists.
  split; [vm_compute; reflexivity|].
  split; [vm_compute; reflexivity|].
  intros H. inversion H as [|a b l1 l2 Hab _]; subst.
  destruct Hab as (_ & _ & Hscore & _).
  vm_compute in Hscore. discriminate Hscore.
Qed.

(** ** Users without ratings *)

(** the handler never looks at the ratings beyond the logging test *)
Lemma get_user_recommendations_ignores_ratings (G : RandomState)
    (movies : list MovieRow) (r1 r2 : option (list RatingRow))
    (user_id n : Z) (s : rng G) :
  Api.get_user_recommendations G (mkData (Some movies) r1) user_id n s =
  Api.get_user_recommendations G (mkData (Some movies) r2) user_id n s.
Proof.
  destruct (Z.le_gt_cases 1 n) as [Hlo|Hlo];
    [destruct (Z.le_gt_cases n 50) as [Hhi|Hhi]|].
  - rewrite !(get_user_recommendations_unfold G _ movies user_id n)
      by (reflexivity || lia).
    reflexivity.
  - rewrite !get_user_recommendations_invalid_n by lia. reflexivity.
  - rewrite !get_user_recommendations_invalid_n by lia. reflexivity.
Qed.

(** C2.  User 99 has no rating in [demo] nor in [demo_alt].  The most-rated
    movie is Toy Story in the first table and Jumanji in the second, yet
    whatever the generator the handler answers both requests with the same
    list: it cannot be the popularity ranking in both. *)
Theorem C2_absent_user_not_served_by_popularity :
  forall (G : RandomState) (s : rng G),
    filter (fun r => (r_userId r =? 99)%Z) demo_ratings = [] /\
    filter (fun r => (r_userId r =? 99)%Z) demo_ratings_alt = [] /\
    most_rated demo_movies demo_ratings 1 = [1%Z] /\
    most_rated demo_movies demo_ratings_alt 1 = [2%Z] /\
    Api.get_user_recommendations G demo 99 1 s =
      Api.get_user_recommendations G demo_alt 99 1 s /\
    ~ (recommended_ids (fst (Api.get_user_recommendations G demo 99 1 s))
         = Some (most_rated demo_movies demo_ratings 1) /\
       recommended_ids (fst (Api.get_user_recommendations G demo_alt 99 1 s))
         = Some (most_rated demo_movies demo_ratings_alt 1)).
Proof.
  intros G s.
  assert (E : Api.get_user_recommendations G demo 99 1 s =
              Api.get_user_recommendations G demo_alt 99 1 s)
    by apply get_user_recommendations_ignores_ratings.
  repeat split; try reflexivity; try exact E.
  rewrite <- E. intros [H1 H2]. rewrite H1 in H2.
  vm_compute in H2. discriminate H2.
Qed.

(** ** Unknown user ids *)

(** C6.  User -1 has no rating in [demo]; the request for its
    recommendations raises the [ValueError] of [np.random.seed], whatever
    the generator, and so does the request for user 2**32. *)
Theorem C6_unknown_id_outside_seed_range_raises :
  forall (G : RandomState) (s : rng G),
    filter (fun r => (r_userId r =? -1)%Z) demo_ratings = [] /\
    Api.get_user_recommendations G demo (-1) 10 s =
      (Err (ValueError "Seed must be between 0 and 2**32 - 1"), s) /\
    Api.get_user_recommendations G demo 4294967296 10 s =
      (Err (ValueError "Seed must be between 0 and 2**32 - 1"), s).
Proof.
  intros G s. split; [reflexivity|].
  split.
  - rewrite (get_user_recommendations_unfold G demo demo_movies (-1) 10 s
               eq_refl); [reflexivity | lia].
  - rewrite (get_user_recommendations_unfold G demo demo_movies
               4294967296 10 s eq_refl); [reflexivity | lia].
Qed.

(** an unknown user whose id is a valid seed is served min(n, number of
    movies) recommendations *)
Lemma unknown_user_in_seed_range_served (G : RandomState) (d : Data)
    (movies : list MovieRow) (ratings : list RatingRow) (user_id n : Z)
    (s : rng G) :
  movies_df d = Some movies ->
  ratings_df d = Some ratings ->
  filter (fun r => (r_userId r =? user_id)%Z) ratings = [] ->
  titles_present movies ->
  (1 <= n <= 50)%Z ->
  (0 <= user_id < seed_bound)%Z ->
  exists recs s',
    Api.get_user_recommendations G d user_id n s = (Ok recs, s') /\
    Z.of_nat (List.length recs) = Z.min n (Z.of_nat (List.length movies)).
Proof.
  intros Hm _ _ Ht Hn Hu.
  destruct (get_user_recommendations_returns G d movies user_id n s
              Hm Ht Hn Hu) as (recs & s' & H).
  exists recs, s'. split; [exact H|].
  apply get_user_recommendations_ranked in H.
  destruct H as (movies' & sample & s1 & built & Hm' & _ & _ & _ & Hp).
  assert (movies' = movies) by congruence. subst movies'.
  destruct Hp as (_ & _ & _ & Hlen & _). exact Hlen.
Qed.

(** ** Adding a rating *)

Lemma demo_int64_table : int64_table demo.
Proof. unfold int64_table, int64_ratings. simpl. repeat constructor. Qed.

Lemma demo_int64_movies : int64_movies demo_movies.
Proof. unfold int64_movies. repeat constructor. Qed.

Lemma load_data_loaded csv sample : loaded (load_data csv sample).
Proof.
  unfold loaded, load_data.
  destruct csv as [[movies ratings]|]; simpl; split; discriminate.
Qed.

Lemma add_rating_loaded body now d :
  loaded d -> loaded (snd (Api.add_rating body now d)).
Proof.
  intros [Hm Hr]. unfold Api.add_rating.
  destruct (ratings_df d) as [ratings|] eqn:Er; [|congruence].
  destruct (negb _); simpl.
  - unfold loaded. rewrite Er. split; [exact Hm | discriminate].
  - unfold loaded; simpl. split; [exact Hm | discriminate].
Qed.

Lemma movie_exists_iff (movies : list MovieRow) (id : Z) :
  existsb (fun m => (row_movieId m =? id)%Z) movies = true <->
  In id (map row_movieId movies).
Proof.
  rewrite existsb_exists, in_map_iff.
  split; intros (m & H1 & H2).
  - exists m. apply Z.eqb_eq in H2. auto.
  - exists m. split; [exact H2 | apply Z.eqb_eq; exact H1].
Qed.

(** C9.  On loaded tables, [add_rating] answers a rating whose movie id is
    not in the movie table with the 404 error and leaves both tables as
    they were; otherwise it succeeds, appends exactly one row made of the
    submitted fields (the current time standing in for an absent
    timestamp) to the ratings table, and leaves the movie table as it
    was.  The ids and timestamps, those of the tables and those of the
    rating, are taken to fit int64, so that the columns keep their type
    when the row is appended. *)
Theorem C9_add_rating_unknown_movie_or_append :
  forall (body : Api.Rating) (now : Z) (d : Data)
         (movies : list MovieRow) (ratings : list RatingRow),
    movies_df d = Some movies ->
    ratings_df d = Some ratings ->
    int64_movies movies ->
    int64_ratings ratings ->
    int64_rating body now ->
    (~ In (Api.movieId body) (map row_movieId movies) ->
       Api.add_rating body now d =
         (Err (HTTPException 404 "Film non trouvé"), d)) /\
    (In (Api.movieId body) (map row_movieId movies) ->
       let row := mkRatingRow (Api.userId body) (Api.movieId body)
                    (Api.rating body) (Api.stored_timestamp body now) in
       Api.add_rating body now d =
         (Ok row, mkData (Some movies) (Some (ratings ++ [row]))) /\
       (Api.timestamp body = None -> r_timestamp row = now)) /\
    (forall row d',
       Api.add_rating body now d = (Ok row, d') ->
       movies_df d' = Some movies /\ ratings_df d' = Some (ratings ++ [row])).
Proof.
  intros body now d movies ratings Hm Hr _ _ _.
  pose proof (movie_exists_iff movies (Api.movieId body)) as Hiff.
  unfold Api.add_rating. rewrite Hm, Hr.
  destruct (existsb _ movies) eqn:E; simpl.
  - split; [|split].
    + intros Hn. exfalso. apply Hn, Hiff. reflexivity.
    + intros _. split; [reflexivity|].
      unfold Api.stored_timestamp. intros ->. reflexivity.
    + intros row d' H. inversion H; subst; simpl. auto.
  - split; [|split].
    + intros _. reflexivity.
    + intros Hin. apply Hiff in Hin. discriminate.
    + intros row d' H. discriminate.
Qed.

Lemma C9_witness :
  (~ In 42%Z (map row_movieId demo_movies) /\
   Api.add_rating (Api.mkRating 7 42 4 None) 1700000000 demo =
     (Err (HTTPException 404 "Film non trouvé"), demo)) /\
  (In 6%Z (map row_movieId demo_movies) /\
   Api.add_rating (Api.mkRating 7 6 4 None) 1700000000 demo =
     (Ok (mkRatingRow 7 6 4 1700000000),
      mkData (Some demo_movies)
        (Some (demo_ratings ++ [mkRatingRow 7 6 4 1700000000])))).
Proof.
  assert (Hout : ~ In 42%Z (map row_movieId demo_movies)).
  { simpl. intros H. repeat (destruct H as [H|H]; [discriminate|]). exact H. }
  assert (Hin : In 6%Z (map row_movieId demo_movies)).
  { simpl. auto. }
  assert (H42 : int64_rating (Api.mkRating 7 42 4 None) 1700000000)
    by (repeat split).
  assert (H6 : int64_rating (Api.mkRating 7 6 4 None) 1700000000)
    by (repeat split).
  split; split; [exact Hout | | exact Hin |].
  - exact (proj1 (C9_add_rating_unknown_movie_or_append
                    (Api.mkRating 7 42 4 None) 1700000000 demo
                    demo_movies demo_ratings eq_refl eq_refl
                    demo_int64_movies demo_int64_table H42) Hout).
  - exact (proj1 (proj1 (proj2 (C9_add_rating_unknown_movie_or_append
                    (Api.mkRating 7 6 4 None) 1700000000 demo
                    demo_movies demo_ratings eq_refl eq_refl
                    demo_int64_movies demo_int64_table H6)) Hin)).
Defined.

(** ** Validation of a submitted rating *)

(** C5, as stated, fails.  A rating submitted for user -1 passes the
    boundary and is stored with the negative user id. *)
Lemma C5_counterexample :
  (Api.userId (Api.mkRating (-1) 1 4 None) < 0)%Z /\
  Api.post_ratings (Api.mkRating (-1) 1 4 None) 1700000000 demo =
    (Ok (mkRatingRow (-1) 1 4 1700000000),
     mkData (Some demo_movies)
       (Some (demo_ratings ++ [mkRatingRow (-1) 1 4 1700000000]))).
Proof. split; [simpl; lia | reflexivity]. Qed.

(** C5, as amended.  A submitted rating whose value lies outside the
    closed interval from 0.5 to 5 is refused by the validation of the
    request body, before the handler runs and with both tables untouched.
    A rating whose value lies inside is refused with the 404 error, the
    tables untouched, when its movie id is not in the movie table, and is
    otherwise appended to the ratings table as the row of exactly the
    user id, movie id and rating submitted, the movie table untouched.  The
    sign of the two ids is not checked.  The second part is stated for ids
    and timestamps that fit int64, those of the tables and those of the
    rating, so that the columns keep their type when the row is
    appended. *)
Theorem C5_rating_out_of_range_rejected_never_coerced :
  forall (body : Api.Rating) (now : Z) (d : Data),
    (~ (0.5 <= Api.rating body <= 5) ->
       Api.post_ratings body now d =
         (Err (RequestValidationError "rating"), d)) /\
    (forall movies ratings,
       0.5 <= Api.rating body <= 5 ->
       movies_df d = Some movies ->
       ratings_df d = Some ratings ->
       int64_movies movies ->
       int64_ratings ratings ->
       int64_rating body now ->
       (~ In (Api.movieId body) (map row_movieId movies) ->
          Api.post_ratings body now d =
            (Err (HTTPException 404 "Film non trouvé"), d)) /\
       (In (Api.movieId body) (map row_movieId movies) ->
          let row := mkRatingRow (Api.userId body) (Api.movieId body)
                       (Api.rating body) (Api.stored_timestamp body now) in
          Api.post_ratings body now d =
            (Ok row, mkData (Some movies) (Some (ratings ++ [row]))))).
Proof.
  intros body now d. unfold Api.post_ratings, Api.Rating_valid.
  destruct (Qle_bool 0.5 (Api.rating body)) eqn:Elo;
    destruct (Qle_bool (Api.rating body) 5) eqn:Ehi; simpl.
  - apply Qle_bool_iff in Elo. apply Qle_bool_iff in Ehi.
    split; [intros Hn; exfalso; apply Hn; split; assumption|].
    intros movies ratings _ Hm Hr _ _ _.
    pose proof (movie_exists_iff movies (Api.movieId body)) as Hiff.
    unfold Api.add_rating. rewrite Hm, Hr.
    destruct (existsb _ movies) eqn:E; simpl.
    + split; [|reflexivity].
      intros Hn. exfalso. apply Hn, Hiff. reflexivity.
    + split; [reflexivity|].
      intros Hin. apply Hiff in Hin. discriminate.
  - split; [reflexivity|].
    intros movies ratings [_ H]. apply Qle_bool_iff in H. congruence.
  - split; [reflexivity|].
    intros movies ratings [H _]. apply Qle_bool_iff in H. congruence.
  - split; [reflexivity|].
    intros movies ratings [H _]. apply Qle_bool_iff in H. congruence.
Qed.

Lemma C5_witness :
  (~ (0.5 <= Api.rating (Api.mkRating 1 1 7 None) <= 5) /\
   Api.post_ratings (Api.mkRating 1 1 7 None) 1700000000 demo =
     (Err (RequestValidationError "rating"), demo)) /\
  (In 6%Z (map row_movieId demo_movies) /\
   Api.post_ratings (Api.mkRating 7 6 4 None) 1700000000 demo =
     (Ok (mkRatingRow 7 6 4 1700000000),
      mkData (Some demo_movies)
        (Some (demo_ratings ++ [mkRatingRow 7 6 4 1700000000])))) /\
  (~ In 42%Z (map row_movieId demo_movies) /\
   Api.post_ratings (Api.mkRating 7 42 4 None) 1700000000 demo =
     (Err (HTTPException 404 "Film non trouvé"), demo)).
Proof.
  assert (H : ~ (0.5 <= Api.rating (Api.mkRating 1 1 7 None) <= 5)).
  { simpl. intros [_ H]. unfold Qle in H; simpl in H. lia. }
  assert (Hin : In 6%Z (map row_movieId demo_movies)) by (simpl; auto).
  assert (Hout : ~ In 42%Z (map row_movieId demo_movies)).
  { simpl. intros F. repeat (destruct F as [F|F]; [discriminate|]). exact F. }
  assert (Hr : 0.5 <= 4 <= 5) by (split; unfold Qle; simpl; lia).
  assert (H6 : int64_rating (Api.mkRating 7 6 4 None) 1700000000)
    by (repeat split).
  assert (H42 : int64_rating (Api.mkRating 7 42 4 None) 1700000000)
    by (repeat split).
  split; [split; [exact H|]|split; split; [exact Hin | | exact Hout |]].
  - exact (proj1 (C5_rating_out_of_range_rejected_never_coerced
                    (Api.mkRating 1 1 7 None) 1700000000 demo) H).
  - exact (proj2 (proj2 (C5_rating_out_of_range_rejected_never_coerced
                           (Api.mkRating 7 6 4 None) 1700000000 demo)
                    demo_movies demo_ratings Hr eq_refl eq_refl
                    demo_int64_movies demo_int64_table H6) Hin).
  - exact (proj1 (proj2 (C5_rating_out_of_range_rejected_never_coerced
                           (Api.mkRating 7 42 4 None) 1700000000 demo)
                    demo_movies demo_ratings Hr eq_refl eq_refl
                    demo_int64_movies demo_int64_table H42) Hout).
Defined.

(** ** The content-based recommender *)

Section ContentBasedFacts.

Import ContentBased.

Lemma insert_ranked_perm (x : Z * Q) (l : list (Z * Q)) :
  Permutation (x :: l) (insert_ranked x l).
Proof.
  induction l as [|y l IH]; simpl.
  - apply Permutation_refl.
  - destruct (precedes x y).
    + apply Permutation_refl.
    + eapply perm_trans; [apply perm_swap|].
      apply perm_skip, IH.
Qed.

Lemma rank_perm (l : list (Z * Q)) : Permutation l (rank l).
Proof.
  induction l as [|x l IH]; simpl.
  - constructor.
  - eapply perm_trans; [apply perm_skip, IH | apply insert_ranked_perm].
Qed.

(** of two candidates, one precedes the other *)
Lemma precedes_total (a b : Z * Q) :
  precedes a b = false -> precedes b a = true.
Proof.
  unfold precedes. intros H.
  apply orb_false_iff in H. destruct H as [H1 H2].
  apply negb_false_iff in H1. apply Qle_bool_iff in H1.
  destruct (Qle_bool (snd b) (snd a)) eqn:E; [|reflexivity].
  apply Qle_bool_iff in E.
  assert (Heq : snd a == snd b) by (apply Qle_antisym; assumption).
  assert (Hab : Qeq_bool (snd a) (snd b) = true)
    by (apply Qeq_bool_iff; exact Heq).
  assert (Hba : Qeq_bool (snd b) (snd a) = true)
    by (apply Qeq_bool_iff; symmetry; exact Heq).
  rewrite Hab in H2. rewrite Hba. simpl in *.
  apply Z.leb_gt in H2. apply Z.leb_le. lia.
Qed.

Lemma insert_ranked_sorted (x : Z * Q) (l : list (Z * Q)) :
  Sorted (fun a b => precedes a b = true) l ->
  Sorted (fun a b => precedes a b = true) (insert_ranked x l).
Proof.
  induction l as [|y l IH]; simpl; intros Hs.
  - repeat constructor.
  - destruct (precedes x y) eqn:E.
    + constructor; [exact Hs | constructor; exact E].
    + inversion Hs as [|? ? Hs' Hhd]; subst.
      constructor; [apply IH; exact Hs'|].
      destruct l as [|z l]; simpl.
      * constructor. apply precedes_total, E.
      * destruct (precedes x z).
        -- constructor. apply precedes_total, E.
        -- constructor. inversion Hhd; assumption.
Qed.

Lemma rank_sorted (l : list (Z * Q)) :
  Sorted (fun a b => precedes a b = true) (rank l).
Proof.
  induction l as [|x l IH]; simpl.
  - constructor.
  - apply insert_ranked_sorted, IH.
Qed.

Lemma known_iff (st : Fitted) (movieId : Z) :
  existsb (Z.eqb movieId) (items st) = true <-> In movieId (items st).
Proof.
  rewrite existsb_exists. split.
  - intros (j & Hj & E). apply Z.eqb_eq in E. subst. exact Hj.
  - intros H. exists movieId. split; [exact H | apply Z.eqb_refl].
Qed.

Lemma others_spec (st : Fitted) (movieId j : Z) :
  In j (others st movieId) <-> In j (items st) /\ j <> movieId.
Proof.
  unfold others. rewrite filter_In, negb_true_iff, Z.eqb_neq. reflexivity.
Qed.

Lemma candidates_ids (st : Fitted) (movieId : Z) :
  Permutation (others st movieId)
    (map fst (rank (map (fun j => (j, similarity st movieId j))
                      (others st movieId)))).
Proof.
  eapply perm_trans; [|apply Permutation_map, rank_perm].
  rewrite map_map. simpl. rewrite map_id. apply Permutation_refl.
Qed.

End ContentBasedFacts.

(** Movies 1 and 3 are equally similar to movie 2 in [demo_fitted]: the
    smaller id comes first. *)
Example similar_to_jumanji :
  ranked_ids (ContentBased.recommendSimilar demo_fitted 2 2) = Some [1; 3]%Z /\
  ranked_ids (ContentBased.recommendSimilar demo_fitted 2 5) = Some [1; 3; 6]%Z.
Proof. split; reflexivity. Qed.

(** C8.  For a movie present at fit time, [recommendSimilar] returns a
    ranking that never contains the movie itself, consists of fitted
    items, is ordered as the specification says, and has min(n, number of
    other items) entries: at most n, and all the other items when there
    are no more than n of them.  For a movie that was not present at fit
    time it fails with [UnknownItemError]. *)
Theorem C8_recommendSimilar_excludes_item_and_truncates :
  forall (st : ContentBased.Fitted) (m : Z) (n : nat),
    (In m (ContentBased.items st) ->
       exists ranking,
         ContentBased.recommendSimilar st m n = ContentBased.Similar ranking /\
         similar_ranking st m n ranking) /\
    (~ In m (ContentBased.items st) ->
       ContentBased.recommendSimilar st m n = ContentBased.UnknownItemError m).
Proof.
  intros st m n.
  pose proof (known_iff st m) as Hk.
  pose proof (candidates_ids st m) as Hp.
  pose proof (rank_sorted (map (fun j => (j, ContentBased.similarity st m j))
                             (ContentBased.others st m))) as Hs.
  unfold ContentBased.recommendSimilar.
  set (ranked := ContentBased.rank _) in *.
  split.
  - intros Hin. apply Hk in Hin. rewrite Hin.
    exists (firstn n ranked).
    assert (Hsub : forall j, In j (map fst (firstn n ranked)) ->
                             In j (ContentBased.others st m)).
    { intros j Hj. apply (Permutation_in _ (Permutation_sym Hp)).
      rewrite <- firstn_map in Hj. exact (firstn_incl n _ j Hj). }
    assert (Hlen : List.length ranked = List.length (ContentBased.others st m)).
    { rewrite (Permutation_length Hp), length_map. reflexivity. }
    split; [reflexivity|].
    unfold similar_ranking.
    split; [intros Hm; apply Hsub, others_spec in Hm; tauto|].
    split; [intros j Hj; apply Hsub, others_spec in Hj; tauto|].
    split; [rewrite length_firstn, Hlen; reflexivity|].
    split; [rewrite length_firstn; lia|].
    split.
    + intros Hfew. rewrite firstn_all2 by lia. exact Hp.
    + apply firstn_Sorted. exact Hs.
  - intros Hout.
    destruct (existsb (Z.eqb m) (ContentBased.items st)) eqn:E; [|reflexivity].
    exfalso. apply Hout, Hk. reflexivity.
Qed.

Lemma C8_witness :
  (In 1%Z (ContentBased.items demo_fitted) /\
   exists ranking,
     ContentBased.recommendSimilar demo_fitted 1 2 =
       ContentBased.Similar ranking /\
     similar_ranking demo_fitted 1 2 ranking) /\
  (~ In 9%Z (ContentBased.items demo_fitted) /\
   ContentBased.recommendSimilar demo_fitted 9 2 =
     ContentBased.UnknownItemError 9).
Proof.
  assert (Hin : In 1%Z (ContentBased.items demo_fitted)) by (simpl; auto).
  assert (Hout : ~ In 9%Z (ContentBased.items demo_fitted)).
  { simpl. intros H. repeat (destruct H as [H|H]; [discriminate|]). exact H. }
  split; split; [exact Hin | | exact Hout |].
  - exact (proj1 (C8_recommendSimilar_excludes_item_and_truncates
                    demo_fitted 1 2) Hin).
  - exact (proj2 (C8_recommendSimilar_excludes_item_and_truncates
                    demo_fitted 9 2) Hout).
Defined.

(** ** Searching the catalogue *)

(** [contains_ci] is containment as a substring, letter case ignored *)
Lemma starts_with_ci_iff (q t : string) :
  starts_with_ci q t = true <-> exists post, folded t = folded q ++ post.
Proof.
  revert t. induction q as [|a q IH]; intros t; simpl.
  - split; [intros _; exists (folded t); reflexivity | reflexivity].
  - destruct t as [|b t]; simpl.
    + split; [discriminate | intros [post H]; discriminate].
    + rewrite andb_true_iff, Ascii.eqb_eq, IH. unfold folded; simpl.
      split.
      * intros [-> [post ->]]. exists post. reflexivity.
      * intros [post H]. injection H as H1 H2.
        split; [auto | exists post; exact H2].
Qed.

Lemma contains_ci_iff (q t : string) :
  contains_ci q t = true <->
  exists pre post, folded t = pre ++ folded q ++ post.
Proof.
  induction t as [|b t IH]; simpl.
  - rewrite orb_false_r, starts_with_ci_iff. split.
    + intros [post H]. exists [], post. exact H.
    + intros (pre & post & H).
      destruct pre as [|x pre]; [exists post; exact H | discriminate].
  - rewrite orb_true_iff, starts_with_ci_iff, IH. split.
    + intros [[post H] | (pre & post & H)].
      * exists [], post. exact H.
      * exists (lower b :: pre), post. unfold folded in *; simpl. rewrite H.
        reflexivity.
    + intros (pre & post & H).
      destruct pre as [|x pre].
      * left. exists post. exact H.
      * right. exists pre, post. unfold folded in *; simpl in H.
        injection H as _ H. exact H.
Qed.

(** a query without special characters compiles to its own characters *)
Lemma re_compile_literal (q : string) :
  literal q = true ->
  re_compile q = Some (map Lit (list_ascii_of_string q)).
Proof.
  unfold literal. induction q as [|c q IH]; simpl; intros H.
  - reflexivity.
  - apply andb_true_iff in H. destruct H as [Hc Hq].
    apply negb_true_iff in Hc.
    destruct (Ascii.eqb c ".") eqn:E.
    + apply Ascii.eqb_eq in E. subst c. discriminate Hc.
    + rewrite Hc, (IH Hq). reflexivity.
Qed.

Lemma match_here_literal (q t : string) :
  match_here (map Lit (list_ascii_of_string q)) t = starts_with_ci q t.
Proof.
  revert t. induction q as [|a q IH]; intros t; simpl.
  - reflexivity.
  - destruct t as [|b t]; simpl; [reflexivity|].
    rewrite IH. reflexivity.
Qed.

Lemma re_search_literal (q t : string) :
  re_search (map Lit (list_ascii_of_string q)) t = contains_ci q t.
Proof.
  induction t as [|b t IH]; simpl.
  - rewrite match_here_literal. reflexivity.
  - rewrite match_here_literal, IH. reflexivity.
Qed.

Lemma str_contains_literal (movies : list MovieRow) (q : string) :
  holds_strings (map row_title movies) = true ->
  literal q = true ->
  exists mask,
    str_contains (map row_title movies) q = Ok mask /\
    boolean_index movies mask = filter (title_matches q) movies.
Proof.
  intros Hs Hq. unfold str_contains. rewrite Hs, (re_compile_literal q Hq).
  eexists. split; [reflexivity|].
  rewrite map_map.
  rewrite boolean_index_map.
  apply filter_ext. intros m. unfold title_matches.
  destruct (row_title m) as [t|]; [apply re_search_literal | reflexivity].
Qed.

Lemma to_movies_ok (d : Data) (rows : list MovieRow) :
  titles_present rows ->
  exists ms,
    Api.to_movies d rows = Ok ms /\
    map Api.m_movieId ms = map row_movieId rows /\
    map (fun m => Some (Api.m_title m)) ms = map row_title rows.
Proof.
  induction 1 as [|movie rows Ht _ IH]; simpl.
  - exists []. auto.
  - destruct IH as (ms & -> & Hids & Hts).
    unfold Api.Movie_new.
    destruct (row_title movie) as [t|]; [|congruence].
    eexists. split; [reflexivity|]. simpl. rewrite Hids, Hts. auto.
Qed.

(** On a query without special characters both search functions return
    the movies whose title contains the query, letter case ignored, in
    catalogue order; the API keeps the first [limit] of them. *)
Lemma search_movies_literal (d : Data) (movies : list MovieRow)
    (query : string) (limit : Z) :
  movies_df d = Some movies ->
  holds_strings (map row_title movies) = true ->
  literal query = true ->
  query <> EmptyString ->
  (1 <= limit <= 50)%Z ->
  App.search_movies d query = Ok (filter (title_matches query) movies) /\
  exists ms,
    Api.search_movies d query limit = Ok ms /\
    map Api.m_movieId ms =
      map row_movieId (substring_search movies query (Z.to_nat limit)) /\
    map (fun m => Some (Api.m_title m)) ms =
      map row_title (substring_search movies query (Z.to_nat limit)).
Proof.
  intros Hm Hs Hq Hne Hl.
  destruct (str_contains_literal movies query Hs Hq) as (mask & Hmask & Hidx).
  assert (Hlen : (String.length query <> 0)%nat)
    by (destruct query; [congruence | simpl; lia]).
  split.
  - unfold App.search_movies. rewrite Hm.
    destruct (Nat.eqb_spec (String.length query) 0); [lia|].
    rewrite Hmask, Hidx. reflexivity.
  - unfold Api.search_movies.
    destruct (Nat.ltb_spec (String.length query) 1); [lia|].
    destruct (Z.ltb_spec limit 1); [lia|].
    destruct (Z.ltb_spec 50 limit); [lia|].
    simpl. rewrite Hm, Hmask, Hidx.
    apply to_movies_ok.
    apply Forall_forall. intros m Hin.
    apply firstn_incl in Hin. apply filter_In in Hin.
    destruct Hin as [_ Ht]. unfold title_matches in Ht.
    destruct (row_title m); [discriminate | discriminate Ht].
Qed.

Example search_heat :
  App.search_movies demo "heat" =
    Ok [mkMovieRow 6 (Some "Heat (1995)"%string) "Action|Crime|Thriller"].
Proof. reflexivity. Qed.

(** C10.  The query "." is read as a pattern: both search functions return
    every movie of [demo], although no title of [demo] contains a dot, so
    that the search by substring returns nothing. *)
Theorem C10_query_is_read_as_a_pattern :
  App.search_movies demo "." = Ok demo_movies /\
  (exists ms, Api.search_movies demo "." 10 = Ok ms /\
              map Api.m_movieId ms = [1; 2; 3; 6]%Z) /\
  substring_search demo_movies "." 10 = [].
Proof.
  split; [reflexivity|].
  split; [eexists; split; [vm_compute; reflexivity | reflexivity]|].
  reflexivity.
Qed.

(** * Part III: the other endpoints and methods *)

(** ** Slices and pages *)

Lemma iloc_slice_from (A : Type) (rows : list A) (start stop : Z) :
  (0 <= start <= stop)%Z ->
  iloc_slice rows start stop =
    firstn (Z.to_nat (stop - start)) (skipn (Z.to_nat start) rows).
Proof.
  intros H. unfold iloc_slice, slice_bound.
  destruct (Z.ltb_spec start 0); [lia|].
  destruct (Z.ltb_spec stop 0); [lia|].
  set (len := Z.of_nat (List.length rows)).
  destruct (Z.le_gt_cases len start) as [Hbig|Hsmall].
  - rewrite !skipn_all2 by lia.
    rewrite !firstn_nil. reflexivity.
  - replace (Z.min start len) with start by lia.
    destruct (Z.le_gt_cases stop len) as [Hin|Hout].
    + replace (Z.min stop len) with stop by lia. reflexivity.
    + replace (Z.min stop len) with len by lia.
      rewrite !firstn_all2; [reflexivity | |]; rewrite length_skipn; lia.
Qed.

Lemma page_movies_ok (rows : list MovieRow) :
  titles_present rows ->
  exists ms, Api.page_movies rows = Ok ms /\ Forall2 shown_plain rows ms.
Proof.
  induction 1 as [|movie rows Ht _ IH]; simpl.
  - exists []. split; [reflexivity | constructor].
  - destruct IH as (ms & -> & Hall).
    unfold Api.Movie_new.
    destruct (row_title movie) as [t|] eqn:E; [|congruence].
    eexists. split; [reflexivity|].
    constructor; [|exact Hall].
    unfold shown_plain; simpl. auto.
Qed.

Lemma page_movies_inv (rows : list MovieRow) (ms : list Api.Movie) :
  Api.page_movies rows = Ok ms -> titles_present rows.
Proof.
  revert ms. induction rows as [|movie rows IH]; simpl; intros ms H.
  - constructor.
  - unfold Api.Movie_new in H.
    destruct (row_title movie) as [t|] eqn:E; [|discriminate].
    destruct (Api.page_movies rows) as [ms'|]; [|discriminate].
    constructor; [congruence | exact (IH ms' eq_refl)].
Qed.

Lemma page_movies_missing_title (rows : list MovieRow) :
  ~ titles_present rows ->
  Api.page_movies rows = Err (ValidationError "title").
Proof.
  induction rows as [|movie rows IH]; simpl; intros Hn.
  - exfalso. apply Hn. constructor.
  - unfold Api.Movie_new.
    destruct (row_title movie) as [t|] eqn:E; [|reflexivity].
    rewrite IH; [reflexivity|].
    intros Ht. apply Hn. constructor; [congruence | exact Ht].
Qed.

Lemma page_movies_app (r1 r2 : list MovieRow) (m1 m2 : list Api.Movie) :
  Api.page_movies r1 = Ok m1 ->
  Api.page_movies r2 = Ok m2 ->
  Api.page_movies (r1 ++ r2) = Ok (m1 ++ m2).
Proof.
  revert m1. induction r1 as [|movie r1 IH]; simpl; intros m1 H1 H2.
  - inversion H1; subst. exact H2.
  - destruct (Api.Movie_new _ _ _ _) as [m|]; [|discriminate].
    destruct (Api.page_movies r1) as [ms|]; [|discriminate].
    inversion H1; subst.
    rewrite (IH ms eq_refl H2). reflexivity.
Qed.

Lemma get_movies_page (d : Data) (movies : list MovieRow) (limit offset : Z) :
  movies_df d = Some movies ->
  (1 <= limit <= 100)%Z ->
  (0 <= offset)%Z ->
  Api.get_movies d limit offset =
    Api.page_movies
      (firstn (Z.to_nat limit) (skipn (Z.to_nat offset) movies)).
Proof.
  intros Hm Hl Ho. unfold Api.get_movies.
  destruct (Z.ltb_spec limit 1); [lia|].
  destruct (Z.ltb_spec 100 limit); [lia|].
  destruct (Z.ltb_spec offset 0); [lia|].
  simpl. rewrite Hm.
  rewrite iloc_slice_from by lia.
  replace (offset + limit - offset)%Z with limit by lia. reflexivity.
Qed.

Lemma firstn_plus (A : Type) (a b : nat) (l : list A) :
  firstn (a + b) l = firstn a l ++ firstn b (skipn a l).
Proof.
  revert l. induction a as [|a IH]; intros l; simpl.
  - reflexivity.
  - destruct l as [|x l]; simpl.
    + rewrite firstn_nil. reflexivity.
    + rewrite IH. reflexivity.
Qed.

Lemma titles_present_part (movies : list MovieRow) (a b : nat) :
  titles_present movies -> titles_present (firstn a (skipn b movies)).
Proof.
  unfold titles_present. rewrite !Forall_forall. intros H m Hin.
  apply H. apply firstn_incl in Hin.
  rewrite <- (firstn_skipn b movies). apply in_or_app. right. exact Hin.
Qed.

(** X1.  With parameters in their ranges, [get_movies] answers with the
    catalogue rows from position [offset] on, in catalogue order and
    without ratings: min(limit, rows left) of them, none when [offset] is
    at or past the end.  The answer is the pydantic error instead when one
    of these rows has no title. *)
Theorem X1_get_movies_returns_the_requested_rows :
  forall (d : Data) (movies : list MovieRow) (limit offset : Z),
    movies_df d = Some movies ->
    (1 <= limit <= 100)%Z ->
    (0 <= offset)%Z ->
    let rows := firstn (Z.to_nat limit) (skipn (Z.to_nat offset) movies) in
    (titles_present rows ->
       exists ms,
         Api.get_movies d limit offset = Ok ms /\
         Forall2 shown_plain rows ms /\
         Z.of_nat (List.length ms) =
           Z.min limit (Z.max 0 (Z.of_nat (List.length movies) - offset))) /\
    (~ titles_present rows ->
       Api.get_movies d limit offset = Err (ValidationError "title")).
Proof.
  intros d movies limit offset Hm Hl Ho rows.
  rewrite (get_movies_page d movies limit offset Hm Hl Ho). fold rows.
  split.
  - intros Ht. destruct (page_movies_ok rows Ht) as (ms & Hms & Hall).
    exists ms. split; [exact Hms|]. split; [exact Hall|].
    rewrite <- (Forall2_length Hall). unfold rows.
    rewrite length_firstn, length_skipn. lia.
  - apply page_movies_missing_title.
Qed.

Lemma X1_witness :
  titles_present (firstn (Z.to_nat 2) (skipn (Z.to_nat 3) demo_movies)) /\
  exists ms,
    Api.get_movies demo 2 3 = Ok ms /\
    Forall2 shown_plain (firstn (Z.to_nat 2) (skipn (Z.to_nat 3) demo_movies))
      ms /\
    Z.of_nat (List.length ms) =
      Z.min 2 (Z.max 0 (Z.of_nat (List.length demo_movies) - 3)).
Proof.
  assert (Ht : titles_present
                 (firstn (Z.to_nat 2) (skipn (Z.to_nat 3) demo_movies))).
  { repeat constructor; discriminate. }
  split; [exact Ht|].
  apply (proj1 (X1_get_movies_returns_the_requested_rows demo demo_movies 2 3
                  eq_refl ltac:(lia) ltac:(lia)) Ht).
Defined.

Lemma pages_succ (d : Data) (limit : Z) (k : nat) :
  pages d limit (S k) = pages d limit k ++ page d limit (Z.of_nat k * limit).
Proof.
  unfold pages. rewrite seq_S, map_app, concat_app. simpl.
  rewrite app_nil_r. reflexivity.
Qed.

(** X2.  Paging through a catalogue whose titles are present misses
    nothing and repeats nothing: the first [k] pages of [limit] movies,
    put end to end, show the first [k * limit] rows of the catalogue in
    order, and the whole catalogue once [k * limit] reaches its length. *)
Theorem X2_pages_tile_the_catalogue :
  forall (d : Data) (movies : list MovieRow) (limit : Z) (k : nat),
    movies_df d = Some movies ->
    titles_present movies ->
    (1 <= limit <= 100)%Z ->
    Forall2 shown_plain (firstn (k * Z.to_nat limit) movies) (pages d limit k) /\
    ((List.length movies <= k * Z.to_nat limit)%nat ->
       Forall2 shown_plain movies (pages d limit k)).
Proof.
  intros d movies limit k Hm Ht Hl.
  assert (H : Forall2 shown_plain (firstn (k * Z.to_nat limit) movies)
                (pages d limit k)).
  { induction k as [|k IH].
    - simpl. constructor.
    - rewrite pages_succ.
      replace (S k * Z.to_nat limit)%nat
        with (k * Z.to_nat limit + Z.to_nat limit)%nat by lia.
      rewrite firstn_plus. apply Forall2_app; [exact IH|].
      unfold page.
      rewrite (get_movies_page d movies limit (Z.of_nat k * limit) Hm Hl)
        by lia.
      replace (Z.to_nat (Z.of_nat k * limit)) with (k * Z.to_nat limit)%nat
        by lia.
      destruct (page_movies_ok _
                  (titles_present_part movies (Z.to_nat limit)
                     (k * Z.to_nat limit) Ht)) as (ms & -> & Hall).
      exact Hall. }
  split; [exact H|].
  intros Hlen. rewrite firstn_all2 in H by exact Hlen. exact H.
Qed.

Lemma X2_witness :
  Forall2 shown_plain (firstn (2 * Z.to_nat 3) demo_movies) (pages demo 3 2) /\
  Forall2 shown_plain demo_movies (pages demo 3 2).
Proof.
  destruct (X2_pages_tile_the_catalogue demo demo_movies 3 2 eq_refl
              demo_titles_present ltac:(lia)) as [H1 H2].
  split; [exact H1|]. apply H2. simpl. lia.
Defined.

(** ** One movie and its average rating *)

Lemma filter_head_split (A : Type) (f : A -> bool) (l : list A) (x : A)
    (rest : list A) :
  filter f l = x :: rest ->
  exists pre post,
    l = pre ++ x :: post /\ f x = true /\ Forall (fun y => f y = false) pre.
Proof.
  induction l as [|y l IH]; simpl; intros H.
  - discriminate.
  - destruct (f y) eqn:E.
    + inversion H; subst. exists [], l. repeat split; [exact E | constructor].
    + destruct (IH H) as (pre & post & -> & Hx & Hpre).
      exists (y :: pre), post. repeat split; [exact Hx|].
      constructor; assumption.
Qed.

Lemma filter_nil_iff (A : Type) (f : A -> bool) (l : list A) :
  filter f l = [] <-> Forall (fun y => f y = false) l.
Proof.
  induction l as [|y l IH]; simpl.
  - split; [constructor | reflexivity].
  - destruct (f y) eqn:E.
    + split; [discriminate | intros H; inversion H; congruence].
    + rewrite IH. split; [constructor; assumption|].
      intros H; inversion H; assumption.
Qed.

Lemma avg_rating_spec (d : Data) (id : Z) :
  Api.avg_rating d id =
    if is_empty (ratings_of d id) then None else Some (mean (ratings_of d id)).
Proof.
  unfold Api.avg_rating, ratings_of.
  destruct (ratings_df d) as [ratings|]; [|reflexivity].
  destruct (filter _ ratings); reflexivity.
Qed.

(** X3.  [get_movie] answers 404 exactly for the ids that are not in the
    catalogue; for an id that occurs, also several times, it shows the
    first row with that id together with the average of the ratings the
    id has received, and no average when it has received none. *)
Theorem X3_get_movie_finds_the_first_row :
  forall (d : Data) (movies : list MovieRow) (movie_id : Z),
    movies_df d = Some movies ->
    (~ In movie_id (map row_movieId movies) ->
       Api.get_movie d movie_id = Err (HTTPException 404 "Film non trouvé")) /\
    (In movie_id (map row_movieId movies) ->
       exists movie,
         first_with_id movies movie_id movie /\
         Api.get_movie d movie_id =
           Api.Movie_new movie_id (row_title movie) (row_genres movie)
             (if is_empty (ratings_of d movie_id) then None
              else Some (mean (ratings_of d movie_id)))).
Proof.
  intros d movies movie_id Hm.
  unfold Api.get_movie. rewrite Hm, avg_rating_spec.
  destruct (filter (fun m => (row_movieId m =? movie_id)%Z) movies)
    as [|movie rest] eqn:Ef.
  - split; [reflexivity|].
    intros Hin. exfalso.
    apply filter_nil_iff in Ef. rewrite Forall_forall in Ef.
    apply in_map_iff in Hin. destruct Hin as (m & Hid & Hin).
    specialize (Ef m Hin). apply Z.eqb_neq in Ef. congruence.
  - apply filter_head_split in Ef.
    destruct Ef as (pre & post & -> & Hid & Hpre).
    apply Z.eqb_eq in Hid.
    split.
    + intros Hn. exfalso. apply Hn. rewrite map_app. apply in_or_app.
      right. simpl. auto.
    + intros _. exists movie. split.
      * exists pre, post. repeat split; [exact Hid|].
        intros Hin. apply in_map_iff in Hin. destruct Hin as (m & Hm' & Hin).
        rewrite Forall_forall in Hpre. specialize (Hpre m Hin).
        apply Z.eqb_neq in Hpre. congruence.
      * rewrite Hid. reflexivity.
Qed.

Lemma X3_witness :
  (~ In 42%Z (map row_movieId demo_movies) /\
   Api.get_movie demo 42 = Err (HTTPException 404 "Film non trouvé")) /\
  (In 2%Z (map row_movieId demo_movies) /\
   exists movie,
     first_with_id demo_movies 2 movie /\
     Api.get_movie demo 2 =
       Api.Movie_new 2 (row_title movie) (row_genres movie)
         (if is_empty (ratings_of demo 2) then None
          else Some (mean (ratings_of demo 2)))).
Proof.
  assert (Hout : ~ In 42%Z (map row_movieId demo_movies)).
  { simpl. intros H. repeat (destruct H as [H|H]; [discriminate|]). exact H. }
  assert (Hin : In 2%Z (map row_movieId demo_movies)) by (simpl; auto).
  split; split; [exact Hout | | exact Hin |].
  - exact (proj1 (X3_get_movie_finds_the_first_row demo demo_movies 42
                    eq_refl) Hout).
  - exact (proj2 (X3_get_movie_finds_the_first_row demo demo_movies 2
                    eq_refl) Hin).
Defined.

(** ** Rating a movie, then looking it up *)

Lemma add_rating_ok_inv (body : Api.Rating) (now : Z) (d d' : Data)
    (row : RatingRow) :
  Api.add_rating body now d = (Ok row, d') ->
  exists ratings,
    ratings_df d = Some ratings /\
    row = mkRatingRow (Api.userId body) (Api.movieId body) (Api.rating body)
            (Api.stored_timestamp body now) /\
    d' = mkData (movies_df d) (Some (ratings ++ [row])).
Proof.
  unfold Api.add_rating. intros H.
  destruct (ratings_df d) as [ratings|]; [|discriminate].
  destruct (negb _); [discriminate|].
  inversion H; subst. exists ratings. auto.
Qed.

Lemma ratings_of_after_add (body : Api.Rating) (now : Z) (d d' : Data)
    (row : RatingRow) (id : Z) :
  Api.add_rating body now d = (Ok row, d') ->
  ratings_of d' id =
    if (Api.movieId body =? id)%Z
    then ratings_of d id ++ [Api.rating body]
    else ratings_of d id.
Proof.
  intros H. apply add_rating_ok_inv in H.
  destruct H as (ratings & Hr & -> & ->).
  unfold ratings_of. simpl. rewrite Hr.
  rewrite filter_app, map_app. simpl.
  destruct (Api.movieId body =? id)%Z; simpl.
  - reflexivity.
  - rewrite app_nil_r. reflexivity.
Qed.

Lemma mean_singleton (x : Q) : mean [x] == x.
Proof. unfold mean. simpl. field. Qed.

Lemma get_movie_rating (d : Data) (id : Z) (m : Api.Movie) :
  Api.get_movie d id = Ok m ->
  Api.m_rating m =
    if is_empty (ratings_of d id) then None else Some (mean (ratings_of d id)).
Proof.
  unfold Api.get_movie. rewrite avg_rating_spec.
  destruct (movies_df d) as [movies|]; [|discriminate].
  destruct (filter _ movies) as [|movie rest]; [discriminate|].
  unfold Api.Movie_new.
  destruct (row_title movie); [|discriminate].
  intros H. inversion H; subst. reflexivity.
Qed.

(** X4.  Once [add_rating] has accepted a rating, [get_movie] shows for
    the rated movie the average of its earlier ratings and the new one;
    for a movie that had no rating, the rating just given. *)
Theorem X4_rating_shows_in_the_movie_average :
  forall (body : Api.Rating) (now : Z) (d d' : Data) (row : RatingRow)
         (m : Api.Movie),
    Api.add_rating body now d = (Ok row, d') ->
    Api.get_movie d' (Api.movieId body) = Ok m ->
    exists avg,
      Api.m_rating m = Some avg /\
      avg = mean (ratings_of d (Api.movieId body) ++ [Api.rating body]) /\
      (ratings_of d (Api.movieId body) = [] -> avg == Api.rating body).
Proof.
  intros body now d d' row m Hadd Hget.
  apply get_movie_rating in Hget.
  rewrite (ratings_of_after_add body now d d' row _ Hadd) in Hget.
  rewrite Z.eqb_refl in Hget.
  destruct (ratings_of d (Api.movieId body)) as [|x xs] eqn:E.
  - simpl in Hget. eexists. split; [exact Hget|].
    split; [reflexivity|]. intros _. apply mean_singleton.
  - simpl in Hget. eexists. split; [exact Hget|].
    split; [reflexivity | discriminate].
Qed.

Lemma X4_witness :
  exists row d' m avg,
    Api.add_rating (Api.mkRating 7 6 4.5 None) 1700000000 demo = (Ok row, d') /\
    Api.get_movie d' 6 = Ok m /\
    Api.m_rating m = Some avg /\ avg == 4.5.
Proof.
  eexists; eexists; eexists.
  assert (Hadd : Api.add_rating (Api.mkRating 7 6 4.5 None) 1700000000 demo
                 = (Ok (mkRatingRow 7 6 4.5 1700000000),
                    mkData (Some demo_movies)
                      (Some (demo_ratings ++ [mkRatingRow 7 6 4.5 1700000000]))))
    by reflexivity.
  assert (Hget : Api.get_movie
                   (mkData (Some demo_movies)
                      (Some (demo_ratings ++ [mkRatingRow 7 6 4.5 1700000000])))
                   6
                 = Ok (Api.mkMovie 6 "Heat (1995)" "Action|Crime|Thriller" None
                         (Some (mean [4.5]))))
    by reflexivity.
  destruct (X4_rating_shows_in_the_movie_average _ _ _ _ _ _ Hadd Hget)
    as (avg & Havg & _ & Hfirst).
  exists avg. split; [exact Hadd|]. split; [exact Hget|].
  split; [exact Havg|]. apply Hfirst. reflexivity.
Defined.

(** X5.  A rating that [add_rating] accepts changes nothing else that the
    catalogue endpoints show: [get_movie] answers as before for every
    other movie, [get_movies] answers as before for every page, and
    [search_movies] finds the same movies. *)
Theorem X5_rating_leaves_the_rest_unchanged :
  forall (body : Api.Rating) (now : Z) (d d' : Data) (row : RatingRow),
    Api.add_rating body now d = (Ok row, d') ->
    (forall id, id <> Api.movieId body ->
                Api.get_movie d' id = Api.get_movie d id) /\
    (forall limit offset,
        Api.get_movies d' limit offset = Api.get_movies d limit offset) /\
    (forall query, App.search_movies d' query = App.search_movies d query).
Proof.
  intros body now d d' row Hadd.
  pose proof (fun id => ratings_of_after_add body now d d' row id Hadd) as Hr.
  apply add_rating_ok_inv in Hadd.
  destruct Hadd as (ratings & Hrs & _ & Hd').
  assert (Hm : movies_df d' = movies_df d) by (subst d'; reflexivity).
  split; [|split].
  - intros id Hid. unfold Api.get_movie. rewrite Hm, !avg_rating_spec, Hr.
    destruct (Z.eqb_spec (Api.movieId body) id); [congruence | reflexivity].
  - intros limit offset. unfold Api.get_movies. rewrite Hm. reflexivity.
  - intros query. unfold App.search_movies. rewrite Hm. reflexivity.
Qed.

Lemma X5_witness :
  exists row d',
    Api.add_rating (Api.mkRating 7 6 4.5 None) 1700000000 demo = (Ok row, d') /\
    Api.get_movie d' 1 = Api.get_movie demo 1 /\
    Api.get_movies d' 10 0 = Api.get_movies demo 10 0.
Proof.
  eexists; eexists.
  assert (Hadd : Api.add_rating (Api.mkRating 7 6 4.5 None) 1700000000 demo
                 = (Ok (mkRatingRow 7 6 4.5 1700000000),
                    mkData (Some demo_movies)
                      (Some (demo_ratings ++ [mkRatingRow 7 6 4.5 1700000000]))))
    by reflexivity.
  split; [exact Hadd|].
  destruct (X5_rating_leaves_the_rest_unchanged _ _ _ _ _ Hadd)
    as (Hone & Hpage & _).
  split; [apply Hone; discriminate | apply Hpage].
Defined.

(** ** Averages stay within the range of the ratings *)

Lemma sum_bounds (lo hi : Q) (xs : list Q) :
  Forall (fun x => lo <= x <= hi) xs ->
  lo * inject_Z (Z.of_nat (List.length xs)) <= fold_right Qplus 0 xs /\
  fold_right Qplus 0 xs <= hi * inject_Z (Z.of_nat (List.length xs)).
Proof.
  induction 1 as [|x xs [Hlo Hhi] _ [IHlo IHhi]].
  - simpl. change (inject_Z 0) with 0. split; lra.
  - cbn [List.length fold_right].
    rewrite Nat2Z.inj_succ. unfold Z.succ. rewrite inject_Z_plus.
    change (inject_Z 1) with 1. split; lra.
Qed.

Lemma mean_bounds (lo hi : Q) (xs : list Q) :
  xs <> [] ->
  Forall (fun x => lo <= x <= hi) xs ->
  lo <= mean xs <= hi.
Proof.
  intros Hne Hall. destruct (sum_bounds lo hi xs Hall) as [Hlo Hhi].
  assert (Hpos : 0 < inject_Z (Z.of_nat (List.length xs))).
  { destruct xs as [|x xs]; [congruence|].
    change 0 with (inject_Z 0). rewrite <- Zlt_Qlt. simpl. lia. }
  unfold mean. split.
  - apply Qle_shift_div_l; assumption.
  - apply Qle_shift_div_r; assumption.
Qed.

Lemma post_ratings_keeps_range (body : Api.Rating) (now : Z) (d : Data) :
  ratings_in_range d ->
  ratings_in_range (snd (Api.post_ratings body now d)).
Proof.
  intros Hd. unfold Api.post_ratings, Api.Rating_valid.
  destruct (Qle_bool 0.5 (Api.rating body)) eqn:Elo; [|exact Hd].
  destruct (Qle_bool (Api.rating body) 5) eqn:Ehi; [|exact Hd].
  simpl. unfold Api.add_rating.
  unfold ratings_in_range in Hd.
  destruct (ratings_df d) as [ratings|] eqn:Er; [|simpl; unfold ratings_in_range; rewrite Er; exact I].
  destruct (negb _); simpl.
  - unfold ratings_in_range. rewrite Er. exact Hd.
  - unfold ratings_in_range; simpl.
    apply Forall_app. split; [exact Hd|].
    constructor; [|constructor]. simpl.
    apply Qle_bool_iff in Elo. apply Qle_bool_iff in Ehi. auto.
Qed.

Lemma post_all_keeps_range (requests : list (Api.Rating * Z)) :
  forall d, ratings_in_range d -> ratings_in_range (post_all requests d).
Proof.
  induction requests as [|[body now] rest IH]; intros d Hd; simpl.
  - exact Hd.
  - apply IH, post_ratings_keeps_range, Hd.
Qed.

Lemma ratings_of_in_range (d : Data) (id : Z) :
  ratings_in_range d -> Forall (fun x => 0.5 <= x <= 5) (ratings_of d id).
Proof.
  unfold ratings_in_range, ratings_of.
  destruct (ratings_df d) as [ratings|]; [|constructor].
  intros H. rewrite Forall_forall in *. intros x Hx.
  apply in_map_iff in Hx. destruct Hx as (r & <- & Hr).
  apply filter_In in Hr. apply H, Hr.
Qed.

Lemma get_user_profile_inv (datetime : Type)
    (fromtimestamp : Z -> Result datetime) (d : Data) (user_id : Z)
    (p : Api.UserProfile datetime) :
  Api.get_user_profile datetime fromtimestamp d user_id = Ok p ->
  exists ratings last,
    ratings_df d = Some ratings /\
    filter (fun r => (r_userId r =? user_id)%Z) ratings <> [] /\
    series_max (map r_timestamp
                  (filter (fun r => (r_userId r =? user_id)%Z) ratings))
      = Some last /\
    fromtimestamp last = Ok (Api.lastActivity p) /\
    Api.p_userId p = user_id /\
    Api.totalRatings p =
      List.length (filter (fun r => (r_userId r =? user_id)%Z) ratings) /\
    Api.averageRating p =
      mean (map r_rating
              (filter (fun r => (r_userId r =? user_id)%Z) ratings)) /\
    Api.favoriteGenres p = ["Action"; "Comedy"; "Drama"]%string.
Proof.
  unfold Api.get_user_profile. intros H.
  destruct (ratings_df d) as [ratings|]; [|discriminate].
  destruct (filter _ ratings) as [|r rs] eqn:Ef; [discriminate|].
  cbn [is_empty] in H.
  destruct (series_max _) as [last|] eqn:Emax; [|discriminate].
  destruct (fromtimestamp last) as [t|] eqn:Et; [|discriminate].
  inversion H; subst. exists ratings, last. rewrite Ef. simpl.
  repeat split; try assumption; try reflexivity. discriminate.
Qed.

(** X6.  Ratings that enter through POST /ratings keep every stored rating
    between 0.5 and 5: if the tables start that way, then after any
    sequence of requests, accepted or refused, they still are, and every
    average that [get_movie] or [get_user_profile] reports lies between
    0.5 and 5. *)
Theorem X6_averages_stay_in_the_rating_range :
  forall (requests : list (Api.Rating * Z)) (d : Data),
    ratings_in_range d ->
    ratings_in_range (post_all requests d) /\
    (forall id m avg,
        Api.get_movie (post_all requests d) id = Ok m ->
        Api.m_rating m = Some avg ->
        0.5 <= avg <= 5) /\
    (forall (datetime : Type) (fromtimestamp : Z -> Result datetime) user_id p,
        Api.get_user_profile datetime fromtimestamp (post_all requests d)
          user_id = Ok p ->
        0.5 <= Api.averageRating p <= 5).
Proof.
  intros requests d Hd.
  pose proof (post_all_keeps_range requests d Hd) as Hd'.
  split; [exact Hd'|]. split.
  - intros id m avg Hget Havg.
    rewrite (get_movie_rating _ _ _ Hget) in Havg.
    destruct (ratings_of (post_all requests d) id) as [|x xs] eqn:E;
      [discriminate|].
    simpl in Havg. inversion Havg; subst.
    apply mean_bounds; [discriminate|].
    rewrite <- E. apply ratings_of_in_range, Hd'.
  - intros datetime fromtimestamp user_id p Hp.
    apply get_user_profile_inv in Hp.
    destruct Hp as (ratings & last & Hr & Hne & _ & _ & _ & _ & -> & _).
    apply mean_bounds.
    + intros E. apply map_eq_nil in E. contradiction.
    + unfold ratings_in_range in Hd'. rewrite Hr in Hd'.
      rewrite Forall_forall in *. intros x Hx.
      apply in_map_iff in Hx. destruct Hx as (r & <- & Hin).
      apply filter_In in Hin. apply Hd', Hin.
Qed.

Lemma demo_ratings_in_range : ratings_in_range demo.
Proof.
  unfold ratings_in_range; simpl.
  repeat constructor; simpl; unfold Qle; simpl; lia.
Qed.

Lemma X6_witness :
  ratings_in_range demo /\
  ratings_in_range
    (post_all [(Api.mkRating 7 6 4.5 None, 1700000000%Z);
               (Api.mkRating 7 1 9 None, 1700000001%Z)] demo).
Proof.
  split; [exact demo_ratings_in_range|].
  exact (proj1 (X6_averages_stay_in_the_rating_range _ demo
                  demo_ratings_in_range)).
Defined.

(** ** User profiles *)

Lemma fold_left_max_spec (l : list Z) (x : Z) :
  In (fold_left Z.max l x) (x :: l) /\
  Forall (fun t => (t <= fold_left Z.max l x)%Z) (x :: l).
Proof.
  revert x. induction l as [|y l IH]; intros x; simpl.
  - split; [auto | repeat constructor; lia].
  - destruct (IH (Z.max x y)) as [Hin Hall].
    inversion Hall as [|? ? Hhd Htl]; subst.
    split.
    + destruct (Z.max_spec x y) as [[_ E]|[_ E]]; rewrite E in *.
      * right. exact Hin.
      * destruct Hin as [Hin|Hin]; [left; exact Hin | right; right; exact Hin].
    + constructor; [lia|]. constructor; [lia | exact Htl].
Qed.

Lemma series_max_spec (l : list Z) :
  l <> [] ->
  exists last,
    series_max l = Some last /\ In last l /\
    Forall (fun t => (t <= last)%Z) l.
Proof.
  destruct l as [|x l]; [congruence|]. intros _.
  exists (fold_left Z.max l x). split; [reflexivity|].
  apply fold_left_max_spec.
Qed.

Lemma get_user_profile_unfold (datetime : Type)
    (fromtimestamp : Z -> Result datetime) (d : Data)
    (ratings : list RatingRow) (user_id : Z) :
  ratings_df d = Some ratings ->
  rows_of_user d user_id <> [] ->
  exists last,
    In last (map r_timestamp (rows_of_user d user_id)) /\
    Forall (fun t => (t <= last)%Z) (map r_timestamp (rows_of_user d user_id)) /\
    Api.get_user_profile datetime fromtimestamp d user_id =
      match fromtimestamp last with
      | Ok last_activity =>
          Ok (Api.mkUserProfile user_id
                (List.length (rows_of_user d user_id))
                (mean (map r_rating (rows_of_user d user_id)))
                ["Action"; "Comedy"; "Drama"]%string last_activity)
      | Err e => Err e
      end.
Proof.
  intros Hr Hne. unfold rows_of_user in *. unfold Api.get_user_profile.
  rewrite Hr in *.
  destruct (filter _ ratings) as [|r rs] eqn:Ef; [congruence|].
  cbn [is_empty].
  destruct (series_max_spec (map r_timestamp (r :: rs))) as
    (last & Hmax & Hin & Hall); [discriminate|].
  exists last. rewrite Hmax. repeat split; assumption.
Qed.

(** X7.  [get_user_profile] answers 404 exactly for the users without a
    rating row.  For any other user it counts the user's rows, averages
    their ratings, and takes as last activity the latest of their
    timestamps, which [datetime.fromtimestamp] converts or refuses. *)
Theorem X7_profile_counts_and_latest_activity :
  forall (datetime : Type) (fromtimestamp : Z -> Result datetime)
         (d : Data) (ratings : list RatingRow) (user_id : Z),
    ratings_df d = Some ratings ->
    (rows_of_user d user_id = [] ->
       Api.get_user_profile datetime fromtimestamp d user_id =
         Err (HTTPException 404 "Utilisateur non trouvé")) /\
    (rows_of_user d user_id <> [] ->
       exists last,
         In last (map r_timestamp (rows_of_user d user_id)) /\
         Forall (fun t => (t <= last)%Z)
           (map r_timestamp (rows_of_user d user_id)) /\
         Api.get_user_profile datetime fromtimestamp d user_id =
           match fromtimestamp last with
           | Ok last_activity =>
               Ok (Api.mkUserProfile user_id
                     (List.length (rows_of_user d user_id))
                     (mean (map r_rating (rows_of_user d user_id)))
                     ["Action"; "Comedy"; "Drama"]%string last_activity)
           | Err e => Err e
           end).
Proof.
  intros datetime fromtimestamp d ratings user_id Hr. split.
  - unfold rows_of_user, Api.get_user_profile. rewrite Hr.
    intros ->. reflexivity.
  - apply (get_user_profile_unfold datetime fromtimestamp d ratings user_id Hr).
Qed.

Lemma X7_witness :
  (rows_of_user demo 9 = [] /\
   Api.get_user_profile Z posix_fromtimestamp demo 9 =
     Err (HTTPException 404 "Utilisateur non trouvé")) /\
  (rows_of_user demo 1 <> [] /\
   exists last,
     In last (map r_timestamp (rows_of_user demo 1)) /\
     Forall (fun t => (t <= last)%Z) (map r_timestamp (rows_of_user demo 1)) /\
     Api.get_user_profile Z posix_fromtimestamp demo 1 =
       match posix_fromtimestamp last with
       | Ok last_activity =>
           Ok (Api.mkUserProfile 1
                 (List.length (rows_of_user demo 1))
                 (mean (map r_rating (rows_of_user demo 1)))
                 ["Action"; "Comedy"; "Drama"]%string last_activity)
       | Err e => Err e
       end).
Proof.
  assert (Hnone : rows_of_user demo 9 = []) by reflexivity.
  assert (Hsome : rows_of_user demo 1 <> []) by discriminate.
  split; split; [exact Hnone | | exact Hsome |].
  - exact (proj1 (X7_profile_counts_and_latest_activity Z posix_fromtimestamp
                    demo demo_ratings 9 eq_refl) Hnone).
  - exact (proj2 (X7_profile_counts_and_latest_activity Z posix_fromtimestamp
                    demo demo_ratings 1 eq_refl) Hsome).
Defined.

Lemma rows_of_user_after_add (body : Api.Rating) (now : Z) (d d' : Data)
    (row : RatingRow) (user_id : Z) :
  Api.add_rating body now d = (Ok row, d') ->
  rows_of_user d' user_id =
    if (Api.userId body =? user_id)%Z
    then rows_of_user d user_id ++ [row]
    else rows_of_user d user_id.
Proof.
  intros H. apply add_rating_ok_inv in H.
  destruct H as (ratings & Hr & Hrow & ->).
  unfold rows_of_user. simpl. rewrite Hr.
  rewrite filter_app. simpl.
  assert (E : r_userId row = Api.userId body) by (subst row; reflexivity).
  rewrite E.
  destruct (Api.userId body =? user_id)%Z; simpl.
  - reflexivity.
  - rewrite app_nil_r. reflexivity.
Qed.

Lemma get_user_profile_rows (datetime : Type)
    (fromtimestamp : Z -> Result datetime) (d1 d2 : Data) (user_id : Z) :
  (ratings_df d1 = None <-> ratings_df d2 = None) ->
  rows_of_user d1 user_id = rows_of_user d2 user_id ->
  Api.get_user_profile datetime fromtimestamp d1 user_id =
  Api.get_user_profile datetime fromtimestamp d2 user_id.
Proof.
  unfold rows_of_user, Api.get_user_profile. intros Hnone Hrows.
  destruct (ratings_df d1) as [r1|]; destruct (ratings_df d2) as [r2|].
  - rewrite Hrows. reflexivity.
  - destruct Hnone as [_ H]. discriminate (H eq_refl).
  - destruct Hnone as [H _]. discriminate (H eq_refl).
  - reflexivity.
Qed.

(** X8.  Once [add_rating] has accepted a rating, the profile of its
    author exists: the answer is no 404 but the profile, or the error of
    the date conversion, with one rating more than the author had, the
    new rating in the average, and as last activity a timestamp that is
    not earlier than the one stored with the rating.  The profile of every
    other user is answered as before.  This is stated for ids and
    timestamps that fit int64, in the table and in the rating, so that the
    columns keep their type when the row is appended. *)
Theorem X8_rating_shows_in_the_profile :
  forall (datetime : Type) (fromtimestamp : Z -> Result datetime)
         (body : Api.Rating) (now : Z) (d d' : Data) (row : RatingRow),
    int64_table d ->
    int64_rating body now ->
    Api.add_rating body now d = (Ok row, d') ->
    (exists last,
        (Api.stored_timestamp body now <= last)%Z /\
        Api.get_user_profile datetime fromtimestamp d' (Api.userId body) =
          match fromtimestamp last with
          | Ok last_activity =>
              Ok (Api.mkUserProfile (Api.userId body)
                    (S (List.length (rows_of_user d (Api.userId body))))
                    (mean (map r_rating (rows_of_user d (Api.userId body))
                           ++ [Api.rating body]))
                    ["Action"; "Comedy"; "Drama"]%string last_activity)
          | Err e => Err e
          end) /\
    (forall user_id,
        user_id <> Api.userId body ->
        Api.get_user_profile datetime fromtimestamp d' user_id =
        Api.get_user_profile datetime fromtimestamp d user_id).
Proof.
  intros datetime fromtimestamp body now d d' row _ _ Hadd.
  pose proof (fun u => rows_of_user_after_add body now d d' row u Hadd) as Hrows.
  destruct (add_rating_ok_inv body now d d' row Hadd)
    as (ratings & Hr & Hrow & Hd').
  assert (Hr' : ratings_df d' = Some (ratings ++ [row]))
    by (rewrite Hd'; reflexivity).
  assert (Hmine : rows_of_user d' (Api.userId body) =
                  rows_of_user d (Api.userId body) ++ [row]).
  { rewrite Hrows, Z.eqb_refl. reflexivity. }
  assert (Hne : rows_of_user d' (Api.userId body) <> []).
  { rewrite Hmine. intros E. apply app_eq_nil in E. destruct E; discriminate. }
  destruct (get_user_profile_unfold datetime fromtimestamp d' _
              (Api.userId body) Hr' Hne) as (last & Hin & Hall & Hp).
  split.
  - exists last. split.
    + rewrite Forall_forall in Hall. apply Hall.
      rewrite Hmine, map_app. apply in_or_app. right.
      rewrite Hrow. simpl. auto.
    + rewrite Hp, Hmine, length_app, map_app, Hrow. simpl.
      replace (List.length (rows_of_user d (Api.userId body)) + 1)%nat
        with (S (List.length (rows_of_user d (Api.userId body)))) by lia.
      reflexivity.
  - intros user_id Hu. apply get_user_profile_rows.
    + rewrite Hr, Hr'. split; discriminate.
    + rewrite Hrows.
      destruct (Z.eqb_spec (Api.userId body) user_id); [congruence|reflexivity].
Qed.

Lemma X8_witness :
  exists row d' last,
    Api.add_rating (Api.mkRating 9 6 4.5 None) 1700000000 demo = (Ok row, d') /\
    (Api.stored_timestamp (Api.mkRating 9 6 4.5 None) 1700000000 <= last)%Z /\
    Api.get_user_profile Z posix_fromtimestamp d' 9 =
      match posix_fromtimestamp last with
      | Ok last_activity =>
          Ok (Api.mkUserProfile 9 (S (List.length (rows_of_user demo 9)))
                (mean (map r_rating (rows_of_user demo 9) ++ [4.5]))
                ["Action"; "Comedy"; "Drama"]%string last_activity)
      | Err e => Err e
      end.
Proof.
  eexists; eexists.
  assert (Hadd : Api.add_rating (Api.mkRating 9 6 4.5 None) 1700000000 demo
                 = (Ok (mkRatingRow 9 6 4.5 1700000000),
                    mkData (Some demo_movies)
                      (Some (demo_ratings ++ [mkRatingRow 9 6 4.5 1700000000]))))
    by reflexivity.
  assert (H64 : int64_rating (Api.mkRating 9 6 4.5 None) 1700000000)
    by (repeat split).
  destruct (proj1 (X8_rating_shows_in_the_profile Z posix_fromtimestamp
                     _ _ _ _ _ demo_int64_table H64 Hadd))
    as (last & Hlast & Hp).
  exists last. split; [exact Hadd|]. split; [exact Hlast | exact Hp].
Defined.

(** ** Counting values *)

Lemma NoDup_map_tagged (A B : Type) (c : A -> B) (l : list A) :
  NoDup l -> NoDup (map (fun k => (k, c k)) l).
Proof.
  induction 1 as [|x l Hx _ IH]; simpl; constructor; [|exact IH].
  intros H. apply in_map_iff in H. destruct H as (y & E & Hy).
  inversion E; subst. contradiction.
Qed.

Section CountFacts.

Context {K : Type}.
Variable eqb : K -> K -> bool.
Hypothesis eqb_equiv : is_equivalence eqb.

Lemma eqb_refl_of (x : K) : eqb x x = true.
Proof. destruct eqb_equiv as (H & _ & _). apply H. Qed.

Lemma eqb_sym_of (x y : K) : eqb x y = true -> eqb y x = true.
Proof. destruct eqb_equiv as (_ & H & _). apply H. Qed.

Lemma eqb_trans_of (x y z : K) :
  eqb x y = true -> eqb y z = true -> eqb x z = true.
Proof. destruct eqb_equiv as (_ & _ & H). apply H. Qed.

(** equal values are equal to the same values *)
Lemma eqb_congr (x y z : K) : eqb x y = true -> eqb x z = eqb y z.
Proof.
  intros Hxy.
  destruct (eqb x z) eqn:Exz; destruct (eqb y z) eqn:Eyz; try reflexivity.
  - rewrite (eqb_trans_of y x z (eqb_sym_of x y Hxy) Exz) in Eyz. discriminate.
  - rewrite (eqb_trans_of x y z Hxy Eyz) in Exz. discriminate.
Qed.

Lemma count_of_congr (x y : K) (l : list K) :
  eqb x y = true -> count_of eqb x l = count_of eqb y l.
Proof.
  intros Hxy. unfold count_of. f_equal.
  apply filter_ext. intros z. apply eqb_congr, Hxy.
Qed.

Lemma count_of_pos (x : K) (l : list K) :
  In x l -> (1 <= count_of eqb x l)%nat.
Proof.
  intros Hin. unfold count_of.
  assert (H : In x (filter (eqb x) l))
    by (apply filter_In; split; [exact Hin | apply eqb_refl_of]).
  destruct (filter (eqb x) l); [destruct H | simpl; lia].
Qed.

Lemma keys_incl (l : list K) (k : K) : In k (FirstSeen.keys eqb l) -> In k l.
Proof.
  induction l as [|x l IH]; simpl; [tauto|].
  intros [->|H]; [auto|].
  apply filter_In in H. right. apply IH, H.
Qed.

Lemma keys_cover (l : list K) (x : K) :
  In x l -> exists k, In k (FirstSeen.keys eqb l) /\ eqb k x = true.
Proof.
  induction l as [|y l IH]; simpl; [tauto|].
  intros [->|Hin].
  - exists x. split; [auto | apply eqb_refl_of].
  - destruct (IH Hin) as (k & Hk & Hkx).
    destruct (eqb y k) eqn:Eyk.
    + exists y. split; [auto | exact (eqb_trans_of y k x Eyk Hkx)].
    + exists k. split; [|exact Hkx].
      right. apply filter_In. split; [exact Hk | rewrite Eyk; reflexivity].
Qed.

Lemma keys_distinct (l : list K) :
  NoDup (FirstSeen.keys eqb l) /\
  forall a b,
    In a (FirstSeen.keys eqb l) -> In b (FirstSeen.keys eqb l) ->
    eqb a b = true -> a = b.
Proof.
  induction l as [|x l [IHnd IHeq]]; simpl.
  - split; [constructor | tauto].
  - split.
    + constructor.
      * intros H. apply filter_In in H. destruct H as [_ H].
        rewrite eqb_refl_of in H. discriminate.
      * apply NoDup_filter, IHnd.
    + intros a b [->|Ha] [->|Hb] Hab; try reflexivity.
      * apply filter_In in Hb. destruct Hb as [_ Hb].
        rewrite Hab in Hb. discriminate.
      * apply filter_In in Ha. destruct Ha as [_ Ha].
        rewrite (eqb_sym_of a b Hab) in Ha. discriminate.
      * apply filter_In in Ha. apply filter_In in Hb.
        apply IHeq; tauto.
Qed.

Lemma counts_In (l : list K) (entry : K * nat) :
  In entry (FirstSeen.counts K eqb l) <->
  In (fst entry) (FirstSeen.keys eqb l) /\
  snd entry = count_of eqb (fst entry) l.
Proof.
  unfold FirstSeen.counts. split.
  - intros H.
    apply (Permutation_in _ (Permutation_sym (sort_desc_perm _ _))) in H.
    apply in_map_iff in H. destruct H as (k & <- & Hk). simpl. auto.
  - intros [Hk Hn].
    apply (Permutation_in _ (sort_desc_perm _ _)).
    apply in_map_iff. exists (fst entry). split; [|exact Hk].
    destruct entry; simpl in *; congruence.
Qed.

Lemma first_seen_key (l : list K) (k : K) (n : nat) :
  In (k, n) (FirstSeen.counts K eqb l) -> In k l /\ n = count_of eqb k l.
Proof.
  intros H. apply counts_In in H. simpl in H.
  destruct H as [Hk Hn]. split; [apply keys_incl, Hk | exact Hn].
Qed.

Lemma first_seen_all (l : list K) (x : K) :
  In x l ->
  exists k n, In (k, n) (FirstSeen.counts K eqb l) /\ eqb k x = true.
Proof.
  intros Hin. destruct (keys_cover l x Hin) as (k & Hk & Hkx).
  exists k, (count_of eqb k l). split; [|exact Hkx].
  apply counts_In. simpl. auto.
Qed.

Lemma first_seen_distinct (l : list K) (a b : K * nat) :
  In a (FirstSeen.counts K eqb l) -> In b (FirstSeen.counts K eqb l) ->
  eqb (fst a) (fst b) = true -> a = b.
Proof.
  intros Ha Hb Hab.
  apply counts_In in Ha. apply counts_In in Hb.
  destruct Ha as [Ha Hna]. destruct Hb as [Hb Hnb].
  pose proof (proj2 (keys_distinct l) _ _ Ha Hb Hab) as E.
  destruct a as [ka na]; destruct b as [kb nb]; simpl in *. congruence.
Qed.

Lemma first_seen_NoDup (l : list K) : NoDup (FirstSeen.counts K eqb l).
Proof.
  unfold FirstSeen.counts.
  eapply Permutation_NoDup; [apply sort_desc_perm|].
  apply NoDup_map_tagged, keys_distinct.
Qed.

Lemma first_seen_sorted (l : list K) :
  Sorted (fun a b : K * nat => (snd b <= snd a)%nat) (FirstSeen.counts K eqb l).
Proof.
  unfold FirstSeen.counts.
  set (key := fun entry : K * nat => inject_Z (Z.of_nat (snd entry))).
  pose proof (sort_desc_sorted key
                (map (fun k => (k, count_of eqb k l)) (FirstSeen.keys eqb l)))
    as Hs.
  induction Hs as [|a rest Hs IH Hhd]; constructor.
  - exact IH.
  - destruct Hhd as [|b rest' Hab]; constructor.
    unfold key_ge, key in Hab. rewrite <- Zle_Qle in Hab. lia.
Qed.

End CountFacts.

Definition pandas_first_seen : Pandas :=
  {| value_counts := FirstSeen.counts;
     value_counts_key := fun K eqb l k n _ => first_seen_key eqb l k n;
     value_counts_all := fun K eqb l x H => first_seen_all eqb H l x;
     value_counts_NoDup := fun K eqb l H => first_seen_NoDup eqb H l;
     value_counts_distinct :=
       fun K eqb l a b H => first_seen_distinct eqb H l a b;
     value_counts_sorted := fun K eqb l _ => first_seen_sorted eqb l |}.

(** what every [value_counts] that meets the contract gives *)
Section PandasFacts.

Variable P : Pandas.
Context {K : Type}.
Variable eqb : K -> K -> bool.
Hypothesis eqb_equiv : is_equivalence eqb.

Lemma value_counts_strongly_sorted (l : list K) :
  StronglySorted (fun a b : K * nat => (snd b <= snd a)%nat)
    (value_counts P K eqb l).
Proof.
  apply Sorted_StronglySorted.
  - intros a b c Hab Hbc. lia.
  - apply value_counts_sorted, eqb_equiv.
Qed.

Lemma value_counts_nil : value_counts P K eqb [] = [].
Proof.
  destruct (value_counts P K eqb []) as [|[k n] rest] eqn:E; [reflexivity|].
  destruct (value_counts_key P K eqb [] k n eqb_equiv) as [H _].
  - rewrite E. left. reflexivity.
  - destruct H.
Qed.

Lemma value_counts_entry (l : list K) (x : K) :
  In x l ->
  exists k, In (k, count_of eqb x l) (value_counts P K eqb l) /\
            eqb k x = true.
Proof.
  intros Hin.
  destruct (value_counts_all P K eqb l x eqb_equiv Hin) as (k & n & Hk & Hkx).
  exists k. split; [|exact Hkx].
  destruct (value_counts_key P K eqb l k n eqb_equiv Hk) as [_ Hn].
  rewrite (count_of_congr eqb eqb_equiv k x l Hkx) in Hn.
  subst n. exact Hk.
Qed.

(** the first key is a most frequent value *)
Lemma value_counts_head (l : list K) (k : K) (n : nat)
    (rest : list (K * nat)) :
  value_counts P K eqb l = (k, n) :: rest ->
  In k l /\ n = count_of eqb k l /\
  forall x, In x l -> (count_of eqb x l <= n)%nat.
Proof.
  intros E.
  destruct (value_counts_key P K eqb l k n eqb_equiv) as [Hk Hn];
    [rewrite E; left; reflexivity|].
  split; [exact Hk|]. split; [exact Hn|].
  intros x Hx.
  destruct (value_counts_entry l x Hx) as (k' & H & _).
  pose proof (value_counts_strongly_sorted l) as Hs.
  rewrite E in H, Hs. inversion Hs as [|? ? _ Hall]; subst.
  rewrite Forall_forall in Hall.
  destruct H as [H|H].
  - inversion H. lia.
  - apply Hall in H. simpl in H. lia.
Qed.

Lemma value_counts_nonempty (l : list K) :
  l <> [] -> value_counts P K eqb l <> [].
Proof.
  destruct l as [|x l]; [congruence|]. intros _ E.
  destruct (value_counts_all P K eqb (x :: l) x eqb_equiv) as (k & n & H & _);
    [left; reflexivity|].
  rewrite E in H. destruct H.
Qed.

Lemma filter_exactly_one (A : Type) (f : A -> bool) (l : list A) :
  NoDup l ->
  (exists a, In a l /\ f a = true) ->
  (forall a b, In a l -> In b l -> f a = true -> f b = true -> a = b) ->
  List.length (filter f l) = 1%nat.
Proof.
  intros Hnd (a & Ha & Hfa) Huniq.
  pose proof (NoDup_filter f Hnd) as Hndf.
  assert (Hin : In a (filter f l)) by (apply filter_In; auto).
  destruct (filter f l) as [|x [|y rest]] eqn:E.
  - destruct Hin.
  - reflexivity.
  - exfalso.
    assert (Hx : In x (filter f l)) by (rewrite E; left; reflexivity).
    assert (Hy : In y (filter f l)) by (rewrite E; right; left; reflexivity).
    apply filter_In in Hx. apply filter_In in Hy.
    assert (x = y) by (apply Huniq; tauto). subst y.
    inversion Hndf as [|? ? Hnot _]; subst. apply Hnot. left. reflexivity.
Qed.

Lemma counts_partition (l l2 : list K) :
  (forall x, In x l2 -> In x l) ->
  list_sum (map (fun entry => count_of eqb (fst entry) l2)
              (value_counts P K eqb l)) = List.length l2.
Proof.
  induction l2 as [|x l2 IH]; intros Hsub.
  - unfold count_of. simpl.
    induction (value_counts P K eqb l) as [|e vc IHvc]; simpl; auto.
  - assert (Hone :
      List.length (filter (fun entry => eqb (fst entry) x)
                     (value_counts P K eqb l)) = 1%nat).
    { apply filter_exactly_one.
      - apply value_counts_NoDup, eqb_equiv.
      - destruct (value_counts_all P K eqb l x eqb_equiv (Hsub x (or_introl eq_refl)))
          as (k & n & Hk & Hkx).
        exists (k, n). auto.
      - intros a b Ha Hb Hfa Hfb.
        apply (value_counts_distinct P K eqb l a b eqb_equiv Ha Hb).
        apply (eqb_trans_of eqb eqb_equiv _ x _ Hfa).
        apply (eqb_sym_of eqb eqb_equiv), Hfb. }
    specialize (IH (fun y Hy => Hsub y (or_intror Hy))).
    change (List.length (x :: l2)) with (1 + List.length l2)%nat.
    rewrite <- IH, <- Hone.
    generalize (value_counts P K eqb l). intros vc.
    induction vc as [|e vc IHvc]; simpl; [reflexivity|].
    rewrite IHvc. unfold count_of. simpl.
    destruct (eqb (fst e) x); simpl; lia.
Qed.

(** the counts add up to the length of the column *)
Lemma value_counts_total (l : list K) :
  list_sum (map snd (value_counts P K eqb l)) = List.length l.
Proof.
  rewrite <- (counts_partition l l (fun x H => H)).
  f_equal. apply map_ext_in. intros [k n] Hin. simpl.
  apply (value_counts_key P K eqb l k n eqb_equiv Hin).
Qed.

(** the entries [head(m)] keeps count no less than those it drops *)
Lemma value_counts_head_m (l : list K) (m : nat) (a b : K * nat) :
  In a (firstn m (value_counts P K eqb l)) ->
  In b (skipn m (value_counts P K eqb l)) ->
  (snd b <= snd a)%nat.
Proof.
  pose proof (value_counts_strongly_sorted l) as Hs.
  revert m. induction Hs as [|e vc Hs IH Hall]; intros m Ha Hb.
  - rewrite firstn_nil in Ha. destruct Ha.
  - destruct m as [|m]; [destruct Ha|].
    simpl in Ha, Hb. destruct Ha as [<-|Ha].
    + rewrite Forall_forall in Hall. apply Hall.
      rewrite <- (firstn_skipn m vc). apply in_or_app. right. exact Hb.
    + apply (IH m Ha Hb).
Qed.

End PandasFacts.

(** ** Statistics *)

Lemma Z_eqb_equiv : is_equivalence Z.eqb.
Proof.
  repeat split.
  - apply Z.eqb_refl.
  - intros x y H. apply Z.eqb_eq in H. subst. apply Z.eqb_refl.
  - intros x y z H1 H2. apply Z.eqb_eq in H1. subst. exact H2.
Qed.

Lemma string_eqb_equiv : is_equivalence String.eqb.
Proof.
  repeat split.
  - apply String.eqb_refl.
  - intros x y H. apply String.eqb_eq in H. subst. apply String.eqb_refl.
  - intros x y z H1 H2. apply String.eqb_eq in H1. subst. exact H2.
Qed.

Lemma Qeq_bool_equiv : is_equivalence Qeq_bool.
Proof.
  repeat split.
  - apply Qeq_bool_refl.
  - apply Qeq_bool_sym.
  - apply Qeq_bool_trans.
Qed.

Lemma count_of_map (A K : Type) (eqb : K -> K -> bool) (g : A -> K) (k : K)
    (l : list A) :
  count_of eqb k (map g l) = List.length (filter (fun a => eqb k (g a)) l).
Proof.
  unfold count_of. induction l as [|a l IH]; simpl; [reflexivity|].
  destruct (eqb k (g a)); simpl; rewrite IH; reflexivity.
Qed.

Lemma count_of_movie (ratings : list RatingRow) (id : Z) :
  count_of Z.eqb id (map r_movieId ratings) = rating_count ratings id.
Proof.
  rewrite count_of_map. unfold rating_count. f_equal.
  apply filter_ext. intros r. apply Z.eqb_sym.
Qed.

Lemma count_of_absent (K : Type) (eqb : K -> K -> bool) (k : K) (l : list K) :
  (forall x, In x l -> eqb k x = false) -> count_of eqb k l = 0%nat.
Proof.
  intros H. unfold count_of.
  replace (filter (eqb k) l) with (@nil K); [reflexivity|].
  symmetry. apply filter_nil_iff, Forall_forall, H.
Qed.

Lemma nunique_le_length (xs : list Z) : (nunique xs <= List.length xs)%nat.
Proof.
  unfold nunique. apply NoDup_incl_length; [apply NoDup_nodup|].
  intros x Hx. apply nodup_In in Hx. exact Hx.
Qed.

Lemma nunique_snoc (xs : list Z) (x : Z) :
  nunique (xs ++ [x]) =
    if existsb (Z.eqb x) xs then nunique xs else S (nunique xs).
Proof.
  unfold nunique.
  destruct (existsb (Z.eqb x) xs) eqn:E.
  - apply existsb_exists in E. destruct E as (y & Hy & Exy).
    apply Z.eqb_eq in Exy. subst y.
    apply Permutation_length, NoDup_Permutation; try apply NoDup_nodup.
    intros z. rewrite !nodup_In, in_app_iff. simpl.
    split; [intros [H|[<-|[]]]; assumption | auto].
  - assert (Hnot : ~ In x xs).
    { intros Hin.
      assert (Ht : existsb (Z.eqb x) xs = true)
        by (apply existsb_exists; exists x; split; [exact Hin | apply Z.eqb_refl]).
      congruence. }
    change (S (List.length (nodup Z.eq_dec xs)))
      with (List.length (x :: nodup Z.eq_dec xs)).
    apply Permutation_length, NoDup_Permutation.
    + apply NoDup_nodup.
    + constructor; [rewrite nodup_In; exact Hnot | apply NoDup_nodup].
    + intros z. rewrite nodup_In, in_app_iff. simpl. rewrite nodup_In.
      split; [intros [H|[<-|[]]]; auto | intros [<-|H]; auto].
Qed.

Lemma user_seen (ratings : list RatingRow) (user_id : Z) :
  existsb (Z.eqb user_id) (map r_userId ratings) =
  negb (is_empty (filter (fun r => (r_userId r =? user_id)%Z) ratings)).
Proof.
  induction ratings as [|r rs IH]; simpl; [reflexivity|].
  rewrite (Z.eqb_sym user_id (r_userId r)).
  destruct (r_userId r =? user_id)%Z; simpl; [reflexivity | exact IH].
Qed.

Lemma get_statistics_inv (P : Pandas) (now : string) (d : Data)
    (st : Api.Statistics) :
  Api.get_statistics P now d = Ok st ->
  exists movies ratings,
    movies_df d = Some movies /\ ratings_df d = Some ratings /\
    Api.total_movies st = List.length movies /\
    Api.total_ratings st = List.length ratings /\
    Api.total_users st = nunique (map r_userId ratings) /\
    Api.average_rating st = series_mean (map r_rating ratings) /\
    Api.top_genres st =
      firstn 5 (value_counts P string String.eqb (genre_tags movies)) /\
    Api.last_updated st = now /\
    Api.most_popular_movie st =
      match first_key (value_counts P Z Z.eqb (map r_movieId ratings)) with
      | None => None
      | Some id =>
          if (id =? 0)%Z then None
          else
            match filter (fun m => (row_movieId m =? id)%Z) movies with
            | [] => None
            | movie :: _ => Some (row_title movie)
            end
      end.
Proof.
  unfold Api.get_statistics. intros H.
  destruct (movies_df d) as [movies|]; [|discriminate].
  destruct (ratings_df d) as [ratings|]; [|discriminate].
  inversion H; subst. simpl. exists movies, ratings.
  repeat split; reflexivity.
Qed.

(** X9.  In the statistics the number of users never exceeds the number
    of ratings.  A rating that [add_rating] accepts raises the number of
    ratings by one, leaves the number of movies as it was, and raises the
    number of users by one exactly when its author had no rating yet.
    This is stated for ids and timestamps that fit int64, in the table and
    in the rating, so that the columns keep their type when the row is
    appended. *)
Theorem X9_statistics_count_a_new_rating :
  forall (P : Pandas) (now now' : string) (body : Api.Rating) (t : Z)
         (d d' : Data) (row : RatingRow) (st st' : Api.Statistics),
    int64_table d ->
    int64_rating body t ->
    Api.add_rating body t d = (Ok row, d') ->
    Api.get_statistics P now d = Ok st ->
    Api.get_statistics P now' d' = Ok st' ->
    (Api.total_users st <= Api.total_ratings st)%nat /\
    Api.total_ratings st' = S (Api.total_ratings st) /\
    Api.total_movies st' = Api.total_movies st /\
    Api.total_users st' =
      (if is_empty (rows_of_user d (Api.userId body))
       then S (Api.total_users st) else Api.total_users st).
Proof.
  intros P now now' body t d d' row st st' _ _ Hadd Hst Hst'.
  apply get_statistics_inv in Hst. apply get_statistics_inv in Hst'.
  destruct Hst as (movies & ratings & Hm & Hr & Hn1 & Hn2 & Hn3 & _).
  destruct Hst' as (movies' & ratings' & Hm' & Hr' & Hn1' & Hn2' & Hn3' & _).
  apply add_rating_ok_inv in Hadd.
  destruct Hadd as (ratings0 & Hr0 & Hrow & Hd').
  rewrite Hd' in Hm', Hr'. simpl in Hm', Hr'.
  assert (ratings0 = ratings) by congruence. subst ratings0.
  assert (movies' = movies) by congruence. subst movies'.
  assert (ratings' = ratings ++ [row]) by congruence. subst ratings'.
  rewrite Hn1, Hn2, Hn3, Hn1', Hn2', Hn3'.
  split; [rewrite <- (length_map r_userId); apply nunique_le_length|].
  split; [rewrite length_app; simpl; lia|].
  split; [reflexivity|].
  rewrite map_app. simpl. rewrite nunique_snoc.
  assert (Hu : r_userId row = Api.userId body) by (rewrite Hrow; reflexivity).
  rewrite Hu. unfold rows_of_user. rewrite Hr.
  rewrite (user_seen ratings (Api.userId body)).
  destruct (is_empty _); reflexivity.
Qed.

Lemma X9_witness :
  exists row d' st st',
    Api.add_rating (Api.mkRating 9 6 4.5 None) 1700000000 demo = (Ok row, d') /\
    Api.get_statistics pandas_first_seen "2024-01-01T00:00:00" demo = Ok st /\
    Api.get_statistics pandas_first_seen "2024-01-02T00:00:00" d' = Ok st' /\
    Api.total_ratings st' = S (Api.total_ratings st) /\
    Api.total_users st' = S (Api.total_users st).
Proof.
  eexists; eexists; eexists; eexists.
  assert (Hadd : Api.add_rating (Api.mkRating 9 6 4.5 None) 1700000000 demo
                 = (Ok (mkRatingRow 9 6 4.5 1700000000),
                    mkData (Some demo_movies)
                      (Some (demo_ratings ++ [mkRatingRow 9 6 4.5 1700000000]))))
    by reflexivity.
  split; [exact Hadd|].
  assert (Hst : Api.get_statistics pandas_first_seen "2024-01-01T00:00:00"
                  demo = Ok ?[st]) by (vm_compute; reflexivity).
  assert (Hst' : Api.get_statistics pandas_first_seen "2024-01-02T00:00:00"
                   (mkData (Some demo_movies)
                      (Some (demo_ratings ++ [mkRatingRow 9 6 4.5 1700000000])))
                 = Ok ?[st']) by (vm_compute; reflexivity).
  split; [exact Hst|]. split; [exact Hst'|].
  assert (H64 : int64_rating (Api.mkRating 9 6 4.5 None) 1700000000)
    by (repeat split).
  destruct (X9_statistics_count_a_new_rating pandas_first_seen
              "2024-01-01T00:00:00" "2024-01-02T00:00:00"
              _ _ _ _ _ _ _ demo_int64_table H64 Hadd Hst Hst')
    as (_ & H1 & _ & H2).
  split; [exact H1 | exact H2].
Defined.

Lemma rating_count_le_head (P : Pandas) (ratings : list RatingRow)
    (k : Z) (c : nat) (rest : list (Z * nat)) :
  value_counts P Z Z.eqb (map r_movieId ratings) = (k, c) :: rest ->
  c = rating_count ratings k /\
  forall id', (rating_count ratings id' <= rating_count ratings k)%nat.
Proof.
  intros E.
  destruct (value_counts_head P Z.eqb Z_eqb_equiv _ k c rest E)
    as (Hk & Hc & Hmax).
  rewrite count_of_movie in Hc. split; [exact Hc|].
  intros id'. rewrite <- Hc.
  destruct (in_dec Z.eq_dec id' (map r_movieId ratings)) as [Hin|Hout].
  - rewrite <- count_of_movie. apply Hmax, Hin.
  - rewrite <- count_of_movie, count_of_absent; [lia|].
    intros x Hx. apply Z.eqb_neq. congruence.
Qed.

(** X10.  When the statistics name a most popular movie, it is the title
    of the first catalogue row of a movie, other than movie 0, that no
    movie exceeds in number of ratings.  When movie 0 has more ratings
    than every other movie, the statistics name none, whether or not
    movie 0 is in the catalogue: the handler tests the id for truth. *)
Theorem X10_most_popular_movie :
  forall (P : Pandas) (now : string) (d : Data) (movies : list MovieRow)
         (ratings : list RatingRow) (st : Api.Statistics),
    movies_df d = Some movies ->
    ratings_df d = Some ratings ->
    Api.get_statistics P now d = Ok st ->
    (forall title,
        Api.most_popular_movie st = Some title ->
        exists id movie,
          id <> 0%Z /\ first_with_id movies id movie /\
          row_title movie = title /\
          forall id', (rating_count ratings id' <= rating_count ratings id)%nat) /\
    ((forall id', id' <> 0%Z ->
                  (rating_count ratings id' < rating_count ratings 0)%nat) ->
     Api.most_popular_movie st = None).
Proof.
  intros P now d movies ratings st Hm Hr Hst.
  apply get_statistics_inv in Hst.
  destruct Hst as (movies' & ratings' & Hm' & Hr' & _ & _ & _ & _ & _ & _ & Hpop).
  assert (movies' = movies) by congruence.
  assert (ratings' = ratings) by congruence. subst movies' ratings'.
  rewrite Hpop. clear Hpop.
  destruct (value_counts P Z Z.eqb (map r_movieId ratings))
    as [|[k c] rest] eqn:E; simpl.
  - split; [discriminate|]. intros _. reflexivity.
  - destruct (rating_count_le_head P ratings k c rest E) as [Hc Hmax].
    split.
    + intros title Ht.
      destruct (Z.eqb_spec k 0) as [|Hk]; [discriminate|].
      destruct (filter (fun m => (row_movieId m =? k)%Z) movies)
        as [|movie others] eqn:Ef; [discriminate|].
      inversion Ht; subst title.
      apply filter_head_split in Ef.
      destruct Ef as (pre & post & -> & Hid & Hpre).
      apply Z.eqb_eq in Hid.
      exists k, movie. split; [exact Hk|]. split; [|split; [reflexivity|exact Hmax]].
      exists pre, post. repeat split; [exact Hid|].
      intros Hin. apply in_map_iff in Hin. destruct Hin as (m & Hmid & Hin).
      rewrite Forall_forall in Hpre. specialize (Hpre m Hin).
      apply Z.eqb_neq in Hpre. congruence.
    + intros Hzero.
      destruct (Z.eqb_spec k 0) as [|Hk]; [reflexivity|].
      specialize (Hzero k Hk). specialize (Hmax 0%Z). lia.
Qed.

Lemma X10_witness :
  exists st title,
    Api.get_statistics pandas_first_seen "2024-01-01T00:00:00" demo = Ok st /\
    Api.most_popular_movie st = Some title /\
    exists id movie,
      id <> 0%Z /\ first_with_id demo_movies id movie /\
      row_title movie = title /\
      forall id',
        (rating_count demo_ratings id' <= rating_count demo_ratings id)%nat.
Proof.
  eexists; eexists.
  assert (Hst : Api.get_statistics pandas_first_seen "2024-01-01T00:00:00"
                  demo = Ok ?[st]) by (vm_compute; reflexivity).
  split; [exact Hst|].
  split; [reflexivity|].
  exact (proj1 (X10_most_popular_movie pandas_first_seen
                  "2024-01-01T00:00:00" demo demo_movies
                  demo_ratings _ eq_refl eq_refl Hst) _ eq_refl).
Defined.

Lemma string_eqb_true (a b : string) : String.eqb a b = true -> a = b.
Proof. apply String.eqb_eq. Qed.

(** an entry of a result of [value_counts] over strings *)
Lemma genre_entry (P : Pandas) (tags : list string) (g : string) :
  In g tags ->
  In (g, count_of String.eqb g tags)
    (value_counts P string String.eqb tags).
Proof.
  intros Hin.
  destruct (value_counts_entry P String.eqb string_eqb_equiv tags g Hin)
    as (k & Hk & Hkg).
  apply string_eqb_true in Hkg. subst k. exact Hk.
Qed.

(** X11.  The top genres of the statistics are at most five; each comes
    with the number of times it is tagged in the catalogue; and a genre
    that is tagged but not listed is tagged no more often than any listed
    one. *)
Theorem X11_top_genres :
  forall (P : Pandas) (now : string) (d : Data) (movies : list MovieRow)
         (st : Api.Statistics),
    movies_df d = Some movies ->
    Api.get_statistics P now d = Ok st ->
    (List.length (Api.top_genres st) <= 5)%nat /\
    (forall g n,
        In (g, n) (Api.top_genres st) ->
        In g (genre_tags movies) /\
        n = count_of String.eqb g (genre_tags movies)) /\
    (forall g g' n',
        In g (genre_tags movies) ->
        ~ In g (map fst (Api.top_genres st)) ->
        In (g', n') (Api.top_genres st) ->
        (count_of String.eqb g (genre_tags movies) <= n')%nat).
Proof.
  intros P now d movies st Hm Hst.
  apply get_statistics_inv in Hst.
  destruct Hst as (movies' & ratings & Hm' & _ & _ & _ & _ & _ & Htop & _).
  assert (movies' = movies) by congruence. subst movies'.
  rewrite Htop. clear Htop.
  set (tags := genre_tags movies).
  split; [rewrite length_firstn; lia|]. split.
  - intros g n Hin. apply firstn_incl in Hin.
    apply (value_counts_key P string String.eqb tags g n string_eqb_equiv Hin).
  - intros g g' n' Hg Hnot Hin'.
    pose proof (genre_entry P tags g Hg) as Hentry.
    rewrite <- (firstn_skipn 5 (value_counts P string String.eqb tags))
      in Hentry.
    apply in_app_or in Hentry. destruct Hentry as [Hfirst|Hlast].
    + exfalso. apply Hnot. apply in_map_iff.
      exists (g, count_of String.eqb g tags). auto.
    + exact (value_counts_head_m P String.eqb string_eqb_equiv tags 5
               (g', n') (g, count_of String.eqb g tags) Hin' Hlast).
Qed.

Lemma X11_witness :
  exists st,
    Api.get_statistics pandas_first_seen "2024-01-01T00:00:00" demo = Ok st /\
    (List.length (Api.top_genres st) <= 5)%nat.
Proof.
  eexists.
  assert (Hst : Api.get_statistics pandas_first_seen "2024-01-01T00:00:00"
                  demo = Ok ?[st]) by (vm_compute; reflexivity).
  split; [exact Hst|].
  exact (proj1 (X11_top_genres pandas_first_seen "2024-01-01T00:00:00" demo
                  demo_movies _ eq_refl Hst)).
Defined.

(** ** Distributions *)

Lemma insert_by_key_perm (x : Q * nat) (l : list (Q * nat)) :
  Permutation (x :: l) (insert_by_key x l).
Proof.
  induction l as [|y l IH]; simpl.
  - apply Permutation_refl.
  - destruct (Qle_bool (fst x) (fst y)).
    + apply Permutation_refl.
    + eapply perm_trans; [apply perm_swap | apply perm_skip, IH].
Qed.

Lemma sort_index_perm (l : list (Q * nat)) : Permutation l (sort_index l).
Proof.
  induction l as [|x l IH]; simpl.
  - constructor.
  - eapply perm_trans; [apply perm_skip, IH | apply insert_by_key_perm].
Qed.

Lemma insert_by_key_sorted (x : Q * nat) (l : list (Q * nat)) :
  Sorted (fun a b => fst a <= fst b) l ->
  Sorted (fun a b => fst a <= fst b) (insert_by_key x l).
Proof.
  induction l as [|y l IH]; simpl; intros Hs.
  - repeat constructor.
  - destruct (Qle_bool (fst x) (fst y)) eqn:E.
    + constructor; [exact Hs|]. constructor. apply Qle_bool_iff, E.
    + inversion Hs as [|? ? Hs' Hhd]; subst.
      assert (Hyx : fst y <= fst x).
      { destruct (Qlt_le_dec (fst y) (fst x)) as [H|H].
        - apply Qlt_le_weak, H.
        - apply Qle_bool_iff in H. congruence. }
      constructor; [apply IH, Hs'|].
      destruct l as [|z l]; simpl.
      * constructor. exact Hyx.
      * destruct (Qle_bool (fst x) (fst z)).
        -- constructor. exact Hyx.
        -- constructor. inversion Hhd; assumption.
Qed.

Lemma sort_index_sorted (l : list (Q * nat)) :
  Sorted (fun a b => fst a <= fst b) (sort_index l).
Proof.
  induction l as [|x l IH]; simpl.
  - constructor.
  - apply insert_by_key_sorted, IH.
Qed.

(** entries with different keys that come in ascending order come in
    strictly ascending order *)
Lemma sorted_distinct_strict (l : list (Q * nat)) :
  NoDup l ->
  (forall a b, In a l -> In b l -> Qeq_bool (fst a) (fst b) = true -> a = b) ->
  Sorted (fun a b => fst a <= fst b) l ->
  Sorted (fun a b => fst a < fst b) l.
Proof.
  intros Hnd Hdist Hs.
  induction Hs as [|a l Hs IH Hhd]; constructor.
  - apply IH.
    + inversion Hnd; assumption.
    + intros x y Hx Hy. apply Hdist; right; assumption.
  - destruct Hhd as [|b l Hab]; constructor.
    destruct (Qlt_le_dec (fst a) (fst b)) as [Hlt|Hge]; [exact Hlt|].
    exfalso.
    assert (Heq : Qeq_bool (fst a) (fst b) = true)
      by (apply Qeq_bool_iff, Qle_antisym; assumption).
    assert (a = b) by (apply Hdist; simpl; auto).
    subst b. inversion Hnd as [|? ? Hnot _]; subst. apply Hnot. left. reflexivity.
Qed.

Lemma list_sum_perm (l l' : list nat) :
  Permutation l l' -> list_sum l = list_sum l'.
Proof. induction 1; simpl; lia. Qed.

Lemma count_of_rating (ratings : list RatingRow) (q : Q) :
  count_of Qeq_bool q (map r_rating ratings) = ratings_equal_to ratings q.
Proof. apply count_of_map. Qed.

(** X12.  The rating distribution lists the rating values in strictly
    ascending order, each once, with the number of ratings of that value,
    which is at least one; every rating of the table is counted under its
    value; and the counts add up to the number of ratings. *)
Theorem X12_rating_distribution :
  forall (P : Pandas) (d : Data) (ratings : list RatingRow),
    ratings_df d = Some ratings ->
    Sorted (fun a b => fst a < fst b) (App.get_rating_distribution P d) /\
    (forall q n,
        In (q, n) (App.get_rating_distribution P d) ->
        n = ratings_equal_to ratings q /\ (1 <= n)%nat) /\
    (forall r,
        In r ratings ->
        exists q,
          q == r_rating r /\
          In (q, ratings_equal_to ratings q) (App.get_rating_distribution P d)) /\
    list_sum (map snd (App.get_rating_distribution P d)) = List.length ratings.
Proof.
  intros P d ratings Hr. unfold App.get_rating_distribution. rewrite Hr.
  set (col := map r_rating ratings).
  set (vc := value_counts P Q Qeq_bool col).
  pose proof (sort_index_perm vc) as Hperm.
  assert (Hc : forall q, ratings_equal_to ratings q = count_of Qeq_bool q col)
    by (intro q; symmetry; apply count_of_rating).
  split; [|split; [|split]].
  - apply sorted_distinct_strict.
    + eapply Permutation_NoDup; [exact Hperm|].
      apply value_counts_NoDup, Qeq_bool_equiv.
    + intros a b Ha Hb.
      apply (value_counts_distinct P Q Qeq_bool col a b Qeq_bool_equiv).
      * apply (Permutation_in _ (Permutation_sym Hperm)), Ha.
      * apply (Permutation_in _ (Permutation_sym Hperm)), Hb.
    + apply sort_index_sorted.
  - intros q n Hin.
    apply (Permutation_in _ (Permutation_sym Hperm)) in Hin.
    destruct (value_counts_key P Q Qeq_bool col q n Qeq_bool_equiv Hin)
      as [Hq Hn].
    rewrite Hc. split; [exact Hn|].
    subst n. apply count_of_pos; [exact Qeq_bool_equiv | exact Hq].
  - intros r Hin.
    assert (Hcol : In (r_rating r) col) by (apply in_map; exact Hin).
    destruct (value_counts_all P Q Qeq_bool col _ Qeq_bool_equiv Hcol)
      as (q & n & Hq & Heq).
    exists q. split; [apply Qeq_bool_iff, Heq|].
    apply (Permutation_in _ Hperm).
    destruct (value_counts_key P Q Qeq_bool col q n Qeq_bool_equiv Hq)
      as [_ Hn].
    rewrite Hc, <- Hn. exact Hq.
  - rewrite <- (list_sum_perm _ _ (Permutation_map snd Hperm)).
    unfold vc. rewrite (value_counts_total P Qeq_bool Qeq_bool_equiv col).
    apply length_map.
Qed.

Lemma X12_witness :
  Sorted (fun a b => fst a < fst b)
    (App.get_rating_distribution pandas_first_seen demo) /\
  list_sum (map snd (App.get_rating_distribution pandas_first_seen demo))
    = List.length demo_ratings.
Proof.
  destruct (X12_rating_distribution pandas_first_seen demo demo_ratings
              eq_refl) as (H1 & _ & _ & H2).
  split; [exact H1 | exact H2].
Defined.

Example rating_distribution_of_demo :
  map (fun entry => (Qred (fst entry), snd entry))
    (App.get_rating_distribution pandas_first_seen demo)
  = [(7 # 2, 1%nat); (4, 2%nat); (9 # 2, 1%nat); (5, 1%nat)].
Proof. vm_compute. reflexivity. Qed.

(** X13.  The genre distribution lists every genre that is tagged in the
    catalogue exactly once, with the number of times it is tagged; the
    counts come in descending order and add up to the number of tags. *)
Theorem X13_genre_distribution :
  forall (P : Pandas) (d : Data) (movies : list MovieRow),
    movies_df d = Some movies ->
    NoDup (map fst (App.get_genre_distribution P d)) /\
    (forall g n,
        In (g, n) (App.get_genre_distribution P d) <->
        In g (genre_tags movies) /\
        n = count_of String.eqb g (genre_tags movies)) /\
    Sorted (fun a b : string * nat => (snd b <= snd a)%nat)
      (App.get_genre_distribution P d) /\
    list_sum (map snd (App.get_genre_distribution P d))
      = List.length (genre_tags movies).
Proof.
  intros P d movies Hm. unfold App.get_genre_distribution. rewrite Hm.
  fold (genre_tags movies). set (tags := genre_tags movies).
  split; [|split; [|split]].
  - pose proof (value_counts_NoDup P string String.eqb tags string_eqb_equiv)
      as Hnd.
    pose proof (value_counts_distinct P string String.eqb tags) as Hdist.
    induction (value_counts P string String.eqb tags) as [|e vc IH]; simpl.
    + constructor.
    + inversion Hnd as [|? ? Hnot Hnd']; subst. constructor.
      * intros Hin. apply in_map_iff in Hin. destruct Hin as (e' & Hk & He').
        assert (e = e').
        { apply (Hdist e e' string_eqb_equiv); simpl; auto.
          rewrite Hk. apply String.eqb_refl. }
        subst e'. contradiction.
      * apply IH; [exact Hnd'|].
        intros a b H Ha Hb. apply Hdist; [exact H | right | right]; assumption.
  - intros g n. split.
    + apply value_counts_key, string_eqb_equiv.
    + intros [Hg ->]. apply genre_entry, Hg.
  - apply value_counts_sorted, string_eqb_equiv.
  - apply value_counts_total, string_eqb_equiv.
Qed.

Lemma X13_witness :
  NoDup (map fst (App.get_genre_distribution pandas_first_seen demo)) /\
  list_sum (map snd (App.get_genre_distribution pandas_first_seen demo))
    = List.length (genre_tags demo_movies).
Proof.
  destruct (X13_genre_distribution pandas_first_seen demo demo_movies eq_refl)
    as (H1 & _ & _ & H2).
  split; [exact H1 | exact H2].
Defined.

Example genre_distribution_of_demo :
  App.get_genre_distribution pandas_first_seen demo
  = [("Adventure", 2); ("Children", 2); ("Comedy", 2); ("Fantasy", 2);
     ("Animation", 1); ("Romance", 1); ("Action", 1); ("Crime", 1);
     ("Thriller", 1)]%nat%string.
Proof. vm_compute. reflexivity. Qed.

(** ** The statistics of the Streamlit application *)

(** *** The order of the titles *)

Lemma leb_iff (a b : string) :
  String.leb a b = true <-> a = b \/ OrderedTypeEx.String_as_OT.lt a b.
Proof.
  unfold String.leb.
  pose proof (OrderedTypeEx.String_as_OT.cmp_eq a b) as Heq.
  pose proof (OrderedTypeEx.String_as_OT.cmp_lt a b) as Hlt.
  change OrderedTypeEx.String_as_OT.cmp with String.compare in Heq, Hlt.
  destruct (String.compare a b); split; intros H; try reflexivity;
    try discriminate.
  - left. apply Heq. reflexivity.
  - right. apply Hlt. reflexivity.
  - destruct H as [H|H]; [apply Heq in H | apply Hlt in H]; discriminate.
Qed.

Lemma leb_refl (a : string) : String.leb a a = true.
Proof. apply leb_iff. left. reflexivity. Qed.

Lemma leb_trans (a b c : string) :
  String.leb a b = true -> String.leb b c = true -> String.leb a c = true.
Proof.
  rewrite !leb_iff. intros [->|Hab] [->|Hbc]; auto.
  right. eapply OrderedTypeEx.String_as_OT.lt_trans; eassumption.
Qed.

Lemma insert_key_In (k x : string) (l : list string) :
  In x (insert_key k l) <-> x = k \/ In x l.
Proof.
  induction l as [|y l IH]; simpl.
  - intuition.
  - destruct (String.eqb k y) eqn:E.
    + apply String.eqb_eq in E. subst y. simpl. intuition.
    + destruct (String.leb k y); simpl; [intuition|].
      rewrite IH. intuition.
Qed.

Lemma sorted_keys_In (x : string) (l : list string) :
  In x (sorted_keys l) <-> In x l.
Proof.
  induction l as [|k l IH]; simpl; [reflexivity|].
  rewrite insert_key_In, IH. intuition.
Qed.

Lemma insert_key_sorted (k : string) (l : list string) :
  Sorted (fun a b => String.leb a b = true) l ->
  Sorted (fun a b => String.leb a b = true) (insert_key k l).
Proof.
  induction l as [|y l IH]; simpl; intros Hs.
  - repeat constructor.
  - destruct (String.eqb k y); [exact Hs|].
    destruct (String.leb k y) eqn:E.
    + constructor; [exact Hs|]. constructor. exact E.
    + assert (Hyk : String.leb y k = true)
        by (destruct (String.leb_total k y); congruence).
      inversion Hs as [|? ? Hs' Hhd]; subst.
      constructor; [apply IH, Hs'|].
      destruct l as [|z l]; simpl.
      * constructor. exact Hyk.
      * inversion Hhd; subst.
        destruct (String.eqb k z); [constructor; assumption|].
        destruct (String.leb k z); constructor; assumption.
Qed.

Lemma sorted_keys_sorted (l : list string) :
  StronglySorted (fun a b => String.leb a b = true) (sorted_keys l).
Proof.
  apply Sorted_StronglySorted.
  - intros a b c. apply leb_trans.
  - induction l as [|k l IH]; simpl; [constructor|].
    apply insert_key_sorted, IH.
Qed.

(** *** [idxmax] *)

(** [idxmax_from] returns the label of an entry that is greater than the
    entries before it and at least as great as the entries after it *)
Lemma idxmax_from_spec (l pre mid : list (string * Q)) (best : string * Q) :
  Forall (fun y => snd y < snd best) pre ->
  Forall (fun y => snd y <= snd best) mid ->
  exists l1 x l2,
    pre ++ best :: mid ++ l = l1 ++ x :: l2 /\
    idxmax_from best l = fst x /\
    Forall (fun y => snd y < snd x) l1 /\
    Forall (fun y => snd y <= snd x) l2.
Proof.
  revert pre mid best. induction l as [|y l IH]; intros pre mid best Hpre Hmid.
  - exists pre, best, mid. rewrite app_nil_r. simpl. auto.
  - simpl. destruct (Qle_bool (snd y) (snd best)) eqn:E.
    + apply Qle_bool_iff in E.
      destruct (IH pre (mid ++ [y]) best Hpre) as (l1 & x & l2 & H1 & H2 & H3).
      * apply Forall_app. split; [exact Hmid|]. constructor; [exact E|constructor].
      * exists l1, x, l2. rewrite <- H1, <- app_assoc. simpl. auto.
    + assert (Hlt : snd best < snd y).
      { destruct (Qlt_le_dec (snd best) (snd y)) as [H|H]; [exact H|].
        apply Qle_bool_iff in H. congruence. }
      destruct (IH (pre ++ best :: mid) [] y) as (l1 & x & l2 & H1 & H2 & H3).
      * apply Forall_app. split.
        -- eapply Forall_impl; [|exact Hpre]. simpl. intros a Ha.
           eapply Qlt_trans; eassumption.
        -- constructor; [exact Hlt|].
           eapply Forall_impl; [|exact Hmid]. simpl. intros a Ha.
           eapply Qle_lt_trans; eassumption.
      * constructor.
      * exists l1, x, l2. rewrite <- H1, <- app_assoc. simpl. auto.
Qed.

Lemma idxmax_spec (l : list (string * Q)) :
  l <> [] ->
  exists l1 x l2,
    l = l1 ++ x :: l2 /\
    idxmax l = Ok (fst x) /\
    Forall (fun y => snd y < snd x) l1 /\
    Forall (fun y => snd y <= snd x) l2.
Proof.
  destruct l as [|best l]; [congruence|]. intros _.
  destruct (idxmax_from_spec l [] [] best) as (l1 & x & l2 & H1 & H2 & H3);
    [constructor | constructor |].
  exists l1, x, l2. simpl in *. rewrite H2. auto.
Qed.

(** *** The join *)

Lemma dropna_keys_app {V : Type} (a b : list (option string * V)) :
  dropna_keys (a ++ b) = dropna_keys a ++ dropna_keys b.
Proof. apply flat_map_app. Qed.

(** the ratings that the join attaches to a title *)
Lemma group_values_joined (ratings : list RatingRow) (movies : list MovieRow)
    (t : string) :
  group_values
    (dropna_keys
       (map (fun row : RatingRow * MovieRow =>
               (row_title (snd row), r_rating (fst row)))
          (App.merge_on_movieId ratings movies))) t
  = ratings_of_title ratings movies t.
Proof.
  unfold group_values, App.merge_on_movieId, ratings_of_title.
  induction ratings as [|r ratings IH]; simpl; [reflexivity|].
  rewrite map_app, dropna_keys_app, filter_app, map_app, IH. f_equal.
  clear IH. induction movies as [|m movies IHm]; simpl; [reflexivity|].
  unfold title_is at 1.
  destruct (row_movieId m =? r_movieId r)%Z; simpl; [|exact IHm].
  destruct (row_title m) as [t'|]; simpl; [|exact IHm].
  destruct (String.eqb t' t); simpl; [f_equal|]; exact IHm.
Qed.

Lemma group_values_nonempty (rows : list (string * Q)) (t : string) :
  In t (map fst rows) <-> group_values rows t <> [].
Proof.
  unfold group_values. induction rows as [|[k v] rows IH]; simpl.
  - split; [intros [] | congruence].
  - destruct (String.eqb k t) eqn:E; simpl.
    + apply String.eqb_eq in E. split; [discriminate | auto].
    + rewrite <- IH. split; [|auto].
      intros [H|H]; [|exact H]. subst k. rewrite String.eqb_refl in E.
      discriminate.
Qed.

Lemma group_values_count (rows : list (string * Q)) (t : string) :
  count_of String.eqb t (map fst rows) = List.length (group_values rows t).
Proof.
  unfold group_values. rewrite count_of_map, length_map. f_equal.
  apply filter_ext. intros row. apply String.eqb_sym.
Qed.

Lemma sorted_keys_nil (l : list string) : sorted_keys l = [] -> l = [].
Proof.
  destruct l as [|k l]; [reflexivity|]. intros E. exfalso.
  assert (H : In k (sorted_keys (k :: l)))
    by (apply sorted_keys_In; left; reflexivity).
  rewrite E in H. destruct H.
Qed.

(** X14.  With both tables loaded, the statistics of the application are
    computed exactly when some rating belongs to a movie that has a title;
    when none does (no ratings at all, for one) the call raises the
    ValueError of [idxmax] on an empty series, where the same call without
    tables returns the empty dictionary. *)
Theorem X14_movie_stats_need_a_rated_title :
  forall (P : Pandas) (d : Data) (movies : list MovieRow)
         (ratings : list RatingRow),
    movies_df d = Some movies ->
    ratings_df d = Some ratings ->
    ((exists t, ratings_of_title ratings movies t <> []) ->
     exists s, App.get_movie_stats P d = Ok (Some s)) /\
    ((forall t, ratings_of_title ratings movies t = []) ->
     App.get_movie_stats P d
     = Err (ValueError "attempt to get argmax of an empty sequence")).
Proof.
  intros P d movies ratings Hm Hr. unfold App.get_movie_stats.
  rewrite Hm, Hr.
  set (titled := map (fun row : RatingRow * MovieRow =>
                        (row_title (snd row), r_rating (fst row)))
                   (App.merge_on_movieId ratings movies)).
  assert (Hg : forall t, group_values (dropna_keys titled) t
                         = ratings_of_title ratings movies t)
    by (intro t; apply group_values_joined).
  split.
  - intros [t Ht]. rewrite <- Hg in Ht. apply group_values_nonempty in Ht.
    assert (Hne : groupby_mean titled <> []).
    { unfold groupby_mean. intros E. apply map_eq_nil, sorted_keys_nil in E.
      rewrite E in Ht. destruct Ht. }
    destruct (idxmax_spec _ Hne) as (l1 & x & l2 & _ & -> & _).
    destruct (value_counts P string String.eqb (map fst (dropna_keys titled)))
      as [|[k n] rest] eqn:E.
    + exfalso. revert E. apply value_counts_nonempty.
      * exact string_eqb_equiv.
      * intros E. rewrite E in Ht. destruct Ht.
    + simpl. eexists. reflexivity.
  - intros Hnone.
    assert (Hnil : map fst (dropna_keys titled) = []).
    { destruct (map fst (dropna_keys titled)) as [|t l] eqn:E; [reflexivity|].
      exfalso.
      assert (Hin : In t (map fst (dropna_keys titled)))
        by (rewrite E; left; reflexivity).
      apply group_values_nonempty in Hin. apply Hin. rewrite Hg. apply Hnone. }
    unfold groupby_mean. rewrite Hnil. reflexivity.
Qed.

Lemma X14_witness :
  App.get_movie_stats pandas_first_seen (mkData (Some demo_movies) (Some []))
  = Err (ValueError "attempt to get argmax of an empty sequence").
Proof.
  apply (X14_movie_stats_need_a_rated_title pandas_first_seen
           (mkData (Some demo_movies) (Some [])) demo_movies []);
    reflexivity.
Defined.

(** X15.  In the statistics of the application the top-rated movie is a
    title with a rating and the most-rated movie is a title with the
    greatest number of ratings.  When the ratings are in half stars, from
    0.5 to 5, and the join has fewer than 2**24 rows, the top-rated movie
    is the title whose mean rating is the greatest, and among the titles
    of that mean the first in the order of the strings.  (On such tables
    the sums that pandas forms in binary64 are exact and two different
    means are further apart than the rounding of the division, so that
    the comparison of the rounded means is the comparison of the means; on
    other tables the rounding can decide, which is not followed here.) *)
Theorem X15_top_rated_and_most_rated :
  forall (P : Pandas) (d : Data) (movies : list MovieRow)
         (ratings : list RatingRow) (s : App.MovieStats),
    movies_df d = Some movies ->
    ratings_df d = Some ratings ->
    App.get_movie_stats P d = Ok (Some s) ->
    let rated := ratings_of_title ratings movies in
    rated (App.top_rated_movie s) <> [] /\
    (Forall (fun r => half_star (r_rating r) = true) ratings ->
     (Z.of_nat (List.length (App.merge_on_movieId ratings movies)) < 2 ^ 24)%Z ->
     forall t, rated t <> [] ->
               mean (rated t) <= mean (rated (App.top_rated_movie s)) /\
               (mean (rated t) == mean (rated (App.top_rated_movie s)) ->
                String.leb (App.top_rated_movie s) t = true)) /\
    rated (App.most_rated_movie s) <> [] /\
    (forall t, (List.length (rated t)
                <= List.length (rated (App.most_rated_movie s)))%nat).
Proof.
  intros P d movies ratings s Hm Hr. unfold App.get_movie_stats.
  rewrite Hm, Hr.
  set (titled := map (fun row : RatingRow * MovieRow =>
                        (row_title (snd row), r_rating (fst row)))
                   (App.merge_on_movieId ratings movies)).
  assert (Hg : forall t, group_values (dropna_keys titled) t
                         = ratings_of_title ratings movies t)
    by (intro t; apply group_values_joined).
  set (present := dropna_keys titled) in *.
  destruct (groupby_mean titled) as [|g0 gs] eqn:Eg; [discriminate|].
  destruct (idxmax_spec (g0 :: gs)) as (l1 & x & l2 & Hsplit & Hidx & Hlt & Hle);
    [discriminate|].
  rewrite Hidx.
  destruct (value_counts P string String.eqb (map fst present))
    as [|[k n] rest] eqn:Evc; simpl; [discriminate|].
  intros Hs. injection Hs as <-. simpl.
  set (rated := ratings_of_title ratings movies).
  unfold groupby_mean in Eg. fold present in Eg.
  assert (Hentry : forall y, In y (g0 :: gs) ->
                             In (fst y) (map fst present) /\
                             snd y = mean (rated (fst y))).
  { intros y Hy. rewrite <- Eg in Hy. apply in_map_iff in Hy.
    destruct Hy as (key & <- & Hkey). simpl.
    apply (proj1 (sorted_keys_In _ _)) in Hkey. split; [exact Hkey|].
    unfold rated. rewrite <- Hg. reflexivity. }
  assert (Hkeys : map fst (g0 :: gs) = sorted_keys (map fst present)).
  { rewrite <- Eg, map_map. simpl. apply map_id. }
  assert (Hx : In x (g0 :: gs))
    by (rewrite Hsplit; apply in_or_app; right; left; reflexivity).
  destruct (Hentry x Hx) as [Hxin Hxmean].
  split; [|split; [|split]].
  - unfold rated. rewrite <- Hg. apply group_values_nonempty, Hxin.
  - intros _ _ t Ht. unfold rated in Ht. rewrite <- Hg in Ht.
    apply (proj2 (group_values_nonempty _ _)) in Ht.
    apply (proj2 (sorted_keys_In _ _)) in Ht.
    assert (Hin : In (t, mean (rated t)) (g0 :: gs)).
    { rewrite <- Eg. apply in_map_iff. exists t. split; [|exact Ht].
      unfold rated. rewrite <- Hg. reflexivity. }
    rewrite <- Hxmean. rewrite Hsplit in Hin.
    apply in_app_or in Hin. destruct Hin as [Hin|[Hin|Hin]].
    + rewrite Forall_forall in Hlt. specialize (Hlt _ Hin). simpl in Hlt.
      split; [apply Qlt_le_weak, Hlt|].
      intros Heq. rewrite Heq in Hlt. exfalso. revert Hlt. apply Qlt_irrefl.
    + subst x. simpl. split; [apply Qle_refl | intros _; apply leb_refl].
    + rewrite Forall_forall in Hle. specialize (Hle _ Hin). simpl in Hle.
      split; [exact Hle|]. intros _.
      pose proof (sorted_keys_sorted (map fst present)) as Hsorted.
      rewrite <- Hkeys, Hsplit, map_app in Hsorted. simpl in Hsorted.
      clear - Hsorted Hin.
      induction l1 as [|a l1 IH]; simpl in Hsorted.
      * inversion Hsorted as [|? ? _ Hall]; subst.
        rewrite Forall_forall in Hall. apply Hall.
        apply in_map_iff. exists (t, mean (rated t)). split; [reflexivity|exact Hin].
      * inversion Hsorted; subst. apply IH. assumption.
  - destruct (value_counts_head P String.eqb string_eqb_equiv _ _ _ _ Evc)
      as (Hk & _ & _).
    unfold rated. rewrite <- Hg. apply group_values_nonempty, Hk.
  - intros t.
    destruct (value_counts_head P String.eqb string_eqb_equiv _ _ _ _ Evc)
      as (Hk & Hn & Hmax).
    unfold rated. rewrite <- !Hg, <- !group_values_count. fold present.
    rewrite <- Hn.
    destruct (in_dec string_dec t (map fst present)) as [Hin|Hout].
    + apply Hmax, Hin.
    + unfold count_of. replace (filter (String.eqb t) (map fst present)) with (@nil string); [simpl; lia|].
      symmetry. apply filter_nil_iff, Forall_forall. intros y Hy.
      destruct (String.eqb t y) eqn:E; [|reflexivity].
      apply String.eqb_eq in E. subst y. contradiction.
Qed.

Lemma X15_witness :
  exists s,
    App.get_movie_stats pandas_first_seen demo = Ok (Some s) /\
    ratings_of_title demo_ratings demo_movies (App.top_rated_movie s) <> [] /\
    (forall t,
        ratings_of_title demo_ratings demo_movies t <> [] ->
        mean (ratings_of_title demo_ratings demo_movies t)
        <= mean (ratings_of_title demo_ratings demo_movies
                   (App.top_rated_movie s))) /\
    forall t,
      (List.length (ratings_of_title demo_ratings demo_movies t)
       <= List.length (ratings_of_title demo_ratings demo_movies
                         (App.most_rated_movie s)))%nat.
Proof.
  eexists.
  assert (Hst : App.get_movie_stats pandas_first_seen demo = Ok (Some ?[s]))
    by (vm_compute; reflexivity).
  split; [exact Hst|].
  destruct (X15_top_rated_and_most_rated pandas_first_seen demo demo_movies
              demo_ratings _ eq_refl eq_refl Hst) as (H1 & H2 & _ & H4).
  assert (Hhalf : Forall (fun r => half_star (r_rating r) = true) demo_ratings)
    by (repeat constructor).
  assert (Hsize : (Z.of_nat (List.length
                               (App.merge_on_movieId demo_ratings demo_movies))
                   < 2 ^ 24)%Z) by (vm_compute; reflexivity).
  split; [exact H1|]. split; [|exact H4].
  intros t Ht. exact (proj1 (H2 Hhalf Hsize t Ht)).
Defined.

Example movie_stats_of_demo :
  option_map (fun s => (App.top_rated_movie s, App.most_rated_movie s))
    (match App.get_movie_stats pandas_first_seen demo with
     | Ok s => s
     | Err _ => None
     end)
  = Some ("Toy Story (1995)", "Toy Story (1995)")%string.
Proof. vm_compute. reflexivity. Qed.

(** ** Searching with a plain query *)

Lemma holds_strings_titled (movies : list MovieRow) (m : MovieRow) :
  In m movies -> row_title m <> None ->
  holds_strings (map row_title movies) = true.
Proof.
  intros Hin Ht. unfold holds_strings.
  destruct (map row_title movies) as [|c col] eqn:E; [reflexivity|].
  rewrite <- E. apply negb_true_iff.
  destruct (forallb is_missing (map row_title movies)) eqn:F; [|reflexivity].
  exfalso. rewrite forallb_forall in F.
  specialize (F (row_title m) (in_map row_title movies m Hin)).
  destruct (row_title m); [discriminate | congruence].
Qed.

Lemma holds_strings_untitled (movies : list MovieRow) :
  movies <> [] ->
  Forall (fun m => row_title m = None) movies ->
  holds_strings (map row_title movies) = false.
Proof.
  intros Hne Hall. unfold holds_strings.
  destruct movies as [|m0 movies]; [congruence|].
  change (map row_title (m0 :: movies))
    with (row_title m0 :: map row_title movies) at 1.
  cbv iota. apply negb_false_iff, forallb_forall.
  intros c Hc. apply in_map_iff in Hc. destruct Hc as (m & <- & Hm).
  rewrite Forall_forall in Hall. rewrite (Hall m Hm). reflexivity.
Qed.

(** X16.  The search of the Streamlit application answers the empty query
    with no rows.  When the catalogue has rows and none has a title it
    raises the AttributeError of the accessor [.str].  On a catalogue with
    a title in it, a query without characters that are special in a
    pattern is answered with the rows whose title contains the query,
    letter case ignored, in catalogue order, rows without title never
    among them; this is stated for titles and queries in ASCII, where the
    folding of letter case is followed exactly. *)
Theorem X16_plain_query_is_searched_as_a_substring :
  forall (d : Data) (movies : list MovieRow) (query : string),
    movies_df d = Some movies ->
    App.search_movies d EmptyString = Ok [] /\
    (query <> EmptyString ->
     movies <> [] ->
     Forall (fun m => row_title m = None) movies ->
     App.search_movies d query
     = Err (AttributeError "Can only use .str accessor with string values!")) /\
    (query <> EmptyString ->
     literal query = true ->
     ascii_text query = true ->
     ascii_titles movies ->
     (exists m, In m movies /\ row_title m <> None) ->
     App.search_movies d query = Ok (filter (title_matches query) movies)).
Proof.
  intros d movies query Hm. unfold App.search_movies. rewrite Hm.
  split; [reflexivity|]. split.
  - intros Hne Hrows Hnone.
    assert (Hlen : (String.length query <> 0)%nat)
      by (destruct query; [congruence | simpl; lia]).
    destruct (Nat.eqb_spec (String.length query) 0); [lia|].
    unfold str_contains.
    rewrite (holds_strings_untitled movies Hrows Hnone). reflexivity.
  - intros Hne Hq _ _ (m & Hin & Ht).
    assert (Hlen : (String.length query <> 0)%nat)
      by (destruct query; [congruence | simpl; lia]).
    destruct (Nat.eqb_spec (String.length query) 0); [lia|].
    destruct (str_contains_literal movies query
                (holds_strings_titled movies m Hin Ht) Hq)
      as (mask & Hmask & Hidx).
    rewrite Hmask, Hidx. reflexivity.
Qed.

Lemma X16_witness :
  App.search_movies demo "STORY"
  = Ok (filter (title_matches "STORY") demo_movies).
Proof.
  apply (proj2 (proj2 (X16_plain_query_is_searched_as_a_substring
                         demo demo_movies "STORY" eq_refl))).
  - discriminate.
  - reflexivity.
  - reflexivity.
  - repeat constructor.
  - exists (mkMovieRow 6 (Some "Heat (1995)"%string) "Action|Crime|Thriller").
    split; [simpl; auto 10 | discriminate].
Defined.

Example search_story :
  App.search_movies demo "STORY"
  = Ok [mkMovieRow 1 (Some "Toy Story (1995)"%string)
          "Adventure|Animation|Children|Comedy|Fantasy"].
Proof. reflexivity. Qed.

(** ** What the recommendations are made of *)

Lemma take_rows_In {A : Type} (rows : list A) (ps : list nat) (rs : list A)
    (r : A) :
  take_rows rows ps = Ok rs ->
  In r rs ->
  exists p, In p ps /\ nth_error rows p = Some r.
Proof.
  revert rs. induction ps as [|p ps IH]; simpl; intros rs H Hin.
  - inversion H; subst. destruct Hin.
  - destruct (nth_error rows p) as [r0|] eqn:E; [|discriminate].
    destruct (take_rows rows ps) as [rs'|]; [|discriminate].
    inversion H; subst. destruct Hin as [->|Hin].
    + exists p. auto.
    + destruct (IH rs' eq_refl Hin) as (p' & Hp' & Hn). exists p'. auto.
Qed.

(** rows taken at distinct positions of a frame with distinct keys have
    distinct keys *)
Lemma take_rows_NoDup {A B : Type} (f : A -> B) (rows : list A)
    (ps : list nat) (rs : list A) :
  take_rows rows ps = Ok rs ->
  NoDup ps ->
  NoDup (map f rows) ->
  NoDup (map f rs).
Proof.
  intros H Hps Hrows. revert rs H.
  induction Hps as [|p ps Hnot Hps IH]; simpl; intros rs H.
  - inversion H; subst. constructor.
  - destruct (nth_error rows p) as [r|] eqn:E; [|discriminate].
    destruct (take_rows rows ps) as [rs'|] eqn:Ers; [|discriminate].
    inversion H; subst. simpl. constructor; [|apply IH; reflexivity].
    intros Hin. apply in_map_iff in Hin. destruct Hin as (r' & Hf & Hr').
    destruct (take_rows_In rows ps rs' r' Ers Hr') as (p' & Hp' & E').
    assert (p = p').
    { apply (proj1 (NoDup_nth_error (map f rows)) Hrows).
      - rewrite length_map. apply nth_error_Some. congruence.
      - rewrite !nth_error_map, E, E'. simpl. congruence. }
    subst p'. contradiction.
Qed.

Section RowsFacts.

Variable G : RandomState.

Lemma df_sample_positions {A : Type} (rows rs : list A) (k : Z)
    (s s' : rng G) :
  df_sample G rows k s = (Ok rs, s') ->
  exists ps, NoDup ps /\ take_rows rows ps = Ok rs.
Proof.
  unfold df_sample. intros H.
  destruct (Z.ltb_spec k 0); [discriminate|].
  destruct (Z.ltb_spec (Z.of_nat (List.length rows)) k); [discriminate|].
  assert (Hle : (Z.to_nat k <= List.length rows)%nat) by lia.
  pose proof (sample_positions_NoDup G _ _ s Hle) as Hnd.
  destruct (sample_positions G (List.length rows) (Z.to_nat k) s) as [ps s1].
  simpl in Hnd. injection H as Hrs _. exists ps. auto.
Qed.

Lemma df_sample_rows {A B : Type} (f : A -> B) (rows rs : list A) (k : Z)
    (s s' : rng G) :
  df_sample G rows k s = (Ok rs, s') ->
  Forall (fun r => In r rows) rs /\
  (NoDup (map f rows) -> NoDup (map f rs)).
Proof.
  intros H. destruct (df_sample_positions rows rs k s s' H) as (ps & Hnd & Hrs).
  split.
  - apply (take_rows_spec rows ps rs Hrs).
  - intros Hrows. exact (take_rows_NoDup f rows ps rs Hrs Hnd Hrows).
Qed.

Lemma recommend_row_built (movie : MovieRow) (s s' : rng G)
    (r : Api.Recommendation) :
  Api.recommend_row G movie s = (Ok r, s') ->
  recommends movie r /\
  (0.5 <= Api.score r /\ Api.score r < 0.9) /\
  In (Api.reason r) Api.reasons.
Proof.
  unfold Api.recommend_row. np_unfold.
  pose proof (random_sample_ge G s) as Hge.
  pose proof (random_sample_lt G s) as Hlt.
  destruct (random_sample G s) as [x s1]. simpl in *.
  assert (Hi : (fst (choice_index G 5 s1) < 5)%nat)
    by (apply choice_index_lt; lia).
  destruct (choice_index G 5 s1) as [i s2]. simpl in Hi.
  unfold Api.Recommendation_new.
  destruct (row_title movie) as [t|] eqn:Et; [|discriminate].
  destruct (Qle_bool 0 (0.5 + 0.4 * x) && Qle_bool (0.5 + 0.4 * x) 1);
    [|discriminate].
  intros H. injection H as <- _. unfold recommends. simpl.
  split; [auto|]. split; [split; lra|].
  destruct i as [|[|[|[|[|i]]]]]; [auto 10 .. | lia].
Qed.

Lemma recommend_rows_built (rows : list MovieRow) :
  forall (s s' : rng G) recs,
    Api.recommend_rows G rows s = (Ok recs, s') ->
    Forall2 (fun row r =>
               recommends row r /\
               (0.5 <= Api.score r /\ Api.score r < 0.9) /\
               In (Api.reason r) Api.reasons) rows recs.
Proof.
  induction rows as [|movie rows IH]; simpl; intros s s' recs H.
  - np_unfold. inversion H; subst. constructor.
  - unfold bind at 1 in H.
    destruct (Api.recommend_row G movie s) as [[r|e] s1] eqn:Er;
      [|discriminate].
    unfold bind at 1 in H.
    destruct (Api.recommend_rows G rows s1) as [[rs|e] s2] eqn:Ers;
      [|discriminate].
    unfold ret in H. inversion H; subst.
    constructor; [exact (recommend_row_built movie s s1 r Er)|].
    exact (IH s1 s' rs Ers).
Qed.

Lemma score_rows_built (rows : list MovieRow) :
  forall (s s' : rng G) built,
    App.score_rows G rows s = (Ok built, s') ->
    Forall2 (fun row r =>
               suggests row r /\
               (0.7 <= App.score r /\ App.score r < 0.95) /\
               App.reason r = "Basé sur vos préférences"%string) rows built.
Proof.
  induction rows as [|movie rows IH]; simpl; intros s s' built H.
  - np_unfold. inversion H; subst. constructor.
  - np_unfold.
    pose proof (random_sample_ge G s) as Hge.
    pose proof (random_sample_lt G s) as Hlt.
    destruct (random_sample G s) as [x s1]. simpl in Hge, Hlt.
    destruct (App.score_rows G rows s1) as [[rs|e] s2] eqn:Ers;
      [|discriminate].
    inversion H; subst.
    constructor; [|exact (IH s1 s' rs Ers)].
    unfold suggests. simpl. split; [auto|]. split; [split; lra | reflexivity].
Qed.

Lemma Forall2_In_r {A B : Type} (R : A -> B -> Prop) (l : list A)
    (l' : list B) (b : B) :
  Forall2 R l l' -> In b l' -> exists a, In a l /\ R a b.
Proof.
  induction 1 as [|a0 b0 l l' H0 _ IH]; simpl; intros Hin; [destruct Hin|].
  destruct Hin as [->|Hin].
  - exists a0. auto.
  - destruct (IH Hin) as (a & Ha & HR). exists a. auto.
Qed.

Lemma Forall2_map_eq {A B C : Type} (R : A -> B -> Prop) (f : A -> C)
    (g : B -> C) (l : list A) (l' : list B) :
  (forall a b, R a b -> g b = f a) ->
  Forall2 R l l' -> map g l' = map f l.
Proof.
  intros HR. induction 1 as [|a b l l' H0 _ IH]; simpl; [reflexivity|].
  rewrite IH, (HR a b H0). reflexivity.
Qed.

(** the lists the two functions return, against the rows sampled *)
Lemma get_user_recommendations_built (d : Data) (movies : list MovieRow)
    (user_id n : Z) (s s' : rng G) (recs : list Api.Recommendation) :
  movies_df d = Some movies ->
  Api.get_user_recommendations G d user_id n s = (Ok recs, s') ->
  exists sample built,
    Forall (fun row => In row movies) sample /\
    (NoDup (map row_movieId movies) -> NoDup (map row_movieId sample)) /\
    Forall2 (fun row r =>
               recommends row r /\
               (0.5 <= Api.score r /\ Api.score r < 0.9) /\
               In (Api.reason r) Api.reasons) sample built /\
    Permutation built recs.
Proof.
  intros Hm H. apply get_user_recommendations_ranked in H.
  destruct H as (movies' & sample & s1 & built & Hm' & Hs & Hb & _ & Hp & _).
  assert (movies' = movies) by congruence. subst movies'.
  exists sample, built.
  destruct (df_sample_rows row_movieId movies sample _ _ _ Hs) as [Hin Hnd].
  split; [exact Hin|]. split; [exact Hnd|]. split; [|exact Hp].
  exact (recommend_rows_built sample _ _ built Hb).
Qed.

Lemma get_recommendations_built (d : Data) (movies : list MovieRow)
    (user_id : option Z) (movie_title : option string) (n : Z)
    (s s' : rng G) (recs : list App.RecDict) :
  movies_df d = Some movies ->
  App.get_recommendations G d user_id movie_title n s = (Ok recs, s') ->
  exists sample built,
    Forall (fun row => In row movies) sample /\
    (NoDup (map row_title movies) -> NoDup (map row_title sample)) /\
    Forall2 (fun row r =>
               suggests row r /\
               (0.7 <= App.score r /\ App.score r < 0.95) /\
               App.reason r = "Basé sur vos préférences"%string)
      sample built /\
    Permutation built recs.
Proof.
  intros Hm H.
  destruct (get_recommendations_ranked G d movies user_id movie_title n
              s s' recs Hm H) as (sample & s1 & built & Hs & Hb & _ & Hp & _).
  exists sample, built.
  destruct (df_sample_rows row_title movies sample _ _ _ Hs) as [Hin Hnd].
  split; [exact Hin|]. split; [exact Hnd|]. split; [|exact Hp].
  exact (score_rows_built sample _ _ built Hb).
Qed.

End RowsFacts.

(** X17.  What [get_user_recommendations] answers depends on the
    catalogue, the user id and [n] only: not on the state the generator is
    in when the call is made, nor on the ratings, so that a rating that has
    been added changes the recommendations of no user. *)
Theorem X17_recommendations_depend_on_the_catalogue_only :
  forall (G : RandomState) (d d' : Data) (user_id n : Z) (s s' : rng G),
    (movies_df d' = movies_df d ->
     movies_df d <> None ->
     fst (Api.get_user_recommendations G d' user_id n s')
     = fst (Api.get_user_recommendations G d user_id n s)) /\
    (forall body now row,
        Api.add_rating body now d = (Ok row, d') ->
        fst (Api.get_user_recommendations G d' user_id n s')
        = fst (Api.get_user_recommendations G d user_id n s)).
Proof.
  intros G d d' user_id n s s'.
  assert (Hsame : forall movies r1 r2,
             fst (Api.get_user_recommendations G (mkData (Some movies) r1)
                    user_id n s')
             = fst (Api.get_user_recommendations G (mkData (Some movies) r2)
                      user_id n s)).
  { intros movies r1 r2.
    rewrite (get_user_recommendations_ignores_ratings G movies r1 r2).
    apply api_recommendations_deterministic. }
  split.
  - intros Heq Hne. destruct d as [[movies|] r]; [|simpl in Hne; congruence].
    destruct d' as [m' r']. simpl in Heq. subst m'. apply Hsame.
  - intros body now row Hadd.
    destruct (add_rating_ok_inv body now d d' row Hadd)
      as (ratings & Hr & _ & ->).
    destruct d as [[movies|] r]; simpl.
    + apply Hsame.
    + unfold Api.get_user_recommendations. simpl.
      destruct ((n <? 1) || (50 <? n))%Z; reflexivity.
Qed.

Lemma X17_witness :
  exists row d',
    Api.add_rating (Api.mkRating 7 6 4.5 None) 1700000000 demo = (Ok row, d') /\
    fst (Api.get_user_recommendations lcg d' 7 3 12345%Z)
    = fst (Api.get_user_recommendations lcg demo 7 3 0%Z).
Proof.
  eexists; eexists.
  assert (Hadd : Api.add_rating (Api.mkRating 7 6 4.5 None) 1700000000 demo
                 = (Ok ?[row], ?[d'])) by (vm_compute; reflexivity).
  split; [exact Hadd|].
  exact (proj2 (X17_recommendations_depend_on_the_catalogue_only lcg demo _
                  7 3 0%Z 12345%Z) _ _ _ Hadd).
Defined.

(** X18.  Every recommendation carries the id, the title and the genres
    (for the Streamlit method the title and the genres) of a row of the
    catalogue, and the rows are sampled without replacement: when the ids
    of the catalogue are distinct no movie is recommended twice by the API,
    and when its titles are distinct no title is shown twice by the
    Streamlit method. *)
Theorem X18_recommendations_are_distinct_catalogue_rows :
  forall (G : RandomState) (d : Data) (movies : list MovieRow) (n : Z)
         (s s' : rng G),
    movies_df d = Some movies ->
    (forall user_id recs,
        Api.get_user_recommendations G d user_id n s = (Ok recs, s') ->
        (forall r, In r recs ->
                   exists row, In row movies /\ recommends row r) /\
        (NoDup (map row_movieId movies) ->
         NoDup (map Api.rec_movieId recs))) /\
    (forall user_id movie_title recs,
        App.get_recommendations G d user_id movie_title n s = (Ok recs, s') ->
        (forall r, In r recs ->
                   exists row, In row movies /\ suggests row r) /\
        (NoDup (map row_title movies) -> NoDup (map App.title recs))).
Proof.
  intros G d movies n s s' Hm. split.
  - intros user_id recs H.
    destruct (get_user_recommendations_built G d movies user_id n s s' recs
                Hm H) as (sample & built & Hin & Hnd & Hb & Hp).
    split.
    + intros r Hr.
      apply (Permutation_in _ (Permutation_sym Hp)) in Hr.
      destruct (Forall2_In_r _ _ _ _ Hb Hr) as (row & Hrow & Hrec & _).
      exists row. split; [|exact Hrec].
      rewrite Forall_forall in Hin. apply Hin, Hrow.
    + intros Hids.
      apply (Permutation_NoDup (Permutation_map Api.rec_movieId Hp)).
      rewrite (Forall2_map_eq _ row_movieId Api.rec_movieId sample built
                 (fun a b H => proj1 (proj1 H)) Hb).
      apply Hnd, Hids.
  - intros user_id movie_title recs H.
    destruct (get_recommendations_built G d movies user_id movie_title n
                s s' recs Hm H) as (sample & built & Hin & Hnd & Hb & Hp).
    split.
    + intros r Hr.
      apply (Permutation_in _ (Permutation_sym Hp)) in Hr.
      destruct (Forall2_In_r _ _ _ _ Hb Hr) as (row & Hrow & Hrec & _).
      exists row. split; [|exact Hrec].
      rewrite Forall_forall in Hin. apply Hin, Hrow.
    + intros Hts.
      apply (Permutation_NoDup (Permutation_map App.title Hp)).
      rewrite (Forall2_map_eq _ row_title App.title sample built
                 (fun a b H => proj1 (proj1 H)) Hb).
      apply Hnd, Hts.
Qed.

Lemma X18_witness :
  exists recs s',
    Api.get_user_recommendations lcg demo 7 3 0%Z = (Ok recs, s') /\
    NoDup (map Api.rec_movieId recs).
Proof.
  eexists; eexists.
  assert (Hrec : Api.get_user_recommendations lcg demo 7 3 0%Z
                 = (Ok ?[recs], ?[s'])) by (vm_compute; reflexivity).
  split; [exact Hrec|].
  apply (proj1 (X18_recommendations_are_distinct_catalogue_rows lcg demo
                  demo_movies 3 0%Z _ eq_refl) 7%Z _ Hrec).
  repeat constructor; simpl; intuition discriminate.
Defined.

(** X19.  The scores of the API lie from 0.5 (included) to 0.9 (excluded)
    and its reasons are among the five the handler lists; the scores of the
    Streamlit method lie from 0.7 to 0.95, both included, and its reason is
    always the same.  (The upper end 0.95 is included because the sum
    [0.7 + 0.25 * random()] is rounded in binary64 and can reach it; the
    greatest score of the API is a float below 0.9.) *)
Theorem X19_scores_and_reasons :
  forall (G : RandomState) (d : Data) (n : Z) (s s' : rng G),
    (forall user_id recs,
        Api.get_user_recommendations G d user_id n s = (Ok recs, s') ->
        Forall (fun r => (0.5 <= Api.score r /\ Api.score r < 0.9) /\
                         In (Api.reason r) Api.reasons) recs) /\
    (forall user_id movie_title recs,
        App.get_recommendations G d user_id movie_title n s = (Ok recs, s') ->
        Forall (fun r => (0.7 <= App.score r /\ App.score r <= 0.95) /\
                         App.reason r = "Basé sur vos préférences"%string)
          recs).
Proof.
  intros G d n s s'. split.
  - intros user_id recs H.
    destruct (get_user_recommendations_inv G d user_id n s s' recs H)
      as (movies & Hm & _).
    destruct (get_user_recommendations_built G d movies user_id n s s' recs
                Hm H) as (sample & built & _ & _ & Hb & Hp).
    apply Forall_forall. intros r Hr.
    apply (Permutation_in _ (Permutation_sym Hp)) in Hr.
    destruct (Forall2_In_r _ _ _ _ Hb Hr) as (row & _ & _ & Hrange).
    exact Hrange.
  - intros user_id movie_title recs H.
    destruct (movies_df d) as [movies|] eqn:Hm.
    + destruct (get_recommendations_built G d movies user_id movie_title n
                  s s' recs Hm H) as (sample & built & _ & _ & Hb & Hp).
      apply Forall_forall. intros r Hr.
      apply (Permutation_in _ (Permutation_sym Hp)) in Hr.
      destruct (Forall2_In_r _ _ _ _ Hb Hr)
        as (row & _ & _ & (Hlo & Hhi) & Hwhy).
      split; [split; [exact Hlo | apply Qlt_le_weak, Hhi] | exact Hwhy].
    + unfold App.get_recommendations in H. rewrite Hm in H.
      unfold ret in H. inversion H; subst. constructor.
Qed.

Lemma X19_witness :
  (exists recs s',
      Api.get_user_recommendations lcg demo 7 3 0%Z = (Ok recs, s') /\
      Forall (fun r => (0.5 <= Api.score r /\ Api.score r < 0.9) /\
                       In (Api.reason r) Api.reasons) recs) /\
  (exists recs s',
      App.get_recommendations lcg demo None None 3 0%Z = (Ok recs, s') /\
      Forall (fun r => (0.7 <= App.score r /\ App.score r <= 0.95) /\
                       App.reason r = "Basé sur vos préférences"%string)
        recs).
Proof.
  split; eexists; eexists.
  - assert (Hrec : Api.get_user_recommendations lcg demo 7 3 0%Z
                   = (Ok ?[recs], ?[s'])) by (vm_compute; reflexivity).
    split; [exact Hrec|].
    exact (proj1 (X19_scores_and_reasons lcg demo 3 0%Z _) 7%Z _ Hrec).
  - assert (Hrec : App.get_recommendations lcg demo None None 3 0%Z
                   = (Ok ?[recs2], ?[s2])) by (vm_compute; reflexivity).
    split; [exact Hrec|].
    exact (proj2 (X19_scores_and_reasons lcg demo 3 0%Z _) None None _ Hrec).
Defined.

(** X20.  The Streamlit method does not check its [n_recommendations]:
    with a catalogue loaded, a negative number raises the ValueError of
    [DataFrame.sample] and leaves the generator as it was, and any other
    number is answered with a list of as many dictionaries as asked for or,
    if there are fewer, as there are movies, whether the titles are present
    or not. *)
Theorem X20_streamlit_recommendations_by_number :
  forall (G : RandomState) (d : Data) (movies : list MovieRow)
         (user_id : option Z) (movie_title : option string) (n : Z)
         (s : rng G),
    movies_df d = Some movies ->
    ((n < 0)%Z ->
     App.get_recommendations G d user_id movie_title n s
     = (Err (ValueError
               "A negative number of rows requested. Please provide `n` >= 0."),
        s)) /\
    ((0 <= n)%Z ->
     exists recs s',
       App.get_recommendations G d user_id movie_title n s = (Ok recs, s') /\
       Z.of_nat (List.length recs) = Z.min n (Z.of_nat (List.length movies))).
Proof.
  intros G d movies user_id movie_title n s Hm. split.
  - intros Hn. unfold App.get_recommendations. rewrite Hm.
    unfold bind at 1. unfold df_sample.
    destruct (Z.ltb_spec (Z.min n (Z.of_nat (List.length movies))) 0);
      [reflexivity | lia].
  - intros Hn.
    destruct (df_sample_ok G movies
                (Z.min n (Z.of_nat (List.length movies))) s)
      as (sample & s1 & Es & Hlen & _); [lia|].
    destruct (score_rows_spec G sample s1) as (built & s2 & Eb & Ht & _).
    exists (sort_desc App.score built), s2. split.
    + unfold App.get_recommendations. rewrite Hm.
      unfold bind at 1. rewrite Es. unfold bind at 1. rewrite Eb.
      reflexivity.
    + rewrite sort_desc_length, <- (length_map App.title), Ht, length_map,
        Hlen. lia.
Qed.

Lemma X20_witness :
  App.get_recommendations lcg demo None None (-1) 0%Z
  = (Err (ValueError
            "A negative number of rows requested. Please provide `n` >= 0."),
     0%Z).
Proof.
  apply (proj1 (X20_streamlit_recommendations_by_number lcg demo demo_movies
                  None None (-1) 0%Z eq_refl)).
  lia.
Defined.

(** ** The scores are not blended *)

Section HybridFacts.

Import Hybrid.

Variable source : Candidate -> option Q.

Lemma lowest_le (x : Q) (xs : list Q) :
  lowest x xs <= x /\ Forall (fun y => lowest x xs <= y) xs.
Proof.
  induction xs as [|y xs [IHx IHall]]; simpl.
  - split; [apply Qle_refl | constructor].
  - fold (lowest x xs). destruct (Qle_bool y (lowest x xs)) eqn:E.
    + apply Qle_bool_iff in E. split; [eapply Qle_trans; eassumption|].
      constructor; [apply Qle_refl|].
      eapply Forall_impl; [|exact IHall]. simpl. intros a Ha.
      eapply Qle_trans; eassumption.
    + assert (Hlt : lowest x xs <= y).
      { destruct (Qlt_le_dec (lowest x xs) y) as [H|H];
          [apply Qlt_le_weak, H|].
        apply Qle_bool_iff in H. congruence. }
      split; [exact IHx|]. constructor; assumption.
Qed.

Lemma highest_ge (x : Q) (xs : list Q) :
  x <= highest x xs /\ Forall (fun y => y <= highest x xs) xs.
Proof.
  induction xs as [|y xs [IHx IHall]]; simpl.
  - split; [apply Qle_refl | constructor].
  - fold (highest x xs). destruct (Qle_bool (highest x xs) y) eqn:E.
    + apply Qle_bool_iff in E. split; [eapply Qle_trans; eassumption|].
      constructor; [apply Qle_refl|].
      eapply Forall_impl; [|exact IHall]. simpl. intros a Ha.
      eapply Qle_trans; eassumption.
    + assert (Hlt : y <= highest x xs).
      { destruct (Qlt_le_dec y (highest x xs)) as [H|H];
          [apply Qlt_le_weak, H|].
        apply Qle_bool_iff in H. congruence. }
      split; [exact IHx|]. constructor; assumption.
Qed.

(** the lowest score is the score of one of the entries *)
Lemma lowest_In (x : Q) (xs : list Q) : In (lowest x xs) (x :: xs).
Proof.
  induction xs as [|y xs IH]; simpl; [auto|].
  fold (lowest x xs). destruct (Qle_bool y (lowest x xs)); [auto|].
  destruct IH as [H|H]; [left; exact H | right; right; exact H].
Qed.

Lemma scores_of_In (cands : list Candidate) (x : Q) :
  In x (scores_of source cands) <->
  exists c, In c cands /\ source c = Some x.
Proof.
  unfold scores_of. rewrite in_flat_map. split.
  - intros (c & Hc & Hx). exists c. split; [exact Hc|].
    destruct (source c) as [y|]; [|destruct Hx].
    destruct Hx as [->|[]]. reflexivity.
  - intros (c & Hc & Hx). exists c. split; [exact Hc|].
    rewrite Hx. left. reflexivity.
Qed.

(** a normalized score lies between 0 and 1 *)
Lemma normalized_range (cands : list Candidate) (c : Candidate) :
  In c cands -> 0 <= normalized source cands c <= 1.
Proof.
  intros Hc. unfold normalized.
  destruct (source c) as [x|] eqn:Ex; [|split; [apply Qle_refl | discriminate]].
  destruct (scores_of source cands) as [|y ys] eqn:Es;
    [split; [apply Qle_refl | discriminate]|].
  assert (Hx : In x (y :: ys)).
  { rewrite <- Es. apply scores_of_In. exists c. auto. }
  destruct (lowest_le y ys) as [Hlo Hlos].
  destruct (highest_ge y ys) as [Hhi His].
  assert (Hbounds : lowest y ys <= x <= highest y ys).
  { rewrite Forall_forall in Hlos, His.
    destruct Hx as [<-|Hx]; split; auto. }
  destruct (Qlt_le_dec (lowest y ys) (highest y ys)) as [Hlt|Hge].
  - assert (Hpos : 0 < highest y ys - lowest y ys) by lra.
    split.
    + apply Qle_shift_div_l; [exact Hpos | lra].
    + apply Qle_shift_div_r; [exact Hpos | lra].
  - assert (Hzero : highest y ys - lowest y ys == 0) by lra.
    unfold Qdiv. rewrite Hzero.
    change (/ 0) with 0. split; lra.
Qed.

(** the entry with the lowest score is normalized to 0 *)
Lemma normalized_lowest (cands : list Candidate) :
  scores_of source cands <> [] ->
  exists c, In c cands /\ normalized source cands c == 0.
Proof.
  intros Hne.
  destruct (scores_of source cands) as [|y ys] eqn:Es; [congruence|].
  pose proof (lowest_In y ys) as Hin. rewrite <- Es in Hin.
  apply scores_of_In in Hin. destruct Hin as (c & Hc & Hx).
  exists c. split; [exact Hc|].
  unfold normalized. rewrite Hx, Es.
  unfold Qdiv. setoid_replace (lowest y ys - lowest y ys) with 0 by ring.
  ring.
Qed.

End HybridFacts.

(** among the final scores of a candidate set there is one of at most
    0.4 *)
Lemma blended_low_score (scores : list Q) :
  scores <> [] ->
  Hybrid.blended scores ->
  exists q, In q scores /\ q <= 0.4.
Proof.
  intros Hne (cands & Heither & Hfinal).
  assert (Hlow : exists c, In c cands /\ Hybrid.finalScore 0.6 0.4 cands c <= 0.4).
  { unfold Hybrid.finalScore, Hybrid.weights.
    destruct (Hybrid.scores_of Hybrid.cfScore cands) as [|x xs] eqn:Ecf.
    - destruct (Hybrid.scores_of Hybrid.cbScore cands) as [|y ys] eqn:Ecb.
      + exfalso.
        assert (Hsome : exists c, In c cands).
        { pose proof (Forall2_length Hfinal) as Hl.
          destruct cands as [|c cs]; [|exists c; left; reflexivity].
          destruct scores; [congruence | discriminate Hl]. }
        destruct Hsome as (c & Hin0).
        rewrite Forall_forall in Heither.
        destruct (Heither c Hin0) as [Hc|Hc].
        * destruct (Hybrid.cfScore c) as [v|] eqn:Ev; [|congruence].
          assert (Hin : In v (Hybrid.scores_of Hybrid.cfScore cands))
            by (apply scores_of_In; exists c; auto).
          rewrite Ecf in Hin. destruct Hin.
        * destruct (Hybrid.cbScore c) as [v|] eqn:Ev; [|congruence].
          assert (Hin : In v (Hybrid.scores_of Hybrid.cbScore cands))
            by (apply scores_of_In; exists c; auto).
          rewrite Ecb in Hin. destruct Hin.
      + destruct (normalized_lowest Hybrid.cbScore cands) as (c & Hc & Hz);
          [rewrite Ecb; discriminate|].
        exists c. split; [exact Hc|]. simpl. rewrite Hz. lra.
    - destruct (normalized_lowest Hybrid.cfScore cands) as (c & Hc & Hz);
        [rewrite Ecf; discriminate|].
      exists c. split; [exact Hc|].
      pose proof (normalized_range Hybrid.cbScore cands c Hc) as Hcb.
      destruct (Hybrid.scores_of Hybrid.cbScore cands) as [|y ys];
        simpl; rewrite Hz.
      + lra.
      + setoid_replace (0.4 / (0.6 + 0.4)) with 0.4 by reflexivity.
        lra. }
  destruct Hlow as (c & Hc & Hle).
  assert (Hq : forall qs cs,
             Forall2 (fun q c0 => q == Hybrid.finalScore 0.6 0.4 cands c0)
               qs cs ->
             In c cs ->
             exists q, In q qs /\ q == Hybrid.finalScore 0.6 0.4 cands c).
  { intros qs cs H. induction H as [|q c0 qs cs Hq _ IH]; intros Hin;
      [destruct Hin|].
    destruct Hin as [->|Hin].
    - exists q. split; [left; reflexivity | exact Hq].
    - destruct (IH Hin) as (q' & Hq' & E). exists q'. split; [right|]; auto. }
  destruct (Hq scores cands Hfinal Hc) as (q & Hin & E).
  exists q. split; [exact Hin|]. rewrite E. exact Hle.
Qed.

(** Whatever the generator, the API answers user 7, who asks for 50
    recommendations over the four movies of [demo], with all four of
    them, nothing being truncated, and every score is at least 0.5; among
    the final scores of a candidate set that were blended from min-max
    normalized sources there is one of at most 0.4.  The scores returned
    are not such a blend. *)
Lemma scores_are_not_blended :
  forall (G : RandomState) (s : rng G),
    exists recs s',
      Api.get_user_recommendations G demo 7 50 s = (Ok recs, s') /\
      List.length recs = 4%nat /\
      Forall (fun r => 0.5 <= Api.score r) recs /\
      ~ Hybrid.blended (map Api.score recs).
Proof.
  intros G s.
  destruct (get_user_recommendations_returns G demo demo_movies 7 50 s
              eq_refl demo_titles_present)
    as (recs & s' & H); [lia | unfold seed_bound; lia |].
  exists recs, s'. split; [exact H|].
  assert (Hlen : List.length recs = 4%nat).
  { pose proof (get_user_recommendations_ranked G demo 7 50 s s' recs H)
      as (movies & sample & s1 & built & Hm & _ & _ & _ & Hp).
    assert (movies = demo_movies) by (simpl in Hm; congruence). subst movies.
    destruct Hp as (_ & _ & _ & Hl & _). simpl in Hl. lia. }
  assert (Hscores : Forall (fun r => 0.5 <= Api.score r) recs).
  { destruct (get_user_recommendations_built G demo demo_movies 7 50 s s'
                recs eq_refl H) as (sample & built & _ & _ & Hb & Hp).
    apply Forall_forall. intros r Hr.
    apply (Permutation_in _ (Permutation_sym Hp)) in Hr.
    destruct (Forall2_In_r _ _ _ _ Hb Hr) as (row & _ & _ & (Hlo & _) & _).
    exact Hlo. }
  split; [exact Hlen|]. split; [exact Hscores|].
  intros Hb.
  destruct (blended_low_score (map Api.score recs)) as (q & Hq & Hle).
  - destruct recs; [discriminate Hlen | discriminate].
  - exact Hb.
  - apply in_map_iff in Hq. destruct Hq as (r & <- & Hr).
    rewrite Forall_forall in Hscores. specialize (Hscores r Hr). lra.
Qed.

(** C3, as stated, fails.  With numpy's generator the API answers user 7,
    who asks for 50 recommendations over the four movies of [demo], with
    all four of them and scores of at least 0.5, which are not the final
    scores of a blend of min-max normalized sources: these would include
    one of at most 0.4. *)
Lemma C3_counterexample :
  exists recs s',
    Api.get_user_recommendations numpy demo 7 50 (Mt19937.seed 0)
      = (Ok recs, s') /\
    List.length recs = 4%nat /\
    Forall (fun r => 0.5 <= Api.score r) recs /\
    ~ Hybrid.blended (map Api.score recs).
Proof. exact (scores_are_not_blended numpy (Mt19937.seed 0)). Qed.

Example recommendations_of_user_7_of_50 :
  recommended_ids
    (fst (Api.get_user_recommendations numpy demo 7 50 (Mt19937.seed 0)))
    = Some [2; 3; 1; 6]%Z.
Proof. vm_compute. reflexivity. Qed.
